(** * Airline KPI and data-quality scripts: a shallow embedding

    The development follows three scripts of the repository:
    - [exploration_dq_checks.py]  (module [DQ]),
    - [exploration_insights.py]   (module [Insights]),
    - [kpi_viz.py]                (module [KPI]).

    Tables are lists of records.  A numeric cell is an [option Q] where
    [None] is pandas' NaN; a date cell is an [option Z] (days since
    1970-01-01, [None] is NaT); a text cell is an [option string] where
    [None] is a missing value.  Module [Py] holds the Python and pandas
    primitives the scripts are written with. *)

From Stdlib Require Import ZArith QArith List String Ascii Bool Lia.
From Stdlib Require Import DecimalString Sorted Permutation.
Import ListNotations.

Local Open Scope string_scope.
Local Open Scope Q_scope.

(* ===================================================================== *)
(** * Python and pandas primitives *)
(* ===================================================================== *)

Module Py.

(** ** Scalars found in an object column *)

Inductive pyval : Type :=
| NaN
| PStr (s : string)
| PInt (z : Z).

(** [pd.isna(x)] on a scalar. *)
Definition isna (x : pyval) : bool :=
  match x with NaN => true | _ => false end.

(** [str(x)]. *)
Definition str (x : pyval) : string :=
  match x with
  | NaN => "nan"
  | PStr s => s
  | PInt z => NilZero.string_of_int (Z.to_int z)
  end.

(** [Series.astype(str)] on a text column: a missing cell becomes "nan". *)
Definition astype_str (x : option string) : string :=
  match x with Some s => s | None => "nan" end.

(** ** Characters *)

Definition code (c : ascii) : N := N_of_ascii c.

(** [\d] of module [re] and its complement [\D], on the ASCII range. *)
Definition is_digit (c : ascii) : bool :=
  (48 <=? code c)%N && (code c <=? 57)%N.

(** Characters removed by [str.strip()]: tab, line feed, vertical tab, form
    feed, carriage return, the four separators 28..31 and the space. *)
Definition is_space (c : ascii) : bool :=
  ((9 <=? code c)%N && (code c <=? 13)%N)
  || ((28 <=? code c)%N && (code c <=? 32)%N).

Definition upper_char (c : ascii) : ascii :=
  if (97 <=? code c)%N && (code c <=? 122)%N
  then ascii_of_N (code c - 32)
  else c.

(** ** Strings *)

Fixpoint lstrip (s : string) : string :=
  match s with
  | EmptyString => EmptyString
  | String c s' => if is_space c then lstrip s' else s
  end.

Fixpoint rstrip (s : string) : string :=
  match s with
  | EmptyString => EmptyString
  | String c s' =>
      match rstrip s' with
      | EmptyString => if is_space c then EmptyString else String c EmptyString
      | r => String c r
      end
  end.

(** [s.strip()] *)
Definition strip (s : string) : string := rstrip (lstrip s).

(** [s.upper()] *)
Fixpoint upper (s : string) : string :=
  match s with
  | EmptyString => EmptyString
  | String c s' => String (upper_char c) (upper s')
  end.

(** [s.replace(' ', '')] *)
Fixpoint remove_spaces (s : string) : string :=
  match s with
  | EmptyString => EmptyString
  | String c s' =>
      if Ascii.eqb c " "%char then remove_spaces s' else String c (remove_spaces s')
  end.

(** [re.sub(r'\D+', '', s)]: every maximal run of non-digits is deleted,
    which leaves the digits of [s] in their order. *)
Fixpoint sub_nondigits (s : string) : string :=
  match s with
  | EmptyString => EmptyString
  | String c s' =>
      if is_digit c then String c (sub_nondigits s') else sub_nondigits s'
  end.

Fixpoint all_digits (s : string) : bool :=
  match s with
  | EmptyString => true
  | String c s' => is_digit c && all_digits s'
  end.

Fixpoint contains_char (c : ascii) (s : string) : bool :=
  match s with
  | EmptyString => false
  | String c' s' => Ascii.eqb c c' || contains_char c s'
  end.

(** ** Numeric cells *)

Definition Qltb (a b : Q) : bool := negb (Qle_bool b a).

(** [x > 0], [x < 0], [x == 0] on a float cell; a NaN compares false. *)
Definition gt0 (x : option Q) : bool :=
  match x with Some q => Qltb 0 q | None => false end.

Definition lt0 (x : option Q) : bool :=
  match x with Some q => Qltb q 0 | None => false end.

Definition eq0 (x : option Q) : bool :=
  match x with Some q => Qeq_bool q 0 | None => false end.

Definition notna {A} (x : option A) : bool :=
  match x with Some _ => true | None => false end.

Definition fillna0 (x : option Q) : Q :=
  match x with Some q => q | None => 0 end.

(** [Series.dropna()] *)
Fixpoint dropna {A} (l : list (option A)) : list A :=
  match l with
  | [] => []
  | Some a :: t => a :: dropna t
  | None :: t => dropna t
  end.

Definition Qsum (l : list Q) : Q := fold_right Qplus 0 l.

(** [sum(skipna=True)]: NaN cells are left out; the empty sum is 0. *)
Definition sum_skipna (l : list (option Q)) : Q := Qsum (dropna l).

Definition Qlen {A} (l : list A) : Q := inject_Z (Z.of_nat (List.length l)).

(** [mean()] of a float column: NaN cells are left out; NaN when nothing
    is left. *)
Definition mean_skipna (l : list (option Q)) : option Q :=
  match dropna l with
  | [] => None
  | xs => Some (Qsum xs / Qlen xs)
  end.

(** [a / b] on float cells: NaN when either side is NaN. *)
Definition odiv (a b : option Q) : option Q :=
  match a, b with
  | Some x, Some y => Some (x / y)
  | _, _ => None
  end.

(** [np.where(cond, a, np.nan)] at one position. *)
Definition where_else_nan (cond : bool) (a : option Q) : option Q :=
  if cond then a else None.

(** ** Weekdays *)

Inductive weekday : Type :=
| Monday | Tuesday | Wednesday | Thursday | Friday | Saturday | Sunday.

Definition DOW_ORDER : list weekday :=
  [Monday; Tuesday; Wednesday; Thursday; Friday; Saturday; Sunday].

Definition weekday_index (d : weekday) : Z :=
  match d with
  | Monday => 0 | Tuesday => 1 | Wednesday => 2 | Thursday => 3
  | Friday => 4 | Saturday => 5 | Sunday => 6
  end%Z.

Definition weekday_name (d : weekday) : string :=
  match d with
  | Monday => "Monday" | Tuesday => "Tuesday" | Wednesday => "Wednesday"
  | Thursday => "Thursday" | Friday => "Friday" | Saturday => "Saturday"
  | Sunday => "Sunday"
  end.

Definition weekday_eqb (a b : weekday) : bool :=
  (weekday_index a =? weekday_index b)%Z.

(** Order of the day names as strings (the order of a groupby over the
    name column). *)
Definition weekday_name_leb (a b : weekday) : bool :=
  String.leb (weekday_name a) (weekday_name b).

(** Order of the ordered categorical with categories [DOW_ORDER]. *)
Definition weekday_cat_leb (a b : weekday) : bool :=
  (weekday_index a <=? weekday_index b)%Z.

(** [Timestamp.day_name()]; day 0 (1970-01-01) is a Thursday. *)
Definition day_name_of (d : Z) : weekday :=
  match ((d + 3) mod 7)%Z with
  | 0%Z => Monday | 1%Z => Tuesday | 2%Z => Wednesday | 3%Z => Thursday
  | 4%Z => Friday | 5%Z => Saturday | _ => Sunday
  end.

(** [Series.dt.day_name()]: NaT gives a missing name. *)
Definition day_name (d : option Z) : option weekday :=
  option_map day_name_of d.

(** ** Keys: equality and order *)

Definition option_eqb {A} (eqb : A -> A -> bool) (x y : option A) : bool :=
  match x, y with
  | Some a, Some b => eqb a b
  | None, None => true
  | _, _ => false
  end.

(** A missing key sorts after every present key. *)
Definition option_leb {A} (leb : A -> A -> bool) (x y : option A) : bool :=
  match x, y with
  | Some a, Some b => leb a b
  | Some _, None => true
  | None, Some _ => false
  | None, None => true
  end.

Definition pair_eqb {A B} (ea : A -> A -> bool) (eb : B -> B -> bool)
  (x y : A * B) : bool :=
  ea (fst x) (fst y) && eb (snd x) (snd y).

(** Lexicographic order. *)
Definition pair_leb {A B} (ea : A -> A -> bool) (la : A -> A -> bool)
  (lb : B -> B -> bool) (x y : A * B) : bool :=
  if ea (fst x) (fst y) then lb (snd x) (snd y) else la (fst x) (fst y).

(** ** groupby, reindex, merge *)

Section Frames.

Context {K : Type} (eqb : K -> K -> bool) (leb : K -> K -> bool).

Fixpoint unique (l : list K) : list K :=
  match l with
  | [] => []
  | k :: t => k :: filter (fun x => negb (eqb k x)) (unique t)
  end.

Fixpoint insert_key (k : K) (l : list K) : list K :=
  match l with
  | [] => [k]
  | h :: t => if leb k h then k :: l else h :: insert_key k t
  end.

Definition sort_keys (l : list K) : list K := fold_right insert_key [] l.

Definition has_key {R} (key : R -> option K) (k : K) (r : R) : bool :=
  match key r with Some k' => eqb k k' | None => false end.

(** [df.groupby(key)]: rows with a missing key are dropped, the groups come
    in the order of their keys, each group keeps its rows in table
    order. *)
Definition groupby {R} (key : R -> option K) (rows : list R)
  : list (K * list R) :=
  map (fun k => (k, filter (has_key key k) rows))
      (sort_keys (unique (dropna (map key rows)))).

(** Lookup in a series or a dict by key. *)
Fixpoint lookup {V} (k : K) (s : list (K * V)) : option V :=
  match s with
  | [] => None
  | (k', v) :: t => if eqb k k' then Some v else lookup k t
  end.

(** [series.reindex(order)]: the labels of [order], in that order; a label
    without an entry gets a missing value. *)
Definition reindex {V} (order : list K) (s : list (K * V))
  : list (K * option V) :=
  map (fun k => (k, lookup k s)) order.

(** The same on a float series, where the missing value is NaN. *)
Definition reindex_float (order : list K) (s : list (K * option Q))
  : list (K * option Q) :=
  map (fun kv => (fst kv, match snd kv with Some v => v | None => None end))
      (reindex order s).

(** [dict.get(k, default)] *)
Definition dict_get_default {V} (k : K) (default : V) (d : list (K * V)) : V :=
  match lookup k d with Some v => v | None => default end.

(** [left.merge(right, how="left")] on one key per side: a left row is
    paired with every right row of the same key, or once with nothing. *)
Definition merge_left {L R} (lkey : L -> K) (rkey : R -> K)
  (left : list L) (right : list R) : list (L * option R) :=
  flat_map
    (fun l =>
       match filter (fun r => eqb (lkey l) (rkey r)) right with
       | [] => [(l, None)]
       | ms => map (fun r => (l, Some r)) ms
       end)
    left.

End Frames.

Section Outer.

Context {K : Type} (eqb : K -> K -> bool) (leb : K -> K -> bool).

(** [left.merge(right, how="outer")] on one key per side: the keys of
    either side, each once and in sorted order (an outer merge sorts its
    keys); a key of both sides pairs every left row with every right row,
    a key of one side gives the rows of that side with nothing on the
    other. *)
Definition merge_outer {L R} (lkey : L -> K) (rkey : R -> K)
  (left : list L) (right : list R) : list (K * option L * option R) :=
  flat_map
    (fun k =>
       match filter (fun l => eqb k (lkey l)) left,
             filter (fun r => eqb k (rkey r)) right with
       | [], rs => map (fun r => (k, None, Some r)) rs
       | ls, [] => map (fun l => (k, Some l, None)) ls
       | ls, rs => flat_map (fun l => map (fun r => (k, Some l, Some r)) rs) ls
       end)
    (sort_keys leb (unique eqb (map lkey left ++ map rkey right))).

(** A float column of the merged table: NaN where the row has no
    partner. *)
Definition cell_of {A} (f : A -> option Q) (x : option A) : option Q :=
  match x with Some a => f a | None => None end.

End Outer.

(** ** More string functions *)

Definition lower_char (c : ascii) : ascii :=
  if (65 <=? code c)%N && (code c <=? 90)%N
  then ascii_of_N (code c + 32)
  else c.

(** [s.lower()] *)
Fixpoint lower (s : string) : string :=
  match s with
  | EmptyString => EmptyString
  | String c s' => String (lower_char c) (lower s')
  end.

(** [re.sub(r"\s+", "_", s)], reading [s] from the left; [in_run] tells
    that the character before was whitespace, so that a run of whitespace
    gives one underscore. *)
Fixpoint sub_ws_from (in_run : bool) (s : string) : string :=
  match s with
  | EmptyString => EmptyString
  | String c s' =>
      if is_space c
      then (if in_run then sub_ws_from true s'
            else String "_"%char (sub_ws_from true s'))
      else String c (sub_ws_from false s')
  end.

Definition sub_ws (s : string) : string := sub_ws_from false s.

Fixpoint no_space (s : string) : bool :=
  match s with
  | EmptyString => true
  | String c s' => negb (is_space c) && no_space s'
  end.

Fixpoint no_upper (s : string) : bool :=
  match s with
  | EmptyString => true
  | String c s' =>
      negb ((65 <=? code c)%N && (code c <=? 90)%N) && no_upper s'
  end.

(** [next((v for v in s if pd.notna(v)), np.nan)] *)
Fixpoint first_notna {A} (l : list (option A)) : option A :=
  match l with
  | [] => None
  | Some a :: _ => Some a
  | None :: t => first_notna t
  end.

(** [a - b] on float cells. *)
Definition osub (a b : option Q) : option Q :=
  match a, b with
  | Some x, Some y => Some (x - y)
  | _, _ => None
  end.

Definition oneg (a : option Q) : option Q := option_map Qopp a.

End Py.

(* ===================================================================== *)
(** * The three sheets of the workbook *)
(* ===================================================================== *)

Module Data.

Import Py.

(** A row of sheet "Booking", after [pd.to_datetime(errors="coerce")] and
    [pd.to_numeric(errors="coerce")] turned what does not parse into a
    missing cell. *)
Record Booking : Type := mkBooking {
  bookingid : pyval;
  reservation_date : option Z;
  cancellation_date : option Z;
  flight_date : option Z;
  origin : option string;
  destination : option string;
  passengercount : option Q;
  rev_ticket : option Q;
  rev_ancillary_pre_check_in : option Q;
  rev_ancillary_at_check_in : option Q;
  flightnumber : option Z;
  routing : option string
}.

(** A row of sheet "Passenger". *)
Record Passenger : Type := mkPassenger {
  p_bookingid : pyval;
  booking_channel : option string;
  device_used : option string
}.

(** A row of sheet "Flight". *)
Record Flight : Type := mkFlight {
  f_flightnumber : option Z;
  flightdate : option Z;
  availablecapacity : option Q;
  timeofday : option string;
  routetype : option string
}.

(** A data frame: the column labels it has and its rows.  A cell of a row
    is looked at only after its column was found among the labels. *)
Record Frame (R : Type) : Type := mkFrame {
  columns : list string;
  rows : list R
}.

Arguments mkFrame {R} _ _.
Arguments columns {R} _.
Arguments rows {R} _.

(** [booking[rev_cols].sum(axis=1, skipna=True)] at one row. *)
Definition rev_cells (b : Booking) : list (option Q) :=
  [rev_ticket b; rev_ancillary_pre_check_in b; rev_ancillary_at_check_in b].

Definition row_sum_skipna (b : Booking) : Q := sum_skipna (rev_cells b).

(** Keys of a leg: flight number, flight date, origin, destination. *)
Definition flight_key : Type := option Z * option Z.

Definition flight_key_eqb : flight_key -> flight_key -> bool :=
  pair_eqb (option_eqb Z.eqb) (option_eqb Z.eqb).

Definition flight_key_leb : flight_key -> flight_key -> bool :=
  pair_leb (option_eqb Z.eqb) (option_leb Z.leb) (option_leb Z.leb).

End Data.

(* ===================================================================== *)
(** * exploration_dq_checks.py *)
(* ===================================================================== *)

Module DQ.

Import Py Data.

(** ** Column lookup: indexing a frame by a label it lacks raises KeyError *)

Inductive result (A : Type) : Type :=
| Ok (a : A)
| KeyError (missing : list string).

Arguments Ok {A} _.
Arguments KeyError {A} _.

Definition bind {A B} (m : result A) (f : A -> result B) : result B :=
  match m with
  | Ok a => f a
  | KeyError ms => KeyError ms
  end.

Notation "x <- m ;; k" := (bind m (fun x => k))
  (at level 61, m at next level, right associativity).

Definition has_col (cols : list string) (c : string) : bool :=
  existsb (String.eqb c) cols.

(** [set(need).issubset(df.columns)] *)
Definition issubset (need cols : list string) : bool :=
  forallb (has_col cols) need.

(** [df[c]] *)
Definition getitem (cols : list string) (c : string) : result unit :=
  if has_col cols c then Ok tt else KeyError [c].

(** [df[[c1; ...; cn]]] and [df.duplicated(subset=[...])]: the error names
    every label that is absent. *)
Definition getitems (cols : list string) (cs : list string) : result unit :=
  match filter (fun c => negb (has_col cols c)) cs with
  | [] => Ok tt
  | ms => KeyError ms
  end.

(** [df.groupby([c1; ...; cn])]: the error names the first absent label. *)
Definition groupby_labels (cols : list string) (cs : list string)
  : result unit :=
  match filter (fun c => negb (has_col cols c)) cs with
  | [] => Ok tt
  | m :: _ => KeyError [m]
  end.

(** [df[c] = ...] *)
Definition setitem (cols : list string) (c : string) : list string :=
  if has_col cols c then cols else cols ++ [c].

Definition REV_COLS : list string :=
  [ "revenue_per_booking_(ticket)";
    "revenue_per_booking_(ancilliary_pre_check_in)";
    "revenue_per_booking_(ancilliary_at_check_in)" ].

(** ** normalize_booking_id *)

Definition normalize_booking_id (x : pyval) : pyval :=
  if isna x then NaN
  else
    let s := strip (str x) in
    let s_num := sub_nondigits s in
    if negb (String.eqb s_num "") then PStr s_num else NaN.

(** ** add_derived *)

Record BookingD : Type := mkBookingD {
  raw :> Booking;
  bookingid_norm : pyval;
  routing_canonical : string
}.

Record PassengerD : Type := mkPassengerD {
  praw :> Passenger;
  p_bookingid_norm : pyval
}.

Definition derive_booking (b : Booking) : BookingD :=
  mkBookingD b
    (normalize_booking_id (bookingid b))
    (strip (upper (astype_str (origin b))) ++ "-"
       ++ strip (upper (astype_str (destination b)))).

Definition derive_passenger (p : Passenger) : PassengerD :=
  mkPassengerD p (normalize_booking_id (p_bookingid p)).

(** The two id columns and the routing column are computed from labels
    the function indexes without a guard.  The conversions of the date and
    number columns in between are guarded by [if c in df.columns] and raise
    nothing; a cell of such a column is kept here as the date or number it
    converts to, [None] when it converts to NaT or NaN. *)
Definition add_derived (booking : Frame Booking) (passenger : Frame Passenger)
  (flight : Frame Flight)
  : result (Frame BookingD * Frame PassengerD * Frame Flight) :=
  _ <- getitem (columns booking) "bookingid_(pnr)" ;;
  _ <- getitem (columns passenger) "bookingid" ;;
  _ <- getitem (columns booking) "origin" ;;
  _ <- getitem (columns booking) "destination" ;;
  Ok (mkFrame
        (setitem (setitem (columns booking) "bookingid_norm")
           "routing_canonical")
        (map derive_booking (rows booking)),
      mkFrame (setitem (columns passenger) "bookingid_norm")
        (map derive_passenger (rows passenger)),
      flight).

(** ** Comparisons of cells; a missing side compares false *)

Definition date_lt (a b : option Z) : bool :=
  match a, b with
  | Some x, Some y => (x <? y)%Z
  | _, _ => false
  end.

Definition num_gt (a : Q) (b : option Q) : bool :=
  match b with Some y => Qltb y a | None => false end.

Definition cell_lt (a : option Q) (c : Q) : bool :=
  match a with Some x => Qltb x c | None => false end.

Definition cell_gt (a : option Q) (c : Q) : bool :=
  match a with Some x => Qltb c x | None => false end.

(** ** Keys *)

Definition pyval_eqb (a b : pyval) : bool :=
  match a, b with
  | NaN, NaN => true
  | PStr s, PStr t => String.eqb s t
  | PInt x, PInt y => (x =? y)%Z
  | _, _ => false
  end.

Definition pyval_leb (a b : pyval) : bool := String.leb (str a) (str b).

Definition od_key : Type := option string * option string.

Definition od_key_eqb : od_key -> od_key -> bool :=
  pair_eqb (option_eqb String.eqb) (option_eqb String.eqb).

Definition od_key_leb : od_key -> od_key -> bool :=
  pair_leb (option_eqb String.eqb) (option_leb String.leb)
    (option_leb String.leb).

Definition leg_key : Type := flight_key * od_key.

Definition leg_key_eqb : leg_key -> leg_key -> bool :=
  pair_eqb flight_key_eqb od_key_eqb.

Definition leg_key_leb : leg_key -> leg_key -> bool :=
  pair_leb flight_key_eqb flight_key_leb od_key_leb.

Definition leg_key_of (b : BookingD) : leg_key :=
  ((flightnumber b, flight_date b), (origin b, destination b)).

Definition dup_key : Type := pyval * leg_key.

Definition dup_key_eqb : dup_key -> dup_key -> bool :=
  pair_eqb pyval_eqb leg_key_eqb.

Definition dup_key_of (b : BookingD) : dup_key :=
  (bookingid_norm b, leg_key_of b).

(** ** The leg table of check 6 *)

Record Leg : Type := mkLeg {
  l_flightnumber : option Z;
  l_flight_date : option Z;
  l_origin : option string;
  l_destination : option string;
  pax : Q;
  l_flightdate : option Z;
  l_availablecapacity : option Q;
  capacity_anomaly : bool
}.

Definition leg_groups (b : list BookingD) : list (leg_key * Q) :=
  map (fun g => (fst g, sum_skipna (map (fun r : BookingD => passengercount r) (snd g))))
      (groupby leg_key_eqb leg_key_leb (fun r => Some (leg_key_of r)) b).

Definition leg_row (m : (leg_key * Q) * option Flight) : Leg :=
  let k := fst (fst m) in
  let p := snd (fst m) in
  let cap := match snd m with Some f => availablecapacity f | None => None end in
  mkLeg (fst (fst k)) (snd (fst k)) (fst (snd k)) (snd (snd k)) p
    (match snd m with Some f => flightdate f | None => None end)
    cap
    (num_gt p cap && notna cap).

Definition leg_table (b : list BookingD) (f : list Flight) : list Leg :=
  map leg_row
    (merge_left flight_key_eqb
       (fun g : leg_key * Q => fst (fst g))
       (fun r : Flight => (f_flightnumber r, flightdate r))
       (leg_groups b) f).

(** ** The checks *)

Inductive Anomalies : Type :=
| BookingRows (l : list BookingD)
| PassengerRows (l : list PassengerD)
| LegRows (l : list Leg).

Definition len (a : Anomalies) : nat :=
  match a with
  | BookingRows l => List.length l
  | PassengerRows l => List.length l
  | LegRows l => List.length l
  end.

(** [out[k] = v] on a dict, which keeps insertion order. *)
Fixpoint dict_set {V} (k : string) (v : V) (d : list (string * V))
  : list (string * V) :=
  match d with
  | [] => [(k, v)]
  | (k', v') :: t =>
      if String.eqb k k' then (k, v) :: t else (k', v') :: dict_set k v t
  end.

Fixpoint dict_get {V} (k : string) (d : list (string * V)) : option V :=
  match d with
  | [] => None
  | (k', v) :: t => if String.eqb k k' then Some v else dict_get k t
  end.

Definition id_group_key (r : PassengerD) : option pyval :=
  if isna (p_bookingid_norm r) then None else Some (p_bookingid_norm r).

(** [passenger.groupby('bookingid_norm')[col].nunique(dropna=False)] and
    the ids whose count exceeds 1. *)
Definition multi_ids (col : PassengerD -> option string) (p : list PassengerD)
  : list pyval :=
  map fst
    (filter
       (fun g => negb (isna (fst g))
                 && (1 <? List.length
                            (unique (option_eqb String.eqb) (map col (snd g))))%nat)
       (groupby pyval_eqb pyval_leb id_group_key p)).

(** [passenger['bookingid_norm'].isin(ids)] *)
Definition isin (ids : list pyval) (x : pyval) : bool :=
  existsb (pyval_eqb x) ids.

Definition mask_canceled_with_checkin_ancillary (b : BookingD) : bool :=
  notna (cancellation_date b) && gt0 (rev_ancillary_at_check_in b).

Definition mask_cancellation_before_reservation (b : BookingD) : bool :=
  notna (cancellation_date b) && notna (reservation_date b)
  && date_lt (cancellation_date b) (reservation_date b).

Definition mask_reservation_after_flight (b : BookingD) : bool :=
  notna (reservation_date b) && notna (flight_date b)
  && date_lt (flight_date b) (reservation_date b).

Definition total_revenue (b : BookingD) : Q := row_sum_skipna b.

Definition mask_revenue_with_zero_passengers (b : BookingD) : bool :=
  eq0 (passengercount b) && Qltb 0 (total_revenue b).

Definition neg_rev (b : BookingD) : bool :=
  existsb lt0 (rev_cells b).

Definition neg_pax (b : BookingD) : bool := lt0 (passengercount b).

Definition SEP_DASH : string := "-".

(** The second separator literal of the script (eight bytes). *)
Definition SEP_ARROW : string := "â†’".

Definition routing_upper (b : BookingD) : string :=
  remove_spaces (upper (astype_str (routing b))).

Definition od_with (sep : string) (b : BookingD) : string :=
  remove_spaces (upper (astype_str (origin b))) ++ sep
    ++ remove_spaces (upper (astype_str (destination b))).

Definition od1 : BookingD -> string := od_with SEP_DASH.
Definition od2 : BookingD -> string := od_with SEP_ARROW.

Definition inconsistent (b : BookingD) : bool :=
  negb (String.eqb (routing_upper b) (od1 b)
        || String.eqb (routing_upper b) (od2 b)).

(** [booking.duplicated(subset=dup_cols, keep=False)] *)
Definition dup_mask (all : list BookingD) (b : BookingD) : bool :=
  (1 <? List.length
          (filter (fun r => dup_key_eqb (dup_key_of b) (dup_key_of r)) all))%nat.

Definition mask_cancellation_with_positive_pax (b : BookingD) : bool :=
  notna (cancellation_date b) && gt0 (passengercount b).

Definition capacity_out_of_range (l : Leg) : bool :=
  notna (l_availablecapacity l)
  && (cell_lt (l_availablecapacity l) 160 || cell_gt (l_availablecapacity l) 200).

Definition dq_checks (booking : Frame BookingD) (passenger : Frame PassengerD)
  (flight : Frame Flight) : result (list (string * Anomalies)) :=
  let bc := columns booking in
  let b := rows booking in
  let pc := columns passenger in
  let p := rows passenger in
  let out := [] in
  (* 1 *)
  let out :=
    if issubset ["cancellation_date"; "revenue_per_booking_(ancilliary_at_check_in)"] bc
    then dict_set "canceled_with_checkin_ancillary"
           (BookingRows (filter mask_canceled_with_checkin_ancillary b)) out
    else out in
  (* 2 *)
  let out :=
    if issubset ["cancellation_date"; "reservation_date"] bc
    then dict_set "cancellation_before_reservation"
           (BookingRows (filter mask_cancellation_before_reservation b)) out
    else out in
  (* 2b *)
  let out :=
    if issubset ["reservation_date"; "flight_date"] bc
    then dict_set "reservation_after_flight"
           (BookingRows (filter mask_reservation_after_flight b)) out
    else out in
  (* 3 *)
  let out :=
    if has_col pc "bookingid_norm" && has_col pc "booking_channel"
    then dict_set "same_booking_multiple_channels"
           (PassengerRows
              (filter (fun r => isin (multi_ids (fun r => booking_channel r) p)
                                  (p_bookingid_norm r)) p)) out
    else out in
  let out :=
    if has_col pc "bookingid_norm" && has_col pc "device_used"
    then dict_set "same_booking_multiple_devices"
           (PassengerRows
              (filter (fun r => isin (multi_ids (fun r => device_used r) p)
                                  (p_bookingid_norm r)) p)) out
    else out in
  (* 4 *)
  _ <- getitems bc REV_COLS ;;
  let bc := setitem bc "total_revenue" in
  _ <- getitem bc "passengercount" ;;
  let out := dict_set "revenue_with_zero_passengers"
               (BookingRows (filter mask_revenue_with_zero_passengers b)) out in
  (* 5 *)
  let out := dict_set "negative_revenue_fields"
               (BookingRows (filter neg_rev b)) out in
  let out := dict_set "negative_passengers"
               (BookingRows (filter neg_pax b)) out in
  (* 6 *)
  _ <- groupby_labels bc ["flightnumber"; "flight_date"; "origin"; "destination"] ;;
  _ <- getitems (columns flight) ["flightnumber"; "flightdate"; "availablecapacity"] ;;
  let leg := leg_table b (rows flight) in
  let out := dict_set "pax_exceeds_capacity"
               (LegRows (filter capacity_anomaly leg)) out in
  let out := dict_set "missing_capacity_for_leg"
               (LegRows (filter (fun l => negb (notna (l_availablecapacity l))) leg))
               out in
  let out := dict_set "capacity_out_of_range"
               (LegRows (filter capacity_out_of_range leg)) out in
  (* 7 *)
  _ <- getitem bc "routing" ;;
  let out := dict_set "routing_inconsistent_with_od"
               (BookingRows (filter inconsistent b)) out in
  (* 8 *)
  _ <- getitems bc ["bookingid_norm"; "flightnumber"; "flight_date"; "origin"; "destination"] ;;
  let out := dict_set "duplicate_legs_within_pnr"
               (BookingRows (filter (dup_mask b) b)) out in
  (* 9 *)
  _ <- getitem bc "cancellation_date" ;;
  let out := dict_set "cancellation_with_positive_pax"
               (BookingRows (filter mask_cancellation_with_positive_pax b)) out in
  (* 10 *)
  let out := dict_set "missing_flight_date"
               (BookingRows (filter (fun r : BookingD => negb (notna (flight_date r))) b))
               out in
  Ok out.

(** ** main: the summary table *)

Definition summary (anomalies : list (string * Anomalies))
  : list (string * nat) :=
  map (fun kv => (fst kv, len (snd kv))) anomalies.

Fixpoint insert_by_count (x : string * nat) (l : list (string * nat))
  : list (string * nat) :=
  match l with
  | [] => [x]
  | h :: t => if (snd h <? snd x)%nat then x :: l else h :: insert_by_count x t
  end.

(** [sort_values(by="count", ascending=False)] *)
Definition sort_by_count_desc (l : list (string * nat)) : list (string * nat) :=
  fold_right insert_by_count [] l.

(** [main] from the loaded sheets to the rows of dq_summary.csv and the
    anomaly sets. *)
Definition run (booking : Frame Booking) (passenger : Frame Passenger)
  (flight : Frame Flight)
  : result (list (string * nat) * list (string * Anomalies)) :=
  d <- add_derived booking passenger flight ;;
  anomalies <- dq_checks (fst (fst d)) (snd (fst d)) (snd d) ;;
  Ok (sort_by_count_desc (summary anomalies), anomalies).

(** ** clean_cols *)

(** One label through [.str.strip().str.replace(r'\s+', '_', regex=True)
    .str.lower()]. *)
Definition clean_col (c : string) : string := lower (sub_ws (strip c)).

Definition clean_cols {R} (df : Frame R) : Frame R :=
  mkFrame (map clean_col (columns df)) (rows df).

End DQ.

(* ===================================================================== *)
(** * exploration_insights.py *)
(* ===================================================================== *)

Module Insights.

Import Py Data.

Definition normalize_booking_id (x : pyval) : pyval :=
  if isna x then NaN
  else
    let s := strip (str x) in
    let s_num := sub_nondigits s in
    (* a string is true when it is not empty *)
    match s_num with
    | EmptyString => NaN
    | _ => PStr s_num
    end.

(** ** Columns added to the booking table, as functions of the row *)

Definition bookingid_norm (b : Booking) : pyval :=
  normalize_booking_id (bookingid b).

Definition total_revenue (b : Booking) : Q := row_sum_skipna b.

Definition origin_norm (b : Booking) : string :=
  strip (upper (astype_str (origin b))).

Definition destination_norm (b : Booking) : string :=
  strip (upper (astype_str (destination b))).

Definition is_cancelled (b : Booking) : bool := notna (cancellation_date b).

Definition flight_dow (b : Booking) : option weekday :=
  day_name (flight_date b).

Definition ancillary_total (b : Booking) : Q :=
  fillna0 (rev_ancillary_pre_check_in b) + fillna0 (rev_ancillary_at_check_in b).

(** ** The leg table *)

Definition od_key : Type := string * string.

Definition od_key_eqb : od_key -> od_key -> bool :=
  pair_eqb String.eqb String.eqb.

Definition od_key_leb : od_key -> od_key -> bool :=
  pair_leb String.eqb String.leb String.leb.

Definition leg_key : Type := flight_key * od_key.

Definition leg_key_eqb : leg_key -> leg_key -> bool :=
  pair_eqb flight_key_eqb od_key_eqb.

Definition leg_key_leb : leg_key -> leg_key -> bool :=
  pair_leb flight_key_eqb flight_key_leb od_key_leb.

Definition leg_key_of (b : Booking) : leg_key :=
  ((flightnumber b, flight_date b), (origin_norm b, destination_norm b)).

(** The aggregates of one group: pax, revenue, cancels. *)
Record LegAgg : Type := mkLegAgg {
  a_key : leg_key;
  a_pax : Q;
  a_revenue : Q;
  a_cancels : nat
}.

Definition leg_agg (g : leg_key * list Booking) : LegAgg :=
  mkLegAgg (fst g)
    (sum_skipna (map passengercount (snd g)))
    (Qsum (map total_revenue (snd g)))
    (List.length (filter is_cancelled (snd g))).

Definition leg_groups (b : list Booking) : list LegAgg :=
  map leg_agg (groupby leg_key_eqb leg_key_leb (fun r => Some (leg_key_of r)) b).

Record Leg : Type := mkLeg {
  l_flightnumber : option Z;
  l_flight_date : option Z;
  l_origin : string;
  l_destination : string;
  pax : Q;
  revenue : Q;
  cancels : nat;
  l_availablecapacity : option Q;
  l_timeofday : option string;
  l_routetype : option string;
  load_factor : option Q;
  rev_per_pax : option Q
}.

Definition leg_row (m : LegAgg * option Flight) : Leg :=
  let a := fst m in
  let cap := match snd m with Some f => availablecapacity f | None => None end in
  mkLeg (fst (fst (a_key a))) (snd (fst (a_key a)))
    (fst (snd (a_key a))) (snd (snd (a_key a)))
    (a_pax a) (a_revenue a) (a_cancels a)
    cap
    (match snd m with Some f => timeofday f | None => None end)
    (match snd m with Some f => routetype f | None => None end)
    (where_else_nan (gt0 cap) (odiv (Some (a_pax a)) cap))
    (where_else_nan (Qltb 0 (a_pax a)) (Some (a_revenue a / a_pax a))).

Definition leg_table (b : list Booking) (f : list Flight) : list Leg :=
  map leg_row
    (merge_left flight_key_eqb
       (fun a : LegAgg => fst (a_key a))
       (fun r : Flight => (f_flightnumber r, flightdate r))
       (leg_groups b) f).

(** ** A) Cancellations by day of week *)

Definition dow_order : list weekday := DOW_ORDER.

(** [df.groupby("flight_dow").size().reindex(dow_order).fillna(0).astype(int)] *)
Definition size_by_dow (b : list Booking) : list (weekday * nat) :=
  map (fun kv => (fst kv, match snd kv with Some n => n | None => 0%nat end))
    (reindex weekday_eqb dow_order
       (map (fun g => (fst g, List.length (snd g)))
          (groupby weekday_eqb weekday_name_leb flight_dow b))).

Definition cxl_by_dow (b : list Booking) : list (weekday * nat) :=
  size_by_dow (filter is_cancelled b).

Definition bookings_by_dow (b : list Booking) : list (weekday * nat) :=
  size_by_dow b.

Record CxlRate : Type := mkCxlRate {
  c_flight_dow : weekday;
  bookings : nat;
  cancel_count : option nat;
  cancel_rate : option Q
}.

Definition nat_cell (n : nat) : option Q := Some (inject_Z (Z.of_nat n)).

Definition cxl_rate_row (m : (weekday * nat) * option (weekday * nat)) : CxlRate :=
  let n := snd (fst m) in
  let c := option_map snd (snd m) in
  mkCxlRate (fst (fst m)) n c
    (where_else_nan (0 <? n)%nat
       (odiv (match c with Some k => nat_cell k | None => None end) (nat_cell n))).

Definition cxl_rate_by_dow (b : list Booking) : list CxlRate :=
  map cxl_rate_row
    (merge_left weekday_eqb fst fst (bookings_by_dow b) (cxl_by_dow b)).

(** ** D) Load factor by day of week *)

Definition lf_by_date (leg : list Leg) : list (Z * option Q) :=
  map (fun g => (fst g, mean_skipna (map load_factor (snd g))))
    (groupby Z.eqb Z.leb l_flight_date leg).

Definition lf_by_dow (leg : list Leg) : list (weekday * option Q) :=
  reindex_float weekday_eqb dow_order
    (map (fun g => (fst g, mean_skipna (map snd (snd g))))
       (groupby weekday_eqb weekday_name_leb
          (fun r : Z * option Q => Some (day_name_of (fst r)))
          (lf_by_date leg))).

(** ** D1) Load factor by segment and day of week, long table *)

Definition leg_dow (l : Leg) : option weekday := day_name (l_flight_date l).

Definition seg_dow_key : Type := od_key * weekday.

Definition seg_dow_key_eqb : seg_dow_key -> seg_dow_key -> bool :=
  pair_eqb od_key_eqb weekday_eqb.

Definition seg_dow_key_leb : seg_dow_key -> seg_dow_key -> bool :=
  pair_leb od_key_eqb od_key_leb weekday_name_leb.

Definition seg_dow_key_of (l : Leg) : option seg_dow_key :=
  option_map (fun d => ((l_origin l, l_destination l), d)) (leg_dow l).

Record SegDow : Type := mkSegDow {
  s_origin : string;
  s_destination : string;
  s_dow : weekday;
  s_load_factor : option Q;
  segment : string
}.

Definition ARROW : string := "→".

Definition seg_dow_row (g : seg_dow_key * list Leg) : SegDow :=
  let k := fst g in
  mkSegDow (fst (fst k)) (snd (fst k)) (snd k)
    (mean_skipna (map load_factor (snd g)))
    (fst (fst k) ++ ARROW ++ snd (fst k)).

Definition lf_seg_dow (leg : list Leg) : list SegDow :=
  map seg_dow_row (groupby seg_dow_key_eqb seg_dow_key_leb seg_dow_key_of leg).

(** ** D1) Load factor by segment and day of week, wide table *)

Definition wide_key : Type := weekday * string.

Definition wide_key_eqb : wide_key -> wide_key -> bool :=
  pair_eqb weekday_eqb String.eqb.

Definition wide_key_leb : wide_key -> wide_key -> bool :=
  pair_leb weekday_eqb weekday_cat_leb String.leb.

(** The cells of [pivot_table(index="dow", columns="segment",
    values="load_factor", aggfunc="mean")]: the mean load factor of the
    long rows of a weekday and segment; a cell without a number is dropped
    ([dropna=True], the default), and a weekday and segment without a long
    row has none. *)
Definition pivot_cells (leg : list Leg) : list (wide_key * Q) :=
  dropna
    (map (fun g =>
            option_map (fun v => (fst g, v))
              (mean_skipna (map s_load_factor (snd g))))
       (groupby wide_key_eqb wide_key_leb
          (fun r : SegDow => Some (s_dow r, segment r)) (lf_seg_dow leg))).

(** The index of the wide table after [sort_index()], and its columns. *)
Definition wide_index (leg : list Leg) : list weekday :=
  sort_keys weekday_cat_leb
    (unique weekday_eqb (map (fun c => fst (fst c)) (pivot_cells leg))).

Definition wide_columns (leg : list Leg) : list string :=
  sort_keys String.leb
    (unique String.eqb (map (fun c => snd (fst c)) (pivot_cells leg))).

(** One row per weekday of the index, one cell per segment; a cell the
    pivot has no number for is NaN. *)
Definition lf_seg_dow_wide (leg : list Leg)
  : list (weekday * list (string * option Q)) :=
  map (fun d =>
         (d, map (fun s => (s, lookup wide_key_eqb (d, s) (pivot_cells leg)))
               (wide_columns leg)))
    (wide_index leg).

(** ** G) Correlation of load factor and revenue per passenger *)








(** ** clean_cols and norm_text_channel *)

Definition clean_col (c : string) : string := lower (sub_ws (strip c)).

Definition mapping : list (string * string) :=
  [ ("condor app", "condor app");
    ("condor-app", "condor app");
    ("app", "condor app");
    ("website", "website");
    ("web", "website");
    ("call center", "call center");
    ("travel agency", "travel agency");
    ("ota", "ota");
    ("online travel agency", "ota") ].

Definition norm_text_channel (s : option string) : option string :=
  match s with
  | None => None
  | Some x =>
      let s2 := lower (strip x) in
      Some (dict_get_default String.eqb s2 s2 mapping)
  end.

Definition booking_channel_norm (p : Passenger) : option string :=
  norm_text_channel (booking_channel p).

Definition device_used_norm (p : Passenger) : string :=
  lower (strip (astype_str (device_used p))).

(** ** Primary channel by booking id and the enriched booking table *)

Definition p_bookingid_norm (p : Passenger) : pyval :=
  normalize_booking_id (p_bookingid p).

Definition id_group_key (p : Passenger) : option pyval :=
  if isna (p_bookingid_norm p) then None else Some (p_bookingid_norm p).

Record PnrChannel : Type := mkPnrChannel {
  pc_bookingid_norm : pyval;
  primary_channel : option string;
  devices : list string
}.

Definition pnr_channel (p : list Passenger) : list PnrChannel :=
  map (fun g =>
         mkPnrChannel (fst g)
           (first_notna (map booking_channel_norm (snd g)))
           (unique String.eqb (map device_used_norm (snd g))))
    (groupby DQ.pyval_eqb DQ.pyval_leb id_group_key p).

(** [booking.merge(pnr_channel[["bookingid_norm", "primary_channel"]],
    on="bookingid_norm", how="left")] *)
Definition booking_enriched (b : list Booking) (p : list Passenger)
  : list (Booking * option PnrChannel) :=
  merge_left DQ.pyval_eqb bookingid_norm pc_bookingid_norm b (pnr_channel p).

Definition enriched_channel (e : Booking * option PnrChannel) : option string :=
  match snd e with Some c => primary_channel c | None => None end.

(** ** C) Cancellation rate by channel *)

Record ChannelRate : Type := mkChannelRate {
  ch_primary_channel : string;
  ch_bookings : nat;
  ch_cancels : nat;
  ch_cancel_rate : option Q
}.

Definition channel_rate_row
  (g : string * list (Booking * option PnrChannel)) : ChannelRate :=
  let n := List.length
             (filter (fun e => negb (isna (bookingid_norm (fst e)))) (snd g)) in
  let c := List.length (filter (fun e => is_cancelled (fst e)) (snd g)) in
  mkChannelRate (fst g) n c
    (where_else_nan (0 <? n)%nat (odiv (nat_cell c) (nat_cell n))).

Definition cxl_by_channel (b : list Booking) (p : list Passenger)
  : list ChannelRate :=
  map channel_rate_row
    (groupby String.eqb String.leb enriched_channel (booking_enriched b p)).

(** ** F) Directional imbalance *)

Definition leg_od (l : Leg) : option od_key := Some (l_origin l, l_destination l).

Definition lf_seg (leg : list Leg) : list (od_key * option Q) :=
  map (fun g => (fst g, mean_skipna (map load_factor (snd g))))
    (groupby od_key_eqb od_key_leb leg_od leg).

(** The key of a row of [lf_seg_rev]: origin and destination renamed into
    each other. *)
Definition rev_key (r : od_key * option Q) : od_key :=
  (snd (fst r), fst (fst r)).

Record Imb : Type := mkImb {
  i_origin : string;
  i_destination : string;
  i_load_factor : option Q;
  load_factor_rev : option Q;
  lf_diff_vs_reverse : option Q
}.

Definition imb_row (m : (od_key * option Q) * option (od_key * option Q)) : Imb :=
  let lf := snd (fst m) in
  let rev := match snd m with Some r => snd r | None => None end in
  mkImb (fst (fst (fst m))) (snd (fst (fst m))) lf rev (osub lf rev).

Definition imb (leg : list Leg) : list Imb :=
  map imb_row (merge_left od_key_eqb fst rev_key (lf_seg leg) (lf_seg leg)).

(** ** The insights about cancellations by weekday *)

(** [.loc[cxl_rate_by_dow["cancel_count"]==0, "flight_dow"].dropna().tolist()] *)
Definition zero_cancel_days (b : list Booking) : list weekday :=
  map c_flight_dow
    (filter (fun r => match cancel_count r with
                      | Some n => (n =? 0)%nat
                      | None => false
                      end)
       (cxl_rate_by_dow b)).

(** [Series.idxmax()] on a range index: the position of the first
    occurrence of the greatest value. *)
Fixpoint idxmax (l : list Q) : nat :=
  match l with
  | [] => 0%nat
  | x :: t =>
      match t with
      | [] => 0%nat
      | _ => if Qle_bool (nth (idxmax t) t 0) x then 0%nat else S (idxmax t)
      end
  end.

Definition fillna (v : Q) (x : option Q) : Q :=
  match x with Some q => q | None => v end.

(** The row [cx_max] and the weekday and rate the insight names, if the
    rate of that row is a number. *)
Definition cx_max (b : list Booking) : option CxlRate :=
  nth_error (cxl_rate_by_dow b)
    (idxmax (map (fun r => fillna (-1) (cancel_rate r)) (cxl_rate_by_dow b))).

Definition highest_cancel (b : list Booking) : option (weekday * Q) :=
  match cx_max b with
  | Some r =>
      match cancel_rate r with
      | Some q => Some (c_flight_dow r, q)
      | None => None
      end
  | None => None
  end.

End Insights.

(* ===================================================================== *)
(** * kpi_viz.py *)
(* ===================================================================== *)

Module KPI.

Import Py Data.

Definition normalize_booking_id (x : pyval) : pyval :=
  if isna x then NaN
  else
    let s := strip (str x) in
    let s_num := sub_nondigits s in
    match s_num with
    | EmptyString => NaN
    | _ => PStr s_num
    end.

(** ** Columns added to the booking table

    The merge of the booking table with the primary channel of each id adds
    a column and keeps the rows, so the tables below are built from the
    rows of the sheet. *)

Definition origin_norm (b : Booking) : string :=
  strip (upper (astype_str (origin b))).

Definition destination_norm (b : Booking) : string :=
  strip (upper (astype_str (destination b))).

Definition ancillary_total (b : Booking) : Q :=
  fillna0 (rev_ancillary_pre_check_in b) + fillna0 (rev_ancillary_at_check_in b).

Definition total_revenue (b : Booking) : Q := row_sum_skipna b.

Definition is_cancelled (b : Booking) : bool := notna (cancellation_date b).

(** ** The leg table *)

Definition od_key : Type := string * string.

Definition od_key_eqb : od_key -> od_key -> bool :=
  pair_eqb String.eqb String.eqb.

Definition od_key_leb : od_key -> od_key -> bool :=
  pair_leb String.eqb String.leb String.leb.

Definition leg_key : Type := flight_key * od_key.

Definition leg_key_eqb : leg_key -> leg_key -> bool :=
  pair_eqb flight_key_eqb od_key_eqb.

Definition leg_key_leb : leg_key -> leg_key -> bool :=
  pair_leb flight_key_eqb flight_key_leb od_key_leb.

Definition leg_key_of (b : Booking) : leg_key :=
  ((flightnumber b, flight_date b), (origin_norm b, destination_norm b)).

Record LegAgg : Type := mkLegAgg {
  a_key : leg_key;
  a_pax : Q;
  a_revenue : Q;
  a_cancels : nat
}.

Definition leg_agg (g : leg_key * list Booking) : LegAgg :=
  mkLegAgg (fst g)
    (sum_skipna (map passengercount (snd g)))
    (Qsum (map total_revenue (snd g)))
    (List.length (filter is_cancelled (snd g))).

Definition leg_groups (b : list Booking) : list LegAgg :=
  map leg_agg (groupby leg_key_eqb leg_key_leb (fun r => Some (leg_key_of r)) b).

Record Leg : Type := mkLeg {
  l_flightnumber : option Z;
  l_flight_date : option Z;
  l_origin : string;
  l_destination : string;
  pax : Q;
  revenue : Q;
  cancels : nat;
  l_availablecapacity : option Q;
  dow : option weekday;
  load_factor : option Q;
  rev_per_pax : option Q
}.

Definition leg_row (m : LegAgg * option Flight) : Leg :=
  let a := fst m in
  let cap := match snd m with Some f => availablecapacity f | None => None end in
  mkLeg (fst (fst (a_key a))) (snd (fst (a_key a)))
    (fst (snd (a_key a))) (snd (snd (a_key a)))
    (a_pax a) (a_revenue a) (a_cancels a)
    cap
    (day_name (snd (fst (a_key a))))
    (where_else_nan (gt0 cap) (odiv (Some (a_pax a)) cap))
    (where_else_nan (Qltb 0 (a_pax a)) (Some (a_revenue a / a_pax a))).

Definition leg_table (b : list Booking) (f : list Flight) : list Leg :=
  map leg_row
    (merge_left flight_key_eqb
       (fun a : LegAgg => fst (a_key a))
       (fun r : Flight => (f_flightnumber r, flightdate r))
       (leg_groups b) f).

(** ** Metric 1: FWLF by day of week *)

(** The lambda applied to each group. *)
Definition fwlf_of_group (x : list Leg) : option Q :=
  if Qltb 0 (sum_skipna (map l_availablecapacity x))
  then Some (Qsum (map pax x) / sum_skipna (map l_availablecapacity x))
  else None.

Definition fwlf_dow (leg : list Leg) : list (weekday * option Q) :=
  reindex_float weekday_eqb DOW_ORDER
    (map (fun g => (fst g, fwlf_of_group (snd g)))
       (groupby weekday_eqb weekday_cat_leb dow leg)).

(** ** Metric 4: CALF by day of week *)

Definition realized_pax_of (b : Booking) : Q :=
  fillna0 (passengercount b) - (if is_cancelled b then 1 else 0).

(** The key of [groupby(["flightnumber", "flight date"])], which drops a
    row when either label is missing. *)
Definition realized_key_of (b : Booking) : option flight_key :=
  match flightnumber b, flight_date b with
  | Some n, Some d => Some (Some n, Some d)
  | _, _ => None
  end.

Definition realized (b : list Booking) : list (flight_key * Q) :=
  map (fun g => (fst g, Qsum (map realized_pax_of (snd g))))
    (groupby flight_key_eqb flight_key_leb realized_key_of b).

Record Leg2 : Type := mkLeg2 {
  base :> Leg;
  realized_pax : option Q;
  calf : option Q
}.

Definition leg2_row (m : Leg * option (flight_key * Q)) : Leg2 :=
  let rp := option_map snd (snd m) in
  mkLeg2 (fst m) rp
    (where_else_nan (gt0 (l_availablecapacity (fst m)))
       (odiv rp (l_availablecapacity (fst m)))).

Definition leg2 (leg : list Leg) (b : list Booking) : list Leg2 :=
  map leg2_row
    (merge_left flight_key_eqb
       (fun l : Leg => (l_flightnumber l, l_flight_date l))
       (fun r : flight_key * Q => fst r)
       leg (realized b)).

Definition calf_dow (leg : list Leg) (b : list Booking)
  : list (weekday * option Q) :=
  reindex_float weekday_eqb DOW_ORDER
    (map (fun g => (fst g, mean_skipna (map calf (snd g))))
       (groupby weekday_eqb weekday_cat_leb (fun l : Leg2 => dow l) (leg2 leg b))).

(** ** Metric 2: PACS by day of week *)

(** The two assumptions the script assigns before the loop: a credit of
    25% and a variable cost of 40 per seat and leg. *)
Definition connection_value_pct : Q := 25 # 100.
Definition variable_cost_per_seat_leg : Q := 40.

Definition is_fra_fco (l : Leg) : bool :=
  String.eqb (l_origin l) "FRA" && String.eqb (l_destination l) "FCO".

Definition is_fco_pmo (l : Leg) : bool :=
  String.eqb (l_origin l) "FCO" && String.eqb (l_destination l) "PMO".

Definition fco_pmo (leg : list Leg) : list Leg := filter is_fco_pmo leg.

(** [fco_pmo.groupby("dow")["revenue"].mean().to_dict()], or the empty dict
    for an empty [fco_pmo].  The weekday column is categorical, and the
    groupby lists every category (observed=False, the default before
    pandas 3): the dict has the seven weekdays, with the mean revenue of
    the connecting legs of a weekday that has some and NaN for a weekday
    that has none. *)
Definition onward_rev_map (leg : list Leg) : list (weekday * option Q) :=
  match fco_pmo leg with
  | [] => []
  | fp =>
      reindex_float weekday_eqb DOW_ORDER
        (map (fun g => (fst g, Some (Qsum (map revenue (snd g)) / Qlen (snd g))))
           (groupby weekday_eqb weekday_cat_leb dow fp))
  end.

(** [onward_rev_map.get(r["dow"], 0.0)]: the default 0.0 is returned for a
    key the dict does not have, a NaN entry is returned as it is. *)
Definition onward_rev (leg : list Leg) (r : Leg) : option Q :=
  match dow r with
  | Some d => dict_get_default weekday_eqb d (Some 0) (onward_rev_map leg)
  | None => Some 0
  end.

(** The body of the loop over [leg.iterrows()]; arithmetic on NaN gives
    NaN. *)
Definition pacs_row (leg : list Leg) (r : Leg) : option weekday * option Q :=
  let rev := Some (revenue r) in
  let rev :=
    if is_fra_fco r
    then match rev, onward_rev leg r with
         | Some v, Some o => Some (v + connection_value_pct * o)
         | _, _ => None
         end
    else rev in
  let seats := match l_availablecapacity r with Some c => c | None => 0 end in
  let pacs :=
    if negb (Qeq_bool seats 0) && Qltb 0 seats
    then match rev with
         | Some v => Some ((v - seats * variable_cost_per_seat_leg) / seats)
         | None => None
         end
    else None in
  (dow r, pacs).

Definition pacs_vals (leg : list Leg) : list (option weekday * option Q) :=
  map (pacs_row leg) leg.

(** [pd.DataFrame(pacs_vals).groupby("dow")["pacs"].mean()
       .reindex(DOW_ORDER)], for a leg table that has rows (without a row
    the frame of the loop has no column to group by). *)
Definition pacs_dow (leg : list Leg) : list (weekday * option Q) :=
  reindex_float weekday_eqb DOW_ORDER
    (map (fun g => (fst g, mean_skipna (map snd (snd g))))
       (groupby weekday_eqb weekday_name_leb
          (fun v : option weekday * option Q => fst v) (pacs_vals leg))).

(** ** The table by day of week the script saves *)

Record KpiRow : Type := mkKpiRow {
  k_dow : weekday;
  FWLF : option Q;
  PACS : option Q;
  CALF : option Q
}.

(** [fwlf_dow.merge(pacs_dow, on="dow", how="outer")
       .merge(calf_dow, on="dow", how="outer")] *)
Definition kpi_merge (fw pa ca : list (weekday * option Q)) : list KpiRow :=
  let fp :=
    map (fun m => (fst (fst m), (cell_of snd (snd (fst m)), cell_of snd (snd m))))
      (merge_outer weekday_eqb weekday_name_leb fst fst fw pa) in
  map (fun m =>
         mkKpiRow (fst (fst m))
           (cell_of (fun x : weekday * (option Q * option Q) => fst (snd x))
              (snd (fst m)))
           (cell_of (fun x : weekday * (option Q * option Q) => snd (snd x))
              (snd (fst m)))
           (cell_of snd (snd m)))
    (merge_outer weekday_eqb weekday_name_leb fst fst fp ca).

Definition kpi_tbl (leg : list Leg) (b : list Booking) : list KpiRow :=
  kpi_merge (fwlf_dow leg) (pacs_dow leg) (calf_dow leg b).

(** ** clean_cols *)

(** One label through [.str.strip().str.lower()]. *)
Definition clean_col (c : string) : string := lower (strip c).

(** ** Metric 3: ARAS by route *)

Definition booking_od (b : Booking) : option od_key :=
  Some (origin_norm b, destination_norm b).

Record Seg : Type := mkSeg {
  sg_origin : string;
  sg_destination : string;
  sg_revenue : Q;
  sg_ancillary : Q;
  aras : option Q;
  od : string
}.

Definition ARROW : string := "→".

Definition seg_row (g : od_key * list Booking) : Seg :=
  let rev := Qsum (map total_revenue (snd g)) in
  let anc := Qsum (map ancillary_total (snd g)) in
  mkSeg (fst (fst g)) (snd (fst g)) rev anc
    (where_else_nan (Qltb 0 rev) (Some (anc / rev)))
    (fst (fst g) ++ ARROW ++ snd (fst g)).

Definition seg (b : list Booking) : list Seg :=
  map seg_row (groupby od_key_eqb od_key_leb booking_od b).

End KPI.

(* ===================================================================== *)
(** * Statements about the tables: auxiliary definitions *)
(* ===================================================================== *)

Module Props.

Import Py Data.

(** Equality of float cells: both NaN, or equal numbers. *)
Definition cell_eq (a b : option Q) : Prop :=
  match a, b with
  | Some x, Some y => x == y
  | None, None => True
  | _, _ => False
  end.

(** A ratio of two sums that is undefined unless the denominator is
    positive. *)
Definition ratio_of_sums (num den : Q) : option Q :=
  if Qltb 0 den then Some (num / den) else None.

(** The legs of one weekday. *)
Definition on_day (d : weekday) (l : KPI.Leg) : bool :=
  has_key weekday_eqb KPI.dow d l.

Definition bucket (d : weekday) (leg : list KPI.Leg) : list KPI.Leg :=
  filter (on_day d) leg.

(** The bookings of a flight number and date. *)
Definition same_flight (k : flight_key) (b : Booking) : bool :=
  has_key flight_key_eqb KPI.realized_key_of k b.

(** CALF in the words of the specification: the ratio of sums of FWLF with
    each leg's pax replaced by its booked pax minus its cancelled
    bookings. *)
Definition calf_like_fwlf (d : weekday) (leg : list KPI.Leg) : option Q :=
  ratio_of_sums
    (Qsum (map (fun l => KPI.pax l - inject_Z (Z.of_nat (KPI.cancels l)))
             (bucket d leg)))
    (sum_skipna (map KPI.l_availablecapacity (bucket d leg))).

(** The connecting legs of one weekday, and the credit they give a leg. *)
Definition connecting_on (d : weekday) (leg : list KPI.Leg) : list KPI.Leg :=
  filter (fun l => KPI.is_fco_pmo l && on_day d l) leg.

Definition connection_credit (pct : Q) (leg : list KPI.Leg) (r : KPI.Leg) : Q :=
  if KPI.is_fra_fco r then
    match KPI.dow r with
    | Some d =>
        match connecting_on d leg with
        | [] => 0
        | c => pct * (Qsum (map KPI.revenue c) / Qlen c)
        end
    | None => 0
    end
  else 0.

(** The value of a weekday series at one weekday. *)
Definition at_day (d : weekday) (s : list (weekday * option Q)) : option Q :=
  match lookup weekday_eqb d s with Some v => v | None => None end.

(** The labels of the booking table that checks 4 to 10 index without a
    guard. *)
Definition unguarded_booking_columns : list string :=
  DQ.REV_COLS
    ++ ["passengercount"; "flightnumber"; "flight_date"; "origin";
        "destination"; "routing"; "bookingid_norm"; "cancellation_date"].

(** The five channel names the synonym table maps to, and the four
    spellings it replaces. *)
Definition canonical_channels : list string :=
  ["condor app"; "website"; "call center"; "travel agency"; "ota"].

Definition channel_synonyms : list string :=
  ["condor-app"; "app"; "web"; "online travel agency"].

(** The keys of the dict of anomaly sets when every check runs, in the
    order of insertion. *)
Definition check_names : list string :=
  [ "canceled_with_checkin_ancillary"; "cancellation_before_reservation";
    "reservation_after_flight"; "same_booking_multiple_channels";
    "same_booking_multiple_devices"; "revenue_with_zero_passengers";
    "negative_revenue_fields"; "negative_passengers"; "pax_exceeds_capacity";
    "missing_capacity_for_leg"; "capacity_out_of_range";
    "routing_inconsistent_with_od"; "duplicate_legs_within_pnr";
    "cancellation_with_positive_pax"; "missing_flight_date" ].

(** The labels [dq_checks] looks for in its three frames. *)
Definition dq_booking_labels : list string :=
  "reservation_date" :: unguarded_booking_columns.

Definition dq_passenger_labels : list string :=
  ["bookingid_norm"; "booking_channel"; "device_used"].

Definition dq_flight_labels : list string :=
  ["flightnumber"; "flightdate"; "availablecapacity"].

(** A revenue cell that is missing or not negative. *)
Definition cell_nonneg (x : option Q) : Prop :=
  match x with Some q => 0 <= q | None => True end.

(** The order of the summary table: a row comes before the rows of lower
    or equal count. *)
Definition count_ge (x y : string * nat) : Prop := (snd y <= snd x)%nat.

(** The mean load factor of the legs of one segment. *)
Definition segment_lf (leg : list Insights.Leg) (k : Insights.od_key)
  : option Q :=
  mean_skipna
    (map Insights.load_factor
       (filter (has_key Insights.od_key_eqb Insights.leg_od k) leg)).

(** The passenger rows of one normalized booking id. *)
Definition passengers_of (x : pyval) (p : list Passenger) : list Passenger :=
  filter (has_key DQ.pyval_eqb Insights.id_group_key x) p.

(** The number of bookings that fly on a weekday. *)
Definition bookings_on (d : weekday) (b : list Booking) : nat :=
  List.length (filter (has_key weekday_eqb Insights.flight_dow d) b).

(** The realized ratio of one leg in the words of the specification: its
    booked pax minus its cancelled bookings, over its capacity; undefined
    unless the capacity is positive. *)
Definition calf_of_leg (l : KPI.Leg) : option Q :=
  where_else_nan (gt0 (KPI.l_availablecapacity l))
    (odiv (Some (KPI.pax l - inject_Z (Z.of_nat (KPI.cancels l))))
       (KPI.l_availablecapacity l)).

(** The bookings of one flight number and date fly one origin and
    destination. *)
Definition one_leg_per_flight (b : list Booking) : Prop :=
  forall x y, In x b -> In y b ->
    flightnumber x = flightnumber y -> flight_date x = flight_date y ->
    KPI.origin_norm x = KPI.origin_norm y
    /\ KPI.destination_norm x = KPI.destination_norm y.

(** A booking that has a flight date has a flight number. *)
Definition dated_bookings_numbered (b : list Booking) : Prop :=
  forall x, In x b -> flight_date x <> None -> flightnumber x <> None.

Definition is_empty {A} (l : list A) : bool :=
  match l with [] => true | _ => false end.

(** The legs other than a feeder leg whose weekday has no connecting leg
    while another weekday has one: a leg that is no feeder, or a table
    without any connecting leg, or a leg without a weekday, or a leg on a
    weekday that has a connecting leg. *)
Definition credit_settled (leg : list KPI.Leg) (r : KPI.Leg) : bool :=
  negb (KPI.is_fra_fco r)
  || is_empty (KPI.fco_pmo leg)
  || match KPI.dow r with
     | Some d => negb (is_empty (connecting_on d leg))
     | None => true
     end.

(** The PACS values the loop reports for one weekday. *)
Definition pacs_on (d : weekday) (leg : list KPI.Leg) : list (option Q) :=
  map snd
    (filter (has_key weekday_eqb (fun v : option weekday * option Q => fst v) d)
       (KPI.pacs_vals leg)).

(** Origin, destination and weekday of a row of the long table, and the
    legs of an origin, destination and weekday. *)
Definition seg_dow_of (r : Insights.SegDow) : Insights.seg_dow_key :=
  ((Insights.s_origin r, Insights.s_destination r), Insights.s_dow r).

Definition legs_of_seg_dow (k : Insights.seg_dow_key) (leg : list Insights.Leg)
  : list Insights.Leg :=
  filter (has_key Insights.seg_dow_key_eqb Insights.seg_dow_key_of k) leg.

(** A weekday comes before another one in the week that starts on
    Monday. *)
Definition earlier_in_week (a b : weekday) : Prop :=
  (weekday_index a < weekday_index b)%Z.

(** A string of ASCII characters. *)
Fixpoint ascii_only (s : string) : bool :=
  match s with
  | EmptyString => true
  | String c s' => (code c <? 128)%N && ascii_only s'
  end.

End Props.

(* ===================================================================== *)
(** * Sample data *)
(* ===================================================================== *)

Module Sample.

Import Py Data.

(** 2024-06-03 is day 19877 and a Monday; 2024-06-07 is a Friday. *)
Definition monday : Z := 19877.
Definition friday : Z := 19881.

Definition booking_on (fn : Z) (day : Z) (o d : string) (n : Q) (rev : Q)
  : Booking :=
  mkBooking (PStr "PNR-1001") (Some (day - 30)%Z) None (Some day)
    (Some o) (Some d) (Some n) (Some rev) None None (Some fn)
    (Some (o ++ "-" ++ d)).

Definition flight_on (fn : Z) (day : Z) (cap : Q) : Flight :=
  mkFlight (Some fn) (Some day) (Some cap) (Some "Morning") (Some "Short").

(** Two Monday legs of different size. *)
Definition bookings_two_sizes : list Booking :=
  [ booking_on 100 monday "FRA" "FCO" 10 1000;
    booking_on 200 monday "FRA" "PMI" 180 20000 ].

Definition flights_two_sizes : list Flight :=
  [ flight_on 100 monday 100; flight_on 200 monday 200 ].

Definition legs_two_sizes : list KPI.Leg :=
  KPI.leg_table bookings_two_sizes flights_two_sizes.

(** A feeder leg and two connecting legs on the same Monday. *)
Definition bookings_feeder : list Booking :=
  [ booking_on 100 monday "FRA" "FCO" 150 5000;
    booking_on 300 monday "FCO" "PMO" 100 1500;
    booking_on 301 monday "FCO" "PMO" 120 2500;
    booking_on 400 monday "FRA" "PMI" 150 5000 ].

Definition flights_feeder : list Flight :=
  [ flight_on 100 monday 180; flight_on 300 monday 180;
    flight_on 301 monday 180; flight_on 400 monday 180 ].

Definition legs_feeder : list KPI.Leg :=
  KPI.leg_table bookings_feeder flights_feeder.

(** One segment flown on a Monday and on a Friday. *)
Definition bookings_two_days : list Booking :=
  [ booking_on 100 monday "FRA" "FCO" 90 9000;
    booking_on 100 friday "FRA" "FCO" 120 9000 ].

Definition flights_two_days : list Flight :=
  [ flight_on 100 monday 180; flight_on 100 friday 180 ].

Definition legs_two_days : list Insights.Leg :=
  Insights.leg_table bookings_two_days flights_two_days.






(** A leg without a flight row, and a leg without passengers. *)
Definition bookings_no_capacity : list Booking :=
  [ booking_on 100 monday "FRA" "FCO" 0 0 ].

(** The workbook columns after [clean_cols]. *)
Definition booking_columns : list string :=
  [ "bookingid_(pnr)"; "reservation_date"; "cancellation_date"; "flight_date";
    "origin"; "destination"; "passengercount";
    "revenue_per_booking_(ticket)";
    "revenue_per_booking_(ancilliary_pre_check_in)";
    "revenue_per_booking_(ancilliary_at_check_in)";
    "flightnumber"; "routing" ].

Definition passenger_columns : list string :=
  [ "bookingid"; "booking_channel"; "device_used" ].

Definition flight_columns : list string :=
  [ "flightnumber"; "flightdate"; "availablecapacity"; "timeofday"; "routetype" ].

Definition without (c : string) (cols : list string) : list string :=
  filter (fun x => negb (String.eqb x c)) cols.

Definition passengers : list Passenger :=
  [ mkPassenger (PStr "PNR-1001") (Some "Website") (Some "Laptop") ].

(** A booking whose routing cell is empty. *)
Definition booking_no_routing : Booking :=
  mkBooking (PStr "PNR-1002") (Some (monday - 30)%Z) None (Some monday)
    (Some "FRA") (Some "FCO") (Some 2) (Some 300) None None (Some 100%Z) None.

(** The frames [add_derived] hands to [dq_checks] for that booking. *)
Definition dq_booking : Frame DQ.BookingD :=
  mkFrame (booking_columns ++ ["bookingid_norm"; "routing_canonical"])
    [DQ.derive_booking booking_no_routing].

Definition dq_passenger : Frame DQ.PassengerD :=
  mkFrame (passenger_columns ++ ["bookingid_norm"])
    (map DQ.derive_passenger passengers).

Definition dq_flight : Frame Flight :=
  mkFrame flight_columns flights_two_days.

Definition dq_out : list (string * DQ.Anomalies) :=
  match DQ.dq_checks dq_booking dq_passenger dq_flight with
  | DQ.Ok out => out
  | DQ.KeyError _ => []
  end.

(** The leg of a booking that has no flight row and no passengers. *)
Definition leg_unmatched : Insights.Leg :=
  Insights.mkLeg (Some 100%Z) (Some monday) "FRA" "FCO" 0 0 0 None None None
    None None.

Definition kpi_leg_unmatched : KPI.Leg :=
  KPI.mkLeg (Some 100%Z) (Some monday) "FRA" "FCO" 0 0 0 None (Some Monday)
    None None.

(** A booking without any revenue cell. *)
Definition booking_no_revenue : Booking :=
  mkBooking (PStr "PNR-1003") None None (Some monday)
    (Some "FRA") (Some "FCO") (Some 1) None None None (Some 100%Z)
    (Some "FRA-FCO").

(** A complete run of the data-quality script on a small workbook. *)
Definition run_result
  : DQ.result (list (string * nat) * list (string * DQ.Anomalies)) :=
  DQ.run (mkFrame booking_columns [booking_no_routing; booking_no_revenue])
    (mkFrame passenger_columns passengers)
    (mkFrame flight_columns flights_two_days).

Definition run_summary : list (string * nat) :=
  match run_result with DQ.Ok sa => fst sa | DQ.KeyError _ => [] end.

Definition run_anomalies : list (string * DQ.Anomalies) :=
  match run_result with DQ.Ok sa => snd sa | DQ.KeyError _ => [] end.

(** Two passengers of one booking who booked through different channels,
    and a third passenger of another booking. *)
Definition passengers_two_channels : list DQ.PassengerD :=
  map DQ.derive_passenger
    [ mkPassenger (PStr "PNR-1001") (Some "Website") (Some "Laptop");
      mkPassenger (PStr "1001") (Some "App") (Some "Laptop");
      mkPassenger (PStr "PNR-2002") (Some "Website") (Some "Phone") ].

(** A booking whose routing is written in lower case with spaces. *)
Definition booking_spaced_routing : Booking :=
  mkBooking (PStr "PNR-1004") None None (Some monday)
    (Some "FRA") (Some "FCO") (Some 1) (Some 100) None None (Some 100%Z)
    (Some "fra - fco").

(** The same leg booked twice under one id, and another booking. *)
Definition bookings_with_duplicate : list DQ.BookingD :=
  map DQ.derive_booking
    [ booking_on 100 monday "FRA" "FCO" 1 100;
      booking_on 100 monday "FRA" "FCO" 2 200;
      booking_on 100 friday "FRA" "FCO" 1 100 ].

(** Bookings of a Monday, one of them cancelled, and of a Friday. *)
Definition bookings_one_cancelled : list Booking :=
  [ booking_on 100 monday "FRA" "FCO" 90 9000;
    mkBooking (PStr "PNR-7") (Some (monday - 30)%Z) (Some (monday - 2)%Z)
      (Some monday) (Some "FRA") (Some "FCO") (Some 2) (Some 300) (Some 20)
      (Some 5) (Some 100%Z) (Some "FRA-FCO");
    booking_on 100 friday "FRA" "FCO" 120 9000 ].

(** Legs of a segment and of its reverse. *)
Definition bookings_both_ways : list Booking :=
  [ booking_on 100 monday "FRA" "FCO" 90 9000;
    booking_on 101 monday "FCO" "FRA" 120 9000 ].

Definition flights_both_ways : list Flight :=
  [ flight_on 100 monday 180; flight_on 101 monday 180 ].

Definition legs_both_ways : list Insights.Leg :=
  Insights.leg_table bookings_both_ways flights_both_ways.

(** A feeder leg on a Friday and a connecting leg on a Monday. *)
Definition bookings_feeder_friday : list Booking :=
  [ booking_on 100 friday "FRA" "FCO" 150 5000;
    booking_on 300 monday "FCO" "PMO" 100 1500 ].

Definition flights_feeder_friday : list Flight :=
  [ flight_on 100 friday 180; flight_on 300 monday 180 ].

Definition legs_feeder_friday : list KPI.Leg :=
  KPI.leg_table bookings_feeder_friday flights_feeder_friday.

End Sample.

(* ===================================================================== *)
(** * Proofs *)
(* ===================================================================== *)

Import Py Data Props.

(** ** Strings *)

Lemma digit_not_space (c : ascii) : is_digit c = true -> is_space c = false.
Proof.
  unfold is_digit, is_space. intros H.
  apply andb_true_iff in H as [H1 H2].
  apply N.leb_le in H1, H2.
  apply orb_false_iff; split; apply andb_false_iff.
  - right. apply N.leb_gt. lia.
  - right. apply N.leb_gt. lia.
Qed.

Lemma lstrip_digits (s : string) : all_digits s = true -> lstrip s = s.
Proof.
  destruct s as [|c s]; simpl; intros H; [reflexivity|].
  apply andb_true_iff in H as [Hc _].
  now rewrite (digit_not_space c Hc).
Qed.

Lemma rstrip_digits (s : string) : all_digits s = true -> rstrip s = s.
Proof.
  induction s as [|c s IH]; simpl; intros H; [reflexivity|].
  apply andb_true_iff in H as [Hc Hs].
  rewrite (IH Hs). destruct s; [|reflexivity].
  now rewrite (digit_not_space c Hc).
Qed.

Lemma strip_digits (s : string) : all_digits s = true -> strip s = s.
Proof.
  intros H. unfold strip. rewrite (lstrip_digits s H). now apply rstrip_digits.
Qed.

Lemma sub_nondigits_digits (s : string) :
  all_digits s = true -> sub_nondigits s = s.
Proof.
  induction s as [|c s IH]; simpl; intros H; [reflexivity|].
  apply andb_true_iff in H as [Hc Hs]. rewrite Hc. now rewrite (IH Hs).
Qed.

Lemma all_digits_sub_nondigits (s : string) :
  all_digits (sub_nondigits s) = true.
Proof.
  induction s as [|c s IH]; simpl; [reflexivity|].
  destruct (is_digit c) eqn:Hc; simpl; [now rewrite Hc|assumption].
Qed.

Lemma dq_normalize_digits (s : string) :
  s <> "" -> all_digits s = true -> DQ.normalize_booking_id (PStr s) = PStr s.
Proof.
  intros Hne Hd. unfold DQ.normalize_booking_id. simpl.
  rewrite (strip_digits s Hd), (sub_nondigits_digits s Hd).
  destruct (String.eqb_spec s ""); [contradiction|reflexivity].
Qed.

Lemma insights_normalize_digits (s : string) :
  s <> "" -> all_digits s = true ->
  Insights.normalize_booking_id (PStr s) = PStr s.
Proof.
  intros Hne Hd. unfold Insights.normalize_booking_id. simpl.
  rewrite (strip_digits s Hd), (sub_nondigits_digits s Hd).
  destruct s; [contradiction|reflexivity].
Qed.

Lemma kpi_normalize_digits (s : string) :
  s <> "" -> all_digits s = true -> KPI.normalize_booking_id (PStr s) = PStr s.
Proof.
  intros Hne Hd. unfold KPI.normalize_booking_id. simpl.
  rewrite (strip_digits s Hd), (sub_nondigits_digits s Hd).
  destruct s; [contradiction|reflexivity].
Qed.

(** The three scripts define the same function. *)
Lemma normalize_booking_id_same (x : pyval) :
  Insights.normalize_booking_id x = DQ.normalize_booking_id x
  /\ KPI.normalize_booking_id x = DQ.normalize_booking_id x.
Proof.
  unfold Insights.normalize_booking_id, KPI.normalize_booking_id,
    DQ.normalize_booking_id.
  destruct (isna x); [now split|].
  destruct (sub_nondigits (strip (str x))); now split.
Qed.

(** The result is missing or a non-empty string of digits. *)
Lemma dq_normalize_range (x : pyval) :
  DQ.normalize_booking_id x = NaN
  \/ exists s, DQ.normalize_booking_id x = PStr s
               /\ s <> "" /\ all_digits s = true.
Proof.
  unfold DQ.normalize_booking_id.
  destruct (isna x); [now left|].
  destruct (String.eqb_spec (sub_nondigits (strip (str x))) "") as [E|E]; simpl.
  - now left.
  - right. eexists. split; [reflexivity|]. split; [exact E|].
    apply all_digits_sub_nondigits.
Qed.

Lemma dq_normalize_idempotent (x : pyval) :
  DQ.normalize_booking_id (DQ.normalize_booking_id x)
  = DQ.normalize_booking_id x.
Proof.
  destruct (dq_normalize_range x) as [E|[s [E [Hne Hd]]]]; rewrite E.
  - reflexivity.
  - now apply dq_normalize_digits.
Qed.

(** C9.  Booking-id normalization is idempotent: in each script, normalizing
    twice gives what normalizing once gives, for every input, and a string
    that is already normalized (digits only, at least one) is returned
    unchanged. *)
Theorem normalize_booking_id_idempotent :
  (forall x : pyval,
      DQ.normalize_booking_id (DQ.normalize_booking_id x)
      = DQ.normalize_booking_id x
      /\ Insights.normalize_booking_id (Insights.normalize_booking_id x)
         = Insights.normalize_booking_id x
      /\ KPI.normalize_booking_id (KPI.normalize_booking_id x)
         = KPI.normalize_booking_id x)
  /\ (forall s : string,
         s <> "" -> all_digits s = true ->
         DQ.normalize_booking_id (PStr s) = PStr s
         /\ Insights.normalize_booking_id (PStr s) = PStr s
         /\ KPI.normalize_booking_id (PStr s) = PStr s).
Proof.
  split.
  - intros x.
    destruct (normalize_booking_id_same x) as [EI EK].
    destruct (normalize_booking_id_same (DQ.normalize_booking_id x)) as [EI' EK'].
    rewrite EI, EK, EI', EK'.
    repeat split; apply dq_normalize_idempotent.
  - intros s Hne Hd. repeat split.
    + now apply dq_normalize_digits.
    + now apply insights_normalize_digits.
    + now apply kpi_normalize_digits.
Qed.

Lemma normalize_booking_id_idempotent_witness :
  ("00123" <> "" /\ all_digits "00123" = true)
  /\ DQ.normalize_booking_id (PStr "00123") = PStr "00123"
  /\ Insights.normalize_booking_id (PStr "00123") = PStr "00123"
  /\ KPI.normalize_booking_id (PStr "00123") = PStr "00123".
Proof.
  split.
  - split; [discriminate|reflexivity].
  - apply (proj2 normalize_booking_id_idempotent "00123");
      [discriminate|reflexivity].
Defined.

(** ** Numeric cells *)

Lemma Qltb_true_iff (a b : Q) : Qltb a b = true <-> a < b.
Proof.
  unfold Qltb. rewrite negb_true_iff.
  split; intros H.
  - apply Qnot_le_lt. intros Hle. apply Qle_bool_iff in Hle. congruence.
  - destruct (Qle_bool b a) eqn:E; [|reflexivity].
    apply Qle_bool_iff in E. exfalso. exact (Qlt_not_le _ _ H E).
Qed.

Lemma Qltb_false_iff (a b : Q) : Qltb a b = false <-> b <= a.
Proof.
  unfold Qltb. rewrite negb_false_iff. apply Qle_bool_iff.
Qed.

Lemma gt0_not_positive (x : option Q) :
  x = None \/ (exists c, x = Some c /\ c <= 0) -> gt0 x = false.
Proof.
  intros [->|[c [-> Hc]]]; simpl; [reflexivity|].
  now apply Qltb_false_iff.
Qed.

Lemma row_sum_skipna_fillna (b : Booking) :
  row_sum_skipna b
  == fillna0 (rev_ticket b) + fillna0 (rev_ancillary_pre_check_in b)
     + fillna0 (rev_ancillary_at_check_in b).
Proof.
  unfold row_sum_skipna, sum_skipna, rev_cells.
  destruct (rev_ticket b), (rev_ancillary_pre_check_in b),
    (rev_ancillary_at_check_in b); simpl; ring.
Qed.

(** C8.  In each script the total revenue of a booking is the sum of its
    three revenue components with a missing component counted as 0; a
    booking with the three components missing has total revenue 0. *)
Theorem total_revenue_is_sum_of_components :
  (forall b : Booking,
      Insights.total_revenue b
      == fillna0 (rev_ticket b) + fillna0 (rev_ancillary_pre_check_in b)
         + fillna0 (rev_ancillary_at_check_in b)
      /\ KPI.total_revenue b
         == fillna0 (rev_ticket b) + fillna0 (rev_ancillary_pre_check_in b)
            + fillna0 (rev_ancillary_at_check_in b))
  /\ (forall b : DQ.BookingD,
         DQ.total_revenue b
         == fillna0 (rev_ticket (DQ.raw b))
            + fillna0 (rev_ancillary_pre_check_in (DQ.raw b))
            + fillna0 (rev_ancillary_at_check_in (DQ.raw b)))
  /\ (forall b : Booking,
         rev_ticket b = None ->
         rev_ancillary_pre_check_in b = None ->
         rev_ancillary_at_check_in b = None ->
         Insights.total_revenue b == 0 /\ KPI.total_revenue b == 0
         /\ DQ.total_revenue (DQ.derive_booking b) == 0).
Proof.
  split; [|split].
  - intros b. split; apply row_sum_skipna_fillna.
  - intros b. apply row_sum_skipna_fillna.
  - intros b Ht Hp Ha.
    unfold Insights.total_revenue, KPI.total_revenue, DQ.total_revenue.
    simpl. unfold row_sum_skipna, sum_skipna, rev_cells.
    rewrite Ht, Hp, Ha. simpl. repeat split; reflexivity.
Qed.

Lemma total_revenue_is_sum_of_components_witness :
  Insights.total_revenue Sample.booking_no_revenue == 0
  /\ KPI.total_revenue Sample.booking_no_revenue == 0
  /\ DQ.total_revenue (DQ.derive_booking Sample.booking_no_revenue) == 0.
Proof.
  apply (proj2 (proj2 total_revenue_is_sum_of_components)
           Sample.booking_no_revenue); reflexivity.
Defined.

(** ** Leg tables: every row is built by [leg_row] *)

Lemma insights_leg_is_row (b : list Booking) (f : list Flight)
  (l : Insights.Leg) :
  In l (Insights.leg_table b f) -> exists m, l = Insights.leg_row m.
Proof.
  unfold Insights.leg_table. intros H.
  apply in_map_iff in H as [m [E _]]. now exists m.
Qed.

Lemma kpi_leg_is_row (b : list Booking) (f : list Flight) (l : KPI.Leg) :
  In l (KPI.leg_table b f) -> exists m, l = KPI.leg_row m.
Proof.
  unfold KPI.leg_table. intros H.
  apply in_map_iff in H as [m [E _]]. now exists m.
Qed.

(** C4.  In the leg tables of both scripts, a leg whose joined capacity is
    missing or not positive has a missing load factor (so neither 0 nor an
    error), and a leg whose passenger sum is not positive has a missing
    revenue per passenger. *)
Theorem load_factor_undefined_without_capacity
  (b : list Booking) (f : list Flight) :
  (forall l : Insights.Leg,
      In l (Insights.leg_table b f) ->
      (Insights.l_availablecapacity l = None
       \/ (exists c, Insights.l_availablecapacity l = Some c /\ c <= 0) ->
       Insights.load_factor l = None /\ Insights.load_factor l <> Some 0)
      /\ (Insights.pax l <= 0 -> Insights.rev_per_pax l = None))
  /\ (forall l : KPI.Leg,
         In l (KPI.leg_table b f) ->
         (KPI.l_availablecapacity l = None
          \/ (exists c, KPI.l_availablecapacity l = Some c /\ c <= 0) ->
          KPI.load_factor l = None /\ KPI.load_factor l <> Some 0)
         /\ (KPI.pax l <= 0 -> KPI.rev_per_pax l = None)).
Proof.
  split; intros l Hin.
  - destruct (insights_leg_is_row b f l Hin) as [m ->]. split.
    + intros Hcap. unfold Insights.leg_row in *; simpl in *.
      rewrite (gt0_not_positive _ Hcap). simpl. split; [reflexivity|discriminate].
    + simpl. intros Hp. apply Qltb_false_iff in Hp. now rewrite Hp.
  - destruct (kpi_leg_is_row b f l Hin) as [m ->]. split.
    + intros Hcap. unfold KPI.leg_row in *; simpl in *.
      rewrite (gt0_not_positive _ Hcap). simpl. split; [reflexivity|discriminate].
    + simpl. intros Hp. apply Qltb_false_iff in Hp. now rewrite Hp.
Qed.

Lemma load_factor_undefined_without_capacity_witness :
  (In Sample.leg_unmatched (Insights.leg_table Sample.bookings_no_capacity [])
   /\ Insights.l_availablecapacity Sample.leg_unmatched = None
   /\ Insights.pax Sample.leg_unmatched <= 0)
  /\ (Insights.load_factor Sample.leg_unmatched = None
      /\ Insights.load_factor Sample.leg_unmatched <> Some 0)
  /\ Insights.rev_per_pax Sample.leg_unmatched = None.
Proof.
  assert (Hin : In Sample.leg_unmatched
                  (Insights.leg_table Sample.bookings_no_capacity [])).
  { vm_compute. left. reflexivity. }
  assert (Hp : Insights.pax Sample.leg_unmatched <= 0).
  { vm_compute. discriminate. }
  split; [repeat split; [exact Hin|exact Hp]|].
  split.
  - apply (proj1 (proj1 (load_factor_undefined_without_capacity
                           Sample.bookings_no_capacity [])
                    Sample.leg_unmatched Hin)).
    left. reflexivity.
  - apply (proj2 (proj1 (load_factor_undefined_without_capacity
                           Sample.bookings_no_capacity [])
                    Sample.leg_unmatched Hin)).
    exact Hp.
Defined.

(** ** The dict of anomaly sets *)

Lemma dict_get_set_eq {V} (k : string) (v : V) (d : list (string * V)) :
  DQ.dict_get k (DQ.dict_set k v d) = Some v.
Proof.
  induction d as [|[k' v'] t IH]; simpl.
  - now rewrite String.eqb_refl.
  - destruct (String.eqb k k') eqn:E; simpl.
    + now rewrite String.eqb_refl.
    + now rewrite E.
Qed.

Lemma dict_get_set_neq {V} (k k' : string) (v : V) (d : list (string * V)) :
  k <> k' -> DQ.dict_get k (DQ.dict_set k' v d) = DQ.dict_get k d.
Proof.
  intros Hne. induction d as [|[k2 v2] t IH]; simpl.
  - destruct (String.eqb_spec k k'); [contradiction|reflexivity].
  - destruct (String.eqb_spec k' k2) as [->|Hn]; simpl.
    + destruct (String.eqb_spec k k2); [contradiction|reflexivity].
    + destruct (String.eqb k k2); [reflexivity|exact IH].
Qed.

(** ** A string that lacks a character differs from one that has it *)

Lemma contains_char_app_r (c : ascii) (s t : string) :
  contains_char c t = true -> contains_char c (s ++ t) = true.
Proof.
  intros H. induction s as [|a s IH]; simpl; [assumption|].
  rewrite IH. apply orb_true_r.
Qed.

Lemma contains_char_app_l (c : ascii) (s t : string) :
  contains_char c s = true -> contains_char c (s ++ t) = true.
Proof.
  induction s as [|a s IH]; simpl; [discriminate|].
  intros H. apply orb_true_iff in H as [H|H].
  - now rewrite H.
  - rewrite (IH H). apply orb_true_r.
Qed.

Lemma eqb_contains_char (c : ascii) (s t : string) :
  contains_char c s = false -> contains_char c t = true ->
  String.eqb s t = false.
Proof.
  intros Hs Ht. destruct (String.eqb_spec s t) as [->|]; [congruence|reflexivity].
Qed.

Lemma od_with_contains (c : ascii) (sep : string) (b : DQ.BookingD) :
  contains_char c sep = true -> contains_char c (DQ.od_with sep b) = true.
Proof.
  intros H. unfold DQ.od_with.
  apply contains_char_app_r, contains_char_app_l, H.
Qed.

(** The stringified missing routing is "NAN", which has neither a dash nor
    a byte of the second separator. *)
Lemma missing_routing_inconsistent (b : DQ.BookingD) :
  routing (DQ.raw b) = None -> DQ.inconsistent b = true.
Proof.
  intros H. unfold DQ.inconsistent, DQ.routing_upper. rewrite H.
  change (remove_spaces (upper (astype_str None))) with "NAN".
  rewrite (eqb_contains_char "-"%char "NAN" (DQ.od1 b));
    [|reflexivity|apply od_with_contains; reflexivity].
  rewrite (eqb_contains_char (ascii_of_N 195) "NAN" (DQ.od2 b));
    [reflexivity|reflexivity|apply od_with_contains; reflexivity].
Qed.

Ltac step_bind H :=
  match type of H with
  | DQ.bind ?m _ = _ =>
      let E := fresh "E" in
      destruct m eqn:E; simpl DQ.bind in H; [|discriminate H]
  end.

(** C10.  A booking whose routing cell is missing is marked inconsistent by
    the routing check, and whenever [dq_checks] returns, the booking is in
    the set reported as routing_inconsistent_with_od. *)
Theorem missing_routing_is_flagged
  (booking : Frame DQ.BookingD) (passenger : Frame DQ.PassengerD)
  (flight : Frame Flight) (out : list (string * DQ.Anomalies))
  (b : DQ.BookingD) :
  DQ.dq_checks booking passenger flight = DQ.Ok out ->
  In b (rows booking) ->
  routing (DQ.raw b) = None ->
  DQ.inconsistent b = true
  /\ exists l,
      DQ.dict_get "routing_inconsistent_with_od" out = Some (DQ.BookingRows l)
      /\ In b l.
Proof.
  intros H Hin Hr.
  pose proof (missing_routing_inconsistent b Hr) as Hinc.
  split; [exact Hinc|].
  unfold DQ.dq_checks in H. cbv zeta in H.
  repeat step_bind H.
  injection H as <-.
  exists (filter DQ.inconsistent (rows booking)).
  split.
  - rewrite !dict_get_set_neq by discriminate.
    apply dict_get_set_eq.
  - apply filter_In. now split.
Qed.

Lemma missing_routing_is_flagged_witness :
  (DQ.dq_checks Sample.dq_booking Sample.dq_passenger Sample.dq_flight
   = DQ.Ok Sample.dq_out
   /\ In (DQ.derive_booking Sample.booking_no_routing) (rows Sample.dq_booking)
   /\ routing (DQ.raw (DQ.derive_booking Sample.booking_no_routing)) = None)
  /\ DQ.inconsistent (DQ.derive_booking Sample.booking_no_routing) = true
  /\ exists l,
      DQ.dict_get "routing_inconsistent_with_od" Sample.dq_out
      = Some (DQ.BookingRows l)
      /\ In (DQ.derive_booking Sample.booking_no_routing) l.
Proof.
  assert (H1 : DQ.dq_checks Sample.dq_booking Sample.dq_passenger Sample.dq_flight
               = DQ.Ok Sample.dq_out) by (vm_compute; reflexivity).
  assert (H2 : In (DQ.derive_booking Sample.booking_no_routing)
                 (rows Sample.dq_booking)) by (left; reflexivity).
  split; [repeat split; assumption|].
  apply (missing_routing_is_flagged Sample.dq_booking Sample.dq_passenger
           Sample.dq_flight Sample.dq_out
           (DQ.derive_booking Sample.booking_no_routing) H1 H2).
  reflexivity.
Defined.

(** ** Column lookups that succeed *)

Lemma getitem_ok (cols : list string) (c : string) (u : unit) :
  DQ.getitem cols c = DQ.Ok u -> DQ.has_col cols c = true.
Proof.
  unfold DQ.getitem. destruct (DQ.has_col cols c); [reflexivity|discriminate].
Qed.

Lemma no_missing_label (cols cs : list string) :
  filter (fun c => negb (DQ.has_col cols c)) cs = [] ->
  forall c, In c cs -> DQ.has_col cols c = true.
Proof.
  intros H c Hin.
  destruct (DQ.has_col cols c) eqn:E; [reflexivity|].
  assert (Hf : In c (filter (fun c => negb (DQ.has_col cols c)) cs)).
  { apply filter_In. split; [assumption|now rewrite E]. }
  rewrite H in Hf. destruct Hf.
Qed.

Lemma getitems_ok (cols cs : list string) (u : unit) :
  DQ.getitems cols cs = DQ.Ok u ->
  forall c, In c cs -> DQ.has_col cols c = true.
Proof.
  unfold DQ.getitems. intros H. apply no_missing_label.
  destruct (filter _ cs); [reflexivity|discriminate].
Qed.

Lemma groupby_labels_ok (cols cs : list string) (u : unit) :
  DQ.groupby_labels cols cs = DQ.Ok u ->
  forall c, In c cs -> DQ.has_col cols c = true.
Proof.
  unfold DQ.groupby_labels. intros H. apply no_missing_label.
  destruct (filter _ cs); [reflexivity|discriminate].
Qed.

Lemma has_col_setitem (cols : list string) (c k : string) :
  c <> k -> DQ.has_col (DQ.setitem cols k) c = DQ.has_col cols c.
Proof.
  intros Hne. unfold DQ.setitem.
  destruct (DQ.has_col cols k); [reflexivity|].
  unfold DQ.has_col. rewrite existsb_app. simpl.
  destruct (String.eqb_spec c k); [contradiction|].
  now rewrite !orb_false_r.
Qed.

(** C6, the behaviour of the code.  When the booking table lacks any of
    the labels that checks 4 to 10 index, [dq_checks] raises KeyError: the
    run does not complete and no summary is written. *)
Theorem dq_checks_aborts_on_absent_column
  (booking : Frame DQ.BookingD) (passenger : Frame DQ.PassengerD)
  (flight : Frame Flight) (c : string) :
  In c unguarded_booking_columns ->
  DQ.has_col (columns booking) c = false ->
  exists ms, DQ.dq_checks booking passenger flight = DQ.KeyError ms.
Proof.
  intros Hin Habs.
  destruct (DQ.dq_checks booking passenger flight) as [out|ms] eqn:H;
    [exfalso|now exists ms].
  unfold DQ.dq_checks in H. cbv zeta in H.
  repeat step_bind H.
  assert (Hne : c <> "total_revenue").
  { intros ->. simpl in Hin. repeat (destruct Hin as [Hin|Hin]; [discriminate Hin|]).
    exact Hin. }
  assert (Hall : DQ.has_col (columns booking) c = true).
  { simpl in Hin.
    repeat (destruct Hin as [<-|Hin];
            [ first
                [ apply (getitems_ok _ _ _ E); simpl; tauto
                | rewrite <- (has_col_setitem (columns booking) _ "total_revenue")
                    by discriminate;
                  first
                    [ apply (getitem_ok _ _ _ E0)
                    | apply (groupby_labels_ok _ _ _ E1); simpl; tauto
                    | apply (getitem_ok _ _ _ E3)
                    | apply (getitems_ok _ _ _ E4); simpl; tauto
                    | apply (getitem_ok _ _ _ E5) ] ]
            | ]).
    destruct Hin. }
  congruence.
Qed.

Lemma dq_checks_aborts_on_absent_column_witness :
  (In "routing" unguarded_booking_columns
   /\ DQ.has_col
        (columns (mkFrame (Sample.without "routing" (columns Sample.dq_booking))
                    (rows Sample.dq_booking)))
        "routing" = false)
  /\ exists ms,
      DQ.dq_checks
        (mkFrame (Sample.without "routing" (columns Sample.dq_booking))
           (rows Sample.dq_booking))
        Sample.dq_passenger Sample.dq_flight
      = DQ.KeyError ms.
Proof.
  assert (H1 : In "routing" unguarded_booking_columns).
  { unfold unguarded_booking_columns. simpl. tauto. }
  split; [split; [exact H1|reflexivity]|].
  apply (dq_checks_aborts_on_absent_column _ _ _ "routing" H1).
  reflexivity.
Defined.

(** The whole run on a workbook whose Booking sheet has no routing column:
    [add_derived] succeeds and [dq_checks] raises at check 7. *)
Lemma run_without_routing_column :
  DQ.run
    (mkFrame (Sample.without "routing" Sample.booking_columns)
       Sample.bookings_two_days)
    (mkFrame Sample.passenger_columns Sample.passengers)
    (mkFrame Sample.flight_columns Sample.flights_two_days)
  = DQ.KeyError ["routing"].
Proof. vm_compute. reflexivity. Qed.

(** A guarded check, by contrast, is skipped: without a reservation_date
    column the run completes and the two checks that need it have no entry
    in the dict, hence none in the summary. *)
Lemma guarded_checks_are_skipped
  (booking : Frame DQ.BookingD) (passenger : Frame DQ.PassengerD)
  (flight : Frame Flight) (out : list (string * DQ.Anomalies)) :
  DQ.has_col (columns booking) "reservation_date" = false ->
  DQ.dq_checks booking passenger flight = DQ.Ok out ->
  DQ.dict_get "cancellation_before_reservation" out = None
  /\ DQ.dict_get "reservation_after_flight" out = None.
Proof.
  intros Habs H.
  unfold DQ.dq_checks in H. cbv zeta in H.
  repeat step_bind H.
  injection H as <-.
  rewrite !Habs.
  change (false && true) with false.
  rewrite ?andb_false_r.
  change (false && (DQ.has_col (columns booking) "flight_date" && true))
    with false.
  cbv iota.
  split;
    rewrite !dict_get_set_neq by discriminate;
    repeat match goal with
      | |- context [if ?c then _ else _] => destruct c
      end;
    rewrite ?dict_get_set_neq by discriminate; reflexivity.
Qed.

Lemma run_without_reservation_date_column :
  exists s out,
    DQ.run
      (mkFrame (Sample.without "reservation_date" Sample.booking_columns)
         Sample.bookings_two_days)
      (mkFrame Sample.passenger_columns Sample.passengers)
      (mkFrame Sample.flight_columns Sample.flights_two_days)
    = DQ.Ok (s, out)
    /\ List.length s = 13%nat.
Proof. eexists. eexists. vm_compute. split; reflexivity. Qed.

(** ** groupby, lookup and merge *)

Section FrameFacts.

Context {K : Type} (eqb leb : K -> K -> bool).
Hypothesis eqb_eq : forall a b : K, eqb a b = true <-> a = b.

Lemma eqb_refl_K (a : K) : eqb a a = true.
Proof. now apply eqb_eq. Qed.

Lemma in_insert_key (k x : K) (l : list K) :
  In x (insert_key leb k l) <-> x = k \/ In x l.
Proof.
  induction l as [|h t IH]; simpl.
  - intuition.
  - destruct (leb k h); simpl; [intuition|]. rewrite IH. intuition.
Qed.

Lemma in_sort_keys (x : K) (l : list K) : In x (sort_keys leb l) <-> In x l.
Proof.
  unfold sort_keys. induction l as [|h t IH]; simpl; [reflexivity|].
  rewrite in_insert_key, IH. intuition.
Qed.

Lemma in_unique (x : K) (l : list K) : In x (unique eqb l) <-> In x l.
Proof.
  induction l as [|h t IH]; simpl; [reflexivity|].
  rewrite filter_In, IH. split.
  - intros [->|[H _]]; auto.
  - intros [->|H]; [now left|].
    destruct (eqb h x) eqn:E.
    + left. now apply eqb_eq.
    + right. split; [assumption|reflexivity].
Qed.

Lemma in_dropna_map {R} (key : R -> option K) (rows : list R) (k : K) :
  In k (dropna (map key rows)) <-> exists r, In r rows /\ key r = Some k.
Proof.
  induction rows as [|r t IH]; simpl.
  - split; [intros []|intros [r [[] _]]].
  - destruct (key r) as [k'|] eqn:E; simpl; rewrite IH; split.
    + intros [->|[r' [Hin Hk]]]; [exists r; auto|exists r'; auto].
    + intros [r' [[->|Hin] Hk]].
      * left. congruence.
      * right. now exists r'.
    + intros [r' [Hin Hk]]. exists r'; auto.
    + intros [r' [[->|Hin] Hk]]; [congruence|now exists r'].
Qed.

Lemma in_group_keys {R} (key : R -> option K) (rows : list R) (k : K) :
  In k (sort_keys leb (unique eqb (dropna (map key rows))))
  <-> exists r, In r rows /\ key r = Some k.
Proof. now rewrite in_sort_keys, in_unique, in_dropna_map. Qed.

Lemma filter_has_key_nonempty {R} (key : R -> option K) (rows : list R) (k : K) :
  filter (has_key eqb key k) rows <> []
  <-> exists r, In r rows /\ key r = Some k.
Proof.
  split.
  - intros H. destruct (filter (has_key eqb key k) rows) as [|r t] eqn:E;
      [contradiction|].
    assert (Hr : In r (filter (has_key eqb key k) rows)) by (rewrite E; now left).
    apply filter_In in Hr as [Hin Hk]. exists r. split; [assumption|].
    unfold has_key in Hk. destruct (key r) as [k'|]; [|discriminate].
    apply eqb_eq in Hk. now subst.
  - intros [r [Hin Hk]] E.
    assert (Hr : In r (filter (has_key eqb key k) rows)).
    { apply filter_In. split; [assumption|].
      unfold has_key. rewrite Hk. apply eqb_refl_K. }
    rewrite E in Hr. destruct Hr.
Qed.

Lemma in_groupby {R} (key : R -> option K) (rows : list R)
  (g : K * list R) :
  In g (groupby eqb leb key rows)
  <-> snd g = filter (has_key eqb key (fst g)) rows
      /\ exists r, In r rows /\ key r = Some (fst g).
Proof.
  unfold groupby. rewrite in_map_iff. split.
  - intros [k [<- Hk]]. simpl. split; [reflexivity|].
    now apply in_group_keys.
  - intros [Hs Hk]. exists (fst g). split.
    + destruct g as [k l]; simpl in *. now subst.
    + now apply in_group_keys.
Qed.

Lemma lookup_map_keys {V} (h : K -> V) (ks : list K) (k : K) :
  lookup eqb k (map (fun k' => (k', h k')) ks)
  = if existsb (eqb k) ks then Some (h k) else None.
Proof.
  induction ks as [|a t IH]; simpl; [reflexivity|].
  destruct (eqb k a) eqn:E; simpl; [|exact IH].
  apply eqb_eq in E. now subst.
Qed.

Lemma lookup_groupby {R V} (key : R -> option K) (f : list R -> V)
  (rows : list R) (k : K) :
  lookup eqb k (map (fun g => (fst g, f (snd g))) (groupby eqb leb key rows))
  = match filter (has_key eqb key k) rows with
    | [] => None
    | g => Some (f g)
    end.
Proof.
  unfold groupby. rewrite map_map. simpl.
  rewrite (lookup_map_keys (fun k' => f (filter (has_key eqb key k') rows))).
  destruct (existsb (eqb k) _) eqn:E.
  - apply existsb_exists in E as [k' [Hin Hk]].
    apply eqb_eq in Hk. subst k'.
    apply in_group_keys in Hin. apply filter_has_key_nonempty in Hin.
    destruct (filter (has_key eqb key k) rows); [contradiction|reflexivity].
  - destruct (filter (has_key eqb key k) rows) as [|r t] eqn:F; [reflexivity|].
    assert (Hne : filter (has_key eqb key k) rows <> []) by (rewrite F; discriminate).
    apply filter_has_key_nonempty, in_group_keys in Hne.
    assert (Hex : existsb (eqb k) (sort_keys leb (unique eqb (dropna (map key rows))))
                  = true).
    { apply existsb_exists. exists k. split; [assumption|apply eqb_refl_K]. }
    congruence.
Qed.

Lemma in_merge_left {L R} (lkey : L -> K) (rkey : R -> K)
  (left : list L) (right : list R) (l : L) (m : option R) :
  In (l, m) (merge_left eqb lkey rkey left right)
  <-> In l left
      /\ match m with
         | None => filter (fun r => eqb (lkey l) (rkey r)) right = []
         | Some r => In r right /\ lkey l = rkey r
         end.
Proof.
  unfold merge_left. rewrite in_flat_map. split.
  - intros [l' [Hin H]].
    destruct (filter (fun r => eqb (lkey l') (rkey r)) right) as [|r0 t] eqn:E.
    + destruct H as [H|[]]. injection H as <- <-. now split.
    + apply in_map_iff in H as [r [H Hr]]. injection H as <- <-.
      split; [assumption|].
      rewrite <- E in Hr. apply filter_In in Hr as [Hr Hk].
      split; [assumption|now apply eqb_eq].
  - intros [Hin H]. exists l. split; [assumption|].
    destruct m as [r|].
    + destruct H as [Hr Hk].
      assert (Hf : In r (filter (fun r => eqb (lkey l) (rkey r)) right)).
      { apply filter_In. split; [assumption|now apply eqb_eq]. }
      destruct (filter (fun r => eqb (lkey l) (rkey r)) right) as [|r0 t];
        [destruct Hf|].
      apply in_map_iff. now exists r.
    + rewrite H. now left.
Qed.

End FrameFacts.

(** ** Equality tests of the keys *)

Lemma weekday_eqb_eq (a b : weekday) : weekday_eqb a b = true <-> a = b.
Proof.
  destruct a, b; split; intros H; try reflexivity;
    try discriminate H; vm_compute in H; discriminate H.
Qed.

Lemma option_eqb_eq {A} (eqb : A -> A -> bool) :
  (forall a b, eqb a b = true <-> a = b) ->
  forall x y, option_eqb eqb x y = true <-> x = y.
Proof.
  intros H [a|] [b|]; simpl; try (split; congruence).
  rewrite H. split; congruence.
Qed.

Lemma pair_eqb_eq {A B} (ea : A -> A -> bool) (eb : B -> B -> bool) :
  (forall a b, ea a b = true <-> a = b) ->
  (forall a b, eb a b = true <-> a = b) ->
  forall x y, pair_eqb ea eb x y = true <-> x = y.
Proof.
  intros Ha Hb [a1 b1] [a2 b2]. unfold pair_eqb. simpl.
  rewrite andb_true_iff, Ha, Hb.
  split; [intros [-> ->]; reflexivity|intros H; injection H; auto].
Qed.

Lemma flight_key_eqb_eq (a b : flight_key) : flight_key_eqb a b = true <-> a = b.
Proof.
  apply pair_eqb_eq; apply option_eqb_eq; apply Z.eqb_eq.
Qed.

Lemma insights_od_key_eqb_eq (a b : Insights.od_key) :
  Insights.od_key_eqb a b = true <-> a = b.
Proof. apply pair_eqb_eq; apply String.eqb_eq. Qed.

Lemma seg_dow_key_eqb_eq (a b : Insights.seg_dow_key) :
  Insights.seg_dow_key_eqb a b = true <-> a = b.
Proof.
  apply pair_eqb_eq; [apply insights_od_key_eqb_eq|apply weekday_eqb_eq].
Qed.

(** ** Series indexed by the seven weekdays *)

Lemma reindex_float_labels (s : list (weekday * option Q)) :
  map fst (reindex_float weekday_eqb DOW_ORDER s) = DOW_ORDER.
Proof. reflexivity. Qed.

Lemma at_day_reindex_float (d : weekday) (s : list (weekday * option Q)) :
  lookup weekday_eqb d (reindex_float weekday_eqb DOW_ORDER s)
  = Some (at_day d s).
Proof. destruct d; reflexivity. Qed.

(** ** FWLF *)

Lemma fwlf_of_group_ratio (x : list KPI.Leg) :
  KPI.fwlf_of_group x
  = ratio_of_sums (Qsum (map KPI.pax x))
      (sum_skipna (map KPI.l_availablecapacity x)).
Proof. reflexivity. Qed.

Lemma fwlf_at_day (leg : list KPI.Leg) (d : weekday) :
  at_day d (KPI.fwlf_dow leg)
  = ratio_of_sums (Qsum (map KPI.pax (bucket d leg)))
      (sum_skipna (map KPI.l_availablecapacity (bucket d leg))).
Proof.
  unfold at_day, KPI.fwlf_dow. rewrite at_day_reindex_float.
  unfold at_day.
  rewrite (lookup_groupby weekday_eqb weekday_cat_leb weekday_eqb_eq
             KPI.dow KPI.fwlf_of_group leg d).
  unfold bucket, on_day.
  destruct (filter (has_key weekday_eqb KPI.dow d) leg); reflexivity.
Qed.

(** C1.  For every weekday, the FWLF reported for it is the sum of the pax
    of the legs of that weekday divided by the sum of their capacities (a
    missing capacity adds nothing), and is missing when that sum of
    capacities is not positive.  On two Monday legs of different size it
    differs from the mean of the two load factors. *)
Theorem fwlf_is_capacity_weighted :
  (forall (leg : list KPI.Leg) (d : weekday),
      map fst (KPI.fwlf_dow leg) = DOW_ORDER
      /\ at_day d (KPI.fwlf_dow leg)
         = ratio_of_sums (Qsum (map KPI.pax (bucket d leg)))
             (sum_skipna (map KPI.l_availablecapacity (bucket d leg)))
      /\ (sum_skipna (map KPI.l_availablecapacity (bucket d leg)) <= 0 ->
          at_day d (KPI.fwlf_dow leg) = None)
      /\ (0 < sum_skipna (map KPI.l_availablecapacity (bucket d leg)) ->
          at_day d (KPI.fwlf_dow leg)
          = Some (Qsum (map KPI.pax (bucket d leg))
                  / sum_skipna (map KPI.l_availablecapacity (bucket d leg)))))
  /\ cell_eq (at_day Monday (KPI.fwlf_dow Sample.legs_two_sizes))
       (Some (190 # 300))
  /\ cell_eq
       (mean_skipna (map KPI.load_factor (bucket Monday Sample.legs_two_sizes)))
       (Some (1 # 2))
  /\ ~ cell_eq (at_day Monday (KPI.fwlf_dow Sample.legs_two_sizes))
         (mean_skipna
            (map KPI.load_factor (bucket Monday Sample.legs_two_sizes))).
Proof.
  split; [|split; [|split]].
  - intros leg d. split; [reflexivity|]. split; [apply fwlf_at_day|]. split.
    + intros H. rewrite fwlf_at_day. unfold ratio_of_sums.
      apply Qltb_false_iff in H. now rewrite H.
    + intros H. rewrite fwlf_at_day. unfold ratio_of_sums.
      apply Qltb_true_iff in H. now rewrite H.
  - vm_compute. reflexivity.
  - vm_compute. reflexivity.
  - vm_compute. intros H. discriminate H.
Qed.

Lemma fwlf_is_capacity_weighted_witness :
  0 < sum_skipna
        (map KPI.l_availablecapacity (bucket Monday Sample.legs_two_sizes))
  /\ at_day Monday (KPI.fwlf_dow Sample.legs_two_sizes)
     = Some (Qsum (map KPI.pax (bucket Monday Sample.legs_two_sizes))
             / sum_skipna
                 (map KPI.l_availablecapacity
                    (bucket Monday Sample.legs_two_sizes))).
Proof.
  assert (H : 0 < sum_skipna
                    (map KPI.l_availablecapacity
                       (bucket Monday Sample.legs_two_sizes)))
    by (vm_compute; reflexivity).
  split; [exact H|].
  apply (proj2 (proj2 (proj2 (proj1 fwlf_is_capacity_weighted
                                Sample.legs_two_sizes Monday)))).
  exact H.
Defined.

(** ** CALF *)

Lemma calf_at_day (leg : list KPI.Leg) (b : list Booking) (d : weekday) :
  at_day d (KPI.calf_dow leg b)
  = mean_skipna
      (map KPI.calf
         (filter (fun l2 => on_day d (KPI.base l2)) (KPI.leg2 leg b))).
Proof.
  unfold at_day, KPI.calf_dow. rewrite at_day_reindex_float.
  unfold at_day.
  rewrite (lookup_groupby weekday_eqb weekday_cat_leb weekday_eqb_eq
             (fun l : KPI.Leg2 => KPI.dow (KPI.base l))
             (fun g => mean_skipna (map KPI.calf g)) (KPI.leg2 leg b) d).
  unfold on_day.
  change (fun l2 : KPI.Leg2 => has_key weekday_eqb KPI.dow d (KPI.base l2))
    with (has_key weekday_eqb (fun l : KPI.Leg2 => KPI.dow (KPI.base l)) d).
  destruct (filter (has_key weekday_eqb (fun l : KPI.Leg2 => KPI.dow (KPI.base l)) d)
              (KPI.leg2 leg b)); reflexivity.
Qed.

Lemma in_realized (b : list Booking) (r : flight_key * Q) :
  In r (KPI.realized b)
  <-> snd r = Qsum (map KPI.realized_pax_of (filter (same_flight (fst r)) b))
      /\ exists x, In x b /\ KPI.realized_key_of x = Some (fst r).
Proof.
  unfold KPI.realized. rewrite in_map_iff. split.
  - intros [g [<- Hg]]. simpl.
    apply (in_groupby flight_key_eqb flight_key_leb flight_key_eqb_eq) in Hg
      as [Hs Hk].
    split; [|exact Hk]. now rewrite Hs.
  - intros [Hs Hk]. exists (fst r, filter (same_flight (fst r)) b). split.
    + destruct r as [k v]; simpl in *. now subst.
    + apply (in_groupby flight_key_eqb flight_key_leb flight_key_eqb_eq).
      simpl. split; [reflexivity|exact Hk].
Qed.

Lemma leg2_realized_pax (leg : list KPI.Leg) (b : list Booking) (l2 : KPI.Leg2) :
  In l2 (KPI.leg2 leg b) ->
  In (KPI.base l2) leg
  /\ KPI.realized_pax l2
     = match filter (same_flight (KPI.l_flightnumber (KPI.base l2),
                                  KPI.l_flight_date (KPI.base l2))) b with
       | [] => None
       | g => Some (Qsum (map KPI.realized_pax_of g))
       end.
Proof.
  unfold KPI.leg2. intros H.
  apply in_map_iff in H as [[l m] [<- Hm]].
  apply (in_merge_left flight_key_eqb flight_key_eqb_eq) in Hm as [Hl Hm].
  simpl. split; [exact Hl|].
  set (k := (KPI.l_flightnumber l, KPI.l_flight_date l)) in *.
  destruct m as [r|]; simpl.
  - destruct Hm as [Hr Hk]. apply in_realized in Hr as [Hs Hx].
    rewrite <- Hk in Hs, Hx.
    pose proof (proj2 (filter_has_key_nonempty flight_key_eqb flight_key_eqb_eq
                         KPI.realized_key_of b k) Hx) as Hne.
    change (filter (same_flight k) b <> []) in Hne.
    rewrite Hs.
    destruct (filter (same_flight k) b); [contradiction|reflexivity].
  - destruct (filter (same_flight k) b) as [|x t] eqn:F; [reflexivity|exfalso].
    assert (Hne : filter (same_flight k) b <> []) by (rewrite F; discriminate).
    pose proof (proj1 (filter_has_key_nonempty flight_key_eqb flight_key_eqb_eq
                         KPI.realized_key_of b k) Hne) as Hx.
    assert (Hr : In (k, Qsum (map KPI.realized_pax_of (filter (same_flight k) b)))
                   (KPI.realized b)).
    { apply in_realized. simpl. split; [reflexivity|exact Hx]. }
    assert (Hf : In (k, Qsum (map KPI.realized_pax_of (filter (same_flight k) b)))
                   (filter (fun r : flight_key * Q => flight_key_eqb k (fst r))
                      (KPI.realized b))).
    { apply filter_In. split; [exact Hr|]. simpl. now apply flight_key_eqb_eq. }
    rewrite Hm in Hf. destruct Hf.
Qed.

(** C2, as stated, fails: CALF of a weekday is not the capacity-weighted
    ratio of sums.  Two Monday legs without cancellations, 10 of 100 seats
    and 180 of 200 seats: the code reports 1/2, the ratio of sums is
    190/300. *)
Lemma calf_is_not_capacity_weighted :
  cell_eq (at_day Monday
             (KPI.calf_dow Sample.legs_two_sizes Sample.bookings_two_sizes))
    (Some (1 # 2))
  /\ cell_eq (calf_like_fwlf Monday Sample.legs_two_sizes) (Some (190 # 300))
  /\ ~ cell_eq
         (at_day Monday
            (KPI.calf_dow Sample.legs_two_sizes Sample.bookings_two_sizes))
         (calf_like_fwlf Monday Sample.legs_two_sizes).
Proof.
  split; [|split].
  - vm_compute. reflexivity.
  - vm_compute. reflexivity.
  - vm_compute. intros H. discriminate H.
Qed.

(** ** Nested filters and positive capacities *)

Lemma filter_filter {A} (p q : A -> bool) (l : list A) :
  filter p (filter q l) = filter (fun x => q x && p x) l.
Proof.
  induction l as [|a t IH]; simpl; [reflexivity|].
  destruct (q a); simpl; [destruct (p a); now rewrite IH|exact IH].
Qed.

Lemma positive_seats (c : Q) :
  negb (Qeq_bool c 0) && Qltb 0 c = Qltb 0 c.
Proof.
  destruct (Qltb 0 c) eqn:E; [|apply andb_false_r].
  apply Qltb_true_iff in E. rewrite andb_true_r.
  destruct (Qeq_bool c 0) eqn:Q0; [|reflexivity].
  apply Qeq_bool_iff in Q0. rewrite Q0 in E. exfalso. exact (Qlt_irrefl 0 E).
Qed.

(** ** Correlation of load factor and revenue per passenger *)

Lemma in_dropna {A} (l : list (option A)) (a : A) :
  In a (dropna l) <-> In (Some a) l.
Proof.
  induction l as [|[x|] t IH]; simpl.
  - reflexivity.
  - rewrite IH. split; (intros [H|H]; [left; congruence|now right]).
  - rewrite IH. split; [now right|intros [H|H]; [discriminate|assumption]].
Qed.





(** ** Tables by weekday *)

Lemma size_by_dow_counts (b : list Booking) :
  Insights.size_by_dow b
  = map (fun d =>
           (d, List.length (filter (has_key weekday_eqb Insights.flight_dow d) b)))
      DOW_ORDER.
Proof.
  unfold Insights.size_by_dow, reindex, Insights.dow_order.
  rewrite map_map. apply map_ext. intros d. simpl.
  rewrite (lookup_groupby weekday_eqb weekday_name_leb weekday_eqb_eq
             Insights.flight_dow (fun g => List.length g) b d).
  destruct (filter (has_key weekday_eqb Insights.flight_dow d) b); reflexivity.
Qed.

Lemma cxl_rate_by_dow_rows (b : list Booking) :
  Insights.cxl_rate_by_dow b
  = map (fun d =>
           Insights.cxl_rate_row
             ((d, List.length
                    (filter (has_key weekday_eqb Insights.flight_dow d) b)),
              Some (d, List.length
                         (filter (has_key weekday_eqb Insights.flight_dow d)
                            (filter Insights.is_cancelled b)))))
      DOW_ORDER.
Proof.
  unfold Insights.cxl_rate_by_dow, Insights.bookings_by_dow, Insights.cxl_by_dow.
  rewrite !size_by_dow_counts. reflexivity.
Qed.

Lemma no_row_no_group {K R} (eqb : K -> K -> bool) (key : R -> option K)
  (k : K) (rows : list R) :
  (forall a b, eqb a b = true <-> a = b) ->
  (forall r, In r rows -> key r <> Some k) ->
  filter (has_key eqb key k) rows = [].
Proof.
  intros Heq H.
  destruct (filter (has_key eqb key k) rows) as [|r t] eqn:F; [reflexivity|].
  assert (Hne : filter (has_key eqb key k) rows <> []) by (rewrite F; discriminate).
  apply (filter_has_key_nonempty eqb Heq) in Hne as [x [Hx Hk]].
  exfalso. exact (H x Hx Hk).
Qed.

Lemma in_lf_by_date (leg : list Insights.Leg) (r : Z * option Q) :
  In r (Insights.lf_by_date leg) ->
  exists l, In l leg /\ Insights.l_flight_date l = Some (fst r).
Proof.
  unfold Insights.lf_by_date. intros H.
  apply in_map_iff in H as [g [<- Hg]].
  apply (in_groupby Z.eqb Z.leb Z.eqb_eq) in Hg as [_ Hk]. exact Hk.
Qed.

Lemma lf_by_dow_at_day (leg : list Insights.Leg) (d : weekday) :
  (forall l, In l leg -> Insights.leg_dow l <> Some d) ->
  at_day d (Insights.lf_by_dow leg) = None.
Proof.
  intros H. unfold at_day, Insights.lf_by_dow, Insights.dow_order.
  rewrite at_day_reindex_float. unfold at_day.
  rewrite (lookup_groupby weekday_eqb weekday_name_leb weekday_eqb_eq
             (fun r : Z * option Q => Some (day_name_of (fst r)))
             (fun g => mean_skipna (map snd g)) (Insights.lf_by_date leg) d).
  rewrite (no_row_no_group weekday_eqb _ d _ weekday_eqb_eq); [reflexivity|].
  intros r Hr E. apply in_lf_by_date in Hr as [l [Hl Hd]].
  apply (H l Hl). unfold Insights.leg_dow. rewrite Hd. exact E.
Qed.

Lemma in_lf_seg_dow (leg : list Insights.Leg) (row : Insights.SegDow) :
  In row (Insights.lf_seg_dow leg) ->
  exists l, In l leg
            /\ Insights.l_origin l = Insights.s_origin row
            /\ Insights.l_destination l = Insights.s_destination row
            /\ Insights.leg_dow l = Some (Insights.s_dow row).
Proof.
  unfold Insights.lf_seg_dow. intros H.
  apply in_map_iff in H as [g [<- Hg]].
  apply (in_groupby Insights.seg_dow_key_eqb Insights.seg_dow_key_leb
           seg_dow_key_eqb_eq) in Hg as [_ [l [Hl Hk]]].
  exists l. split; [exact Hl|].
  unfold Insights.seg_dow_key_of in Hk.
  destruct (Insights.leg_dow l) as [d|]; [|discriminate].
  simpl in Hk. injection Hk as Hk. simpl. rewrite <- Hk. simpl. auto.
Qed.

(** C5, as stated, fails: the long table by segment and weekday of a leg
    table with a Monday leg and a Friday leg of one segment has two rows,
    Friday before Monday. *)
Lemma segment_weekday_table_not_canonical :
  map Insights.s_dow (Insights.lf_seg_dow Sample.legs_two_days)
  = [Friday; Monday]
  /\ map Insights.s_dow (Insights.lf_seg_dow Sample.legs_two_days)
     <> DOW_ORDER.
Proof.
  split; [vm_compute; reflexivity|].
  vm_compute. intros H. discriminate H.
Qed.

(* ===================================================================== *)
(** * Further properties of the scripts *)
(* ===================================================================== *)

(** ** Stripping and lower-casing *)

Lemma space_not_digit (c : ascii) : is_space c = true -> is_digit c = false.
Proof.
  intros H. destruct (is_digit c) eqn:E; [|reflexivity].
  rewrite (digit_not_space c E) in H. discriminate.
Qed.

Lemma code_ascii_of_N (n : N) : (n < 256)%N -> code (ascii_of_N n) = n.
Proof. intros H. unfold code. now apply N_ascii_embedding. Qed.

Lemma code_lt_256 (c : ascii) : (code c < 256)%N.
Proof. unfold code. apply N_ascii_bounded. Qed.

Lemma lower_char_cases (c : ascii) :
  (lower_char c = c /\ ((code c < 65)%N \/ (90 < code c)%N))
  \/ ((65 <= code c <= 90)%N /\ code (lower_char c) = (code c + 32)%N).
Proof.
  unfold lower_char.
  destruct ((65 <=? code c)%N && (code c <=? 90)%N) eqn:E.
  - right. apply andb_true_iff in E as [E1 E2].
    apply N.leb_le in E1, E2. split; [lia|].
    apply code_ascii_of_N. lia.
  - left. split; [reflexivity|].
    apply andb_false_iff in E as [E|E]; apply N.leb_gt in E; lia.
Qed.

Lemma is_space_lower_char (c : ascii) : is_space (lower_char c) = is_space c.
Proof.
  destruct (lower_char_cases c) as [[-> _]|[Hr Hc]]; [reflexivity|].
  unfold is_space. rewrite Hc.
  assert (E1 : (code c + 32 <=? 13)%N = false) by (apply N.leb_gt; lia).
  assert (E2 : (code c + 32 <=? 32)%N = false) by (apply N.leb_gt; lia).
  assert (E3 : (code c <=? 13)%N = false) by (apply N.leb_gt; lia).
  assert (E4 : (code c <=? 32)%N = false) by (apply N.leb_gt; lia).
  now rewrite E1, E2, E3, E4, !andb_false_r.
Qed.

Lemma lower_char_idempotent (c : ascii) :
  lower_char (lower_char c) = lower_char c.
Proof.
  destruct (lower_char_cases c) as [[E _]|[Hr Hc]].
  - now rewrite E.
  - unfold lower_char at 1. rewrite Hc.
    assert (E : (code c + 32 <=? 90)%N = false) by (apply N.leb_gt; lia).
    now rewrite E, andb_false_r.
Qed.

Lemma lower_idempotent (s : string) : lower (lower s) = lower s.
Proof.
  induction s as [|c s IH]; simpl; [reflexivity|].
  now rewrite lower_char_idempotent, IH.
Qed.

Lemma lstrip_lower (s : string) : lstrip (lower s) = lower (lstrip s).
Proof.
  induction s as [|c s IH]; simpl; [reflexivity|].
  rewrite is_space_lower_char. destruct (is_space c); [exact IH|reflexivity].
Qed.

Lemma rstrip_lower (s : string) : rstrip (lower s) = lower (rstrip s).
Proof.
  induction s as [|c s IH]; simpl; [reflexivity|].
  rewrite IH, is_space_lower_char.
  destruct (rstrip s); simpl; [destruct (is_space c)|]; reflexivity.
Qed.

Lemma strip_lower (s : string) : strip (lower s) = lower (strip s).
Proof. unfold strip. now rewrite lstrip_lower, rstrip_lower. Qed.

Lemma rstrip_idempotent (s : string) : rstrip (rstrip s) = rstrip s.
Proof.
  induction s as [|c s IH]; simpl; [reflexivity|].
  destruct (rstrip s) as [|a r] eqn:E.
  - destruct (is_space c) eqn:Ec; simpl; [reflexivity|now rewrite Ec].
  - change (rstrip (String c (String a r))) with
      (match rstrip (String a r) with
       | EmptyString => if is_space c then EmptyString else String c EmptyString
       | String x y => String c (String x y)
       end).
    now rewrite IH.
Qed.

Lemma lstrip_head (s : string) :
  lstrip s = "" \/ exists c t, lstrip s = String c t /\ is_space c = false.
Proof.
  induction s as [|c s IH]; simpl; [now left|].
  destruct (is_space c) eqn:E; [exact IH|].
  right. now exists c, s.
Qed.

Lemma rstrip_head (c : ascii) (t : string) :
  is_space c = false -> exists t', rstrip (String c t) = String c t'.
Proof.
  intros E. simpl. destruct (rstrip t) as [|a r].
  - rewrite E. now exists "".
  - now exists (String a r).
Qed.

Lemma strip_idempotent (s : string) : strip (strip s) = strip s.
Proof.
  unfold strip.
  destruct (lstrip_head s) as [->|[c [t [-> E]]]]; [reflexivity|].
  destruct (rstrip_head c t E) as [t' Hr].
  rewrite Hr. simpl lstrip. rewrite E. rewrite <- Hr.
  apply rstrip_idempotent.
Qed.

Lemma strip_no_space (s : string) : no_space s = true -> strip s = s.
Proof.
  intros H. unfold strip.
  assert (Hl : lstrip s = s).
  { destruct s as [|c s]; simpl in *; [reflexivity|].
    apply andb_true_iff in H as [Hc _]. apply negb_true_iff in Hc.
    now rewrite Hc. }
  rewrite Hl. clear Hl.
  induction s as [|c s IH]; simpl in *; [reflexivity|].
  apply andb_true_iff in H as [Hc Hs]. apply negb_true_iff in Hc.
  rewrite (IH Hs). destruct s; [now rewrite Hc|reflexivity].
Qed.

Lemma sub_ws_no_space_id (s : string) :
  no_space s = true -> sub_ws_from false s = s.
Proof.
  induction s as [|c s IH]; simpl; [reflexivity|].
  intros H. apply andb_true_iff in H as [Hc Hs]. apply negb_true_iff in Hc.
  now rewrite Hc, (IH Hs).
Qed.

Lemma no_space_sub_ws (b : bool) (s : string) :
  no_space (sub_ws_from b s) = true.
Proof.
  revert b. induction s as [|c s IH]; intros b; simpl; [reflexivity|].
  destruct (is_space c) eqn:E.
  - destruct b; simpl; [apply IH|]. apply IH.
  - simpl. now rewrite E, IH.
Qed.

Lemma no_space_lower (s : string) : no_space (lower s) = no_space s.
Proof.
  induction s as [|c s IH]; simpl; [reflexivity|].
  now rewrite is_space_lower_char, IH.
Qed.

Lemma no_upper_lower (s : string) : no_upper (lower s) = true.
Proof.
  induction s as [|c s IH]; simpl; [reflexivity|].
  rewrite IH, andb_true_r. apply negb_true_iff.
  destruct (lower_char_cases c) as [[-> Hc]|[Hr Hc]].
  - apply andb_false_iff. destruct Hc as [Hc|Hc];
      [left|right]; apply N.leb_gt; lia.
  - rewrite Hc. apply andb_false_iff. right. apply N.leb_gt. lia.
Qed.

(** X1.  A label cleaned by [clean_cols] of the data-quality script has no
    whitespace and no upper-case letter, and cleaning it again leaves it
    unchanged; the exploration script cleans labels the same way. *)
Theorem clean_col_canonical (c : string) :
  no_space (DQ.clean_col c) = true
  /\ no_upper (DQ.clean_col c) = true
  /\ DQ.clean_col (DQ.clean_col c) = DQ.clean_col c
  /\ Insights.clean_col c = DQ.clean_col c.
Proof.
  assert (Hn : no_space (DQ.clean_col c) = true).
  { unfold DQ.clean_col, sub_ws. rewrite no_space_lower. apply no_space_sub_ws. }
  split; [exact Hn|]. split; [apply no_upper_lower|]. split; [|reflexivity].
  unfold DQ.clean_col at 1.
  rewrite (strip_no_space _ Hn).
  unfold sub_ws. rewrite (sub_ws_no_space_id _ Hn).
  unfold DQ.clean_col. apply lower_idempotent.
Qed.

(** ** norm_text_channel *)

Lemma mapping_values (k v : string) :
  lookup String.eqb k Insights.mapping = Some v ->
  In v canonical_channels
  /\ lookup String.eqb v Insights.mapping = Some v
  /\ lower (strip v) = v.
Proof.
  unfold Insights.mapping. simpl.
  repeat (destruct (String.eqb k _);
          [intros H; injection H as <-; vm_compute; tauto|]).
  discriminate.
Qed.

Lemma mapping_miss (k : string) :
  lookup String.eqb k Insights.mapping = None ->
  ~ In k channel_synonyms /\ ~ In k canonical_channels.
Proof.
  intros H.
  assert (Hk : forall x, In x (map fst Insights.mapping) -> k <> x).
  { intros x Hx ->. revert H. simpl in Hx.
    repeat (destruct Hx as [<-|Hx]; [vm_compute; discriminate|]).
    destruct Hx. }
  split; intros Hin; simpl in Hin;
    repeat (destruct Hin as [Hin|Hin];
            [symmetry in Hin; revert Hin; apply Hk; simpl; tauto|]);
    destruct Hin.
Qed.

(** X2.  [norm_text_channel] is idempotent: a channel name that was
    normalized is returned unchanged by a second normalization, and a
    missing name stays missing. *)
Theorem norm_text_channel_idempotent (s : option string) :
  Insights.norm_text_channel (Insights.norm_text_channel s)
  = Insights.norm_text_channel s.
Proof.
  destruct s as [x|]; [|reflexivity].
  unfold Insights.norm_text_channel, dict_get_default.
  destruct (lookup String.eqb (lower (strip x)) Insights.mapping) as [v|] eqn:E.
  - destruct (mapping_values _ _ E) as [_ [Hv Hs]]. now rewrite Hs, Hv.
  - rewrite <- strip_lower, lower_idempotent, strip_lower, strip_idempotent.
    now rewrite E.
Qed.

(** X3.  The normalized channel is never one of the spellings the synonym
    table replaces ("condor-app", "app", "web", "online travel agency"),
    whatever the case and the outer whitespace of the input; a name that is
    not in the table passes through lower-cased and stripped. *)
Theorem norm_text_channel_replaces_synonyms (x r : string) :
  Insights.norm_text_channel (Some x) = Some r ->
  ~ In r channel_synonyms
  /\ (In r canonical_channels \/ r = lower (strip x)).
Proof.
  unfold Insights.norm_text_channel, dict_get_default. intros H.
  destruct (lookup String.eqb (lower (strip x)) Insights.mapping) as [v|] eqn:E;
    injection H as <-.
  - destruct (mapping_values _ _ E) as [Hc _]. split; [|now left].
    intros Hs. unfold canonical_channels, channel_synonyms in *. simpl in *.
    repeat (destruct Hc as [<-|Hc];
            [repeat (destruct Hs as [Hs|Hs]; [discriminate Hs|]); exact Hs|]).
    exact Hc.
  - split; [apply (mapping_miss _ E)|now right].
Qed.

Lemma norm_text_channel_replaces_synonyms_witness :
  Insights.norm_text_channel (Some "  Condor-App ") = Some "condor app"
  /\ ~ In "condor app" channel_synonyms
  /\ (In "condor app" canonical_channels
      \/ "condor app" = lower (strip "  Condor-App ")).
Proof.
  assert (H : Insights.norm_text_channel (Some "  Condor-App ")
              = Some "condor app") by reflexivity.
  split; [exact H|].
  exact (norm_text_channel_replaces_synonyms "  Condor-App " "condor app" H).
Defined.

(** ** normalize_booking_id keeps exactly the digits *)

Lemma sub_nondigits_lstrip (s : string) :
  sub_nondigits (lstrip s) = sub_nondigits s.
Proof.
  induction s as [|c s IH]; simpl; [reflexivity|].
  destruct (is_space c) eqn:E; [|reflexivity].
  now rewrite (space_not_digit c E).
Qed.

Lemma sub_nondigits_rstrip (s : string) :
  sub_nondigits (rstrip s) = sub_nondigits s.
Proof.
  induction s as [|c s IH]; simpl; [reflexivity|].
  destruct (rstrip s) as [|a r] eqn:E.
  - simpl in IH. rewrite <- IH.
    destruct (is_space c) eqn:Ec.
    + now rewrite (space_not_digit c Ec).
    + reflexivity.
  - change (sub_nondigits (String c (String a r)))
      with (if is_digit c then String c (sub_nondigits (String a r))
            else sub_nondigits (String a r)).
    now rewrite IH.
Qed.

Lemma sub_nondigits_strip (s : string) :
  sub_nondigits (strip s) = sub_nondigits s.
Proof. unfold strip. now rewrite sub_nondigits_rstrip, sub_nondigits_lstrip. Qed.

(** X4.  The normalized id of a string of ASCII characters is the string of
    its digits, in order, and is missing when the string has no digit; so
    two such raw ids with the same digits get the same normalized id,
    whatever else they contain. *)
Theorem normalize_booking_id_keeps_digits :
  (forall s : string,
      ascii_only s = true ->
      DQ.normalize_booking_id (PStr s)
      = match sub_nondigits s with
        | EmptyString => NaN
        | d => PStr d
        end)
  /\ (forall s t : string,
         ascii_only s = true -> ascii_only t = true ->
         sub_nondigits s = sub_nondigits t ->
         DQ.normalize_booking_id (PStr s) = DQ.normalize_booking_id (PStr t)
         /\ Insights.normalize_booking_id (PStr s)
            = Insights.normalize_booking_id (PStr t)
         /\ KPI.normalize_booking_id (PStr s) = KPI.normalize_booking_id (PStr t)).
Proof.
  assert (H : forall s : string,
             DQ.normalize_booking_id (PStr s)
             = match sub_nondigits s with
               | EmptyString => NaN
               | d => PStr d
               end).
  { intros s. unfold DQ.normalize_booking_id. simpl.
    rewrite sub_nondigits_strip. now destruct (sub_nondigits s). }
  split; [intros s _; apply H|].
  intros s t _ _ E.
  destruct (normalize_booking_id_same (PStr s)) as [-> ->].
  destruct (normalize_booking_id_same (PStr t)) as [-> ->].
  rewrite !H, E. auto.
Qed.

Lemma normalize_booking_id_keeps_digits_witness :
  (ascii_only "PNR-00123" = true /\ ascii_only " 00123 " = true
   /\ sub_nondigits "PNR-00123" = sub_nondigits " 00123 ")
  /\ DQ.normalize_booking_id (PStr "PNR-00123") = PStr "00123"
  /\ DQ.normalize_booking_id (PStr "PNR-00123")
     = DQ.normalize_booking_id (PStr " 00123 ")
  /\ Insights.normalize_booking_id (PStr "PNR-00123")
     = Insights.normalize_booking_id (PStr " 00123 ")
  /\ KPI.normalize_booking_id (PStr "PNR-00123")
     = KPI.normalize_booking_id (PStr " 00123 ").
Proof.
  assert (H1 : ascii_only "PNR-00123" = true) by reflexivity.
  assert (H2 : ascii_only " 00123 " = true) by reflexivity.
  assert (H : sub_nondigits "PNR-00123" = sub_nondigits " 00123 ")
    by reflexivity.
  split; [repeat split; assumption|].
  split; [exact (proj1 normalize_booking_id_keeps_digits "PNR-00123" H1)|].
  exact (proj2 normalize_booking_id_keeps_digits "PNR-00123" " 00123 " H1 H2 H).
Defined.

(** ** add_derived *)

Lemma has_col_setitem_same (cols : list string) (k : string) :
  DQ.has_col (DQ.setitem cols k) k = true.
Proof.
  unfold DQ.setitem. destruct (DQ.has_col cols k) eqn:E; [exact E|].
  unfold DQ.has_col. rewrite existsb_app. simpl.
  now rewrite String.eqb_refl, orb_true_r.
Qed.

Lemma has_col_setitem_mono (cols : list string) (c k : string) :
  DQ.has_col cols c = true -> DQ.has_col (DQ.setitem cols k) c = true.
Proof.
  intros H. unfold DQ.setitem. destruct (DQ.has_col cols k); [exact H|].
  unfold DQ.has_col in *. rewrite existsb_app, H. reflexivity.
Qed.

Lemma has_col_setitem_iff (cols : list string) (c k : string) :
  DQ.has_col (DQ.setitem cols k) c = true
  <-> DQ.has_col cols c = true \/ c = k.
Proof.
  unfold DQ.setitem. destruct (DQ.has_col cols k) eqn:E.
  - split; [now left|]. intros [H| ->]; assumption.
  - unfold DQ.has_col in *. rewrite existsb_app. simpl.
    rewrite orb_false_r, orb_true_iff, String.eqb_eq. reflexivity.
Qed.

(** X5.  [add_derived] indexes four labels without a guard, in this order:
    bookingid_(pnr) of the booking table, bookingid of the passenger table,
    origin and destination of the booking table.  It raises KeyError with
    the first of them that is absent.  When the four are present it
    returns, and the tables it returns have the labels bookingid_norm
    (booking and passenger) and routing_canonical (booking) next to every
    label they had, and no other label. *)
Theorem add_derived_behaviour
  (booking : Frame Booking) (passenger : Frame Passenger)
  (flight : Frame Flight) :
  (DQ.has_col (columns booking) "bookingid_(pnr)" = true ->
   DQ.has_col (columns passenger) "bookingid" = true ->
   DQ.has_col (columns booking) "origin" = true ->
   DQ.has_col (columns booking) "destination" = true ->
   exists b' p' f',
     DQ.add_derived booking passenger flight = DQ.Ok (b', p', f')
     /\ (forall c, DQ.has_col (columns b') c = true
                   <-> DQ.has_col (columns booking) c = true
                       \/ c = "bookingid_norm" \/ c = "routing_canonical")
     /\ (forall c, DQ.has_col (columns p') c = true
                   <-> DQ.has_col (columns passenger) c = true
                       \/ c = "bookingid_norm"))
  /\ (DQ.has_col (columns booking) "bookingid_(pnr)" = false ->
      DQ.add_derived booking passenger flight
      = DQ.KeyError ["bookingid_(pnr)"])
  /\ (DQ.has_col (columns booking) "bookingid_(pnr)" = true ->
      DQ.has_col (columns passenger) "bookingid" = false ->
      DQ.add_derived booking passenger flight = DQ.KeyError ["bookingid"])
  /\ (DQ.has_col (columns booking) "bookingid_(pnr)" = true ->
      DQ.has_col (columns passenger) "bookingid" = true ->
      DQ.has_col (columns booking) "origin" = false ->
      DQ.add_derived booking passenger flight = DQ.KeyError ["origin"])
  /\ (DQ.has_col (columns booking) "bookingid_(pnr)" = true ->
      DQ.has_col (columns passenger) "bookingid" = true ->
      DQ.has_col (columns booking) "origin" = true ->
      DQ.has_col (columns booking) "destination" = false ->
      DQ.add_derived booking passenger flight = DQ.KeyError ["destination"]).
Proof.
  unfold DQ.add_derived, DQ.getitem.
  split; [|split; [|split; [|split]]].
  - intros H1 H2 H3 H4. rewrite H1, H2, H3, H4. simpl.
    eexists. eexists. eexists. split; [reflexivity|]. simpl. split.
    + intros c. rewrite !has_col_setitem_iff. tauto.
    + intros c. rewrite has_col_setitem_iff. tauto.
  - intros H1. now rewrite H1.
  - intros H1 H2. now rewrite H1, H2.
  - intros H1 H2 H3. now rewrite H1, H2, H3.
  - intros H1 H2 H3 H4. now rewrite H1, H2, H3, H4.
Qed.

Lemma add_derived_behaviour_witness :
  (DQ.has_col Sample.booking_columns "bookingid_(pnr)" = true
   /\ DQ.has_col ["booking_id"; "booking_channel"] "bookingid" = false)
  /\ DQ.add_derived
       (mkFrame Sample.booking_columns Sample.bookings_two_days)
       (mkFrame ["booking_id"; "booking_channel"] Sample.passengers)
       (mkFrame Sample.flight_columns Sample.flights_two_days)
     = DQ.KeyError ["bookingid"].
Proof.
  assert (H1 : DQ.has_col Sample.booking_columns "bookingid_(pnr)" = true)
    by reflexivity.
  assert (H2 : DQ.has_col ["booking_id"; "booking_channel"] "bookingid" = false)
    by reflexivity.
  split; [now split|].
  exact (proj1 (proj2 (proj2 (add_derived_behaviour
                  (mkFrame Sample.booking_columns Sample.bookings_two_days)
                  (mkFrame ["booking_id"; "booking_channel"] Sample.passengers)
                  (mkFrame Sample.flight_columns Sample.flights_two_days))))
           H1 H2).
Defined.

(** ** dq_checks with every label present *)

Lemma issubset_has_col (need cols : list string) (c : string) :
  DQ.issubset need cols = true -> In c need -> DQ.has_col cols c = true.
Proof.
  unfold DQ.issubset. intros H Hin.
  rewrite forallb_forall in H. now apply H.
Qed.

Lemma all_present_no_missing (cols cs : list string) :
  (forall c, In c cs -> DQ.has_col cols c = true) ->
  filter (fun c => negb (DQ.has_col cols c)) cs = [].
Proof.
  intros H. induction cs as [|c t IH]; simpl; [reflexivity|].
  rewrite (H c) by now left. simpl. apply IH. intros x Hx. apply H. now right.
Qed.

Lemma all_present_issubset (cols cs : list string) :
  (forall c, In c cs -> DQ.has_col cols c = true) ->
  DQ.issubset cs cols = true.
Proof. intros H. unfold DQ.issubset. now apply forallb_forall. Qed.

(** X6.  When the three frames have every label the checks look for,
    [dq_checks] returns, and the dict holds the fifteen anomaly sets, each
    once, in the order the checks run. *)
Theorem dq_checks_complete
  (booking : Frame DQ.BookingD) (passenger : Frame DQ.PassengerD)
  (flight : Frame Flight) :
  DQ.issubset dq_booking_labels (columns booking) = true ->
  DQ.issubset dq_passenger_labels (columns passenger) = true ->
  DQ.issubset dq_flight_labels (columns flight) = true ->
  exists out,
    DQ.dq_checks booking passenger flight = DQ.Ok out
    /\ map fst out = check_names
    /\ map fst (DQ.summary out) = check_names.
Proof.
  intros Hb Hp Hf.
  assert (HB : forall c, In c dq_booking_labels ->
                         DQ.has_col (columns booking) c = true)
    by (intros c; apply issubset_has_col; exact Hb).
  assert (HB' : forall c, In c dq_booking_labels ->
                          DQ.has_col (DQ.setitem (columns booking) "total_revenue") c
                          = true)
    by (intros c Hc; apply has_col_setitem_mono, HB, Hc).
  assert (HP : forall c, In c dq_passenger_labels ->
                         DQ.has_col (columns passenger) c = true)
    by (intros c; apply issubset_has_col; exact Hp).
  assert (HF : forall c, In c dq_flight_labels ->
                         DQ.has_col (columns flight) c = true)
    by (intros c; apply issubset_has_col; exact Hf).
  assert (Hincl : forall cs, forallb (fun c => existsb (String.eqb c) dq_booking_labels) cs = true ->
                             incl cs dq_booking_labels).
  { intros cs Hcs c Hc. rewrite forallb_forall in Hcs.
    apply Hcs in Hc. apply existsb_exists in Hc as [x [Hx Hxc]].
    apply String.eqb_eq in Hxc. now subst. }
  unfold DQ.dq_checks. cbv zeta.
  unfold DQ.getitems, DQ.groupby_labels, DQ.getitem.
  rewrite (all_present_no_missing (columns booking) DQ.REV_COLS)
    by (intros c Hc; apply HB; revert Hc; apply Hincl; reflexivity).
  rewrite (all_present_no_missing (columns flight))
    by (intros c Hc; apply HF; exact Hc).
  rewrite !(all_present_no_missing (DQ.setitem (columns booking) "total_revenue"))
    by (intros c Hc; apply HB'; revert Hc; apply Hincl; reflexivity).
  rewrite !HB'
    by (match goal with
        | |- In ?c _ => apply (Hincl [c]); [reflexivity|now left]
        end).
  rewrite !all_present_issubset
    by (intros c Hc; apply HB; revert Hc; apply Hincl; reflexivity).
  rewrite !HP by (unfold dq_passenger_labels; simpl; tauto).
  simpl DQ.bind. cbv iota. simpl andb. cbv iota.
  eexists. split; [reflexivity|]. split; reflexivity.
Qed.

Lemma dq_checks_complete_witness :
  (DQ.issubset dq_booking_labels (columns Sample.dq_booking) = true
   /\ DQ.issubset dq_passenger_labels (columns Sample.dq_passenger) = true
   /\ DQ.issubset dq_flight_labels (columns Sample.dq_flight) = true)
  /\ exists out,
      DQ.dq_checks Sample.dq_booking Sample.dq_passenger Sample.dq_flight
      = DQ.Ok out
      /\ map fst out = check_names
      /\ map fst (DQ.summary out) = check_names.
Proof.
  assert (H1 : DQ.issubset dq_booking_labels (columns Sample.dq_booking) = true)
    by reflexivity.
  assert (H2 : DQ.issubset dq_passenger_labels (columns Sample.dq_passenger)
               = true) by reflexivity.
  assert (H3 : DQ.issubset dq_flight_labels (columns Sample.dq_flight) = true)
    by reflexivity.
  split; [repeat split; assumption|].
  exact (dq_checks_complete Sample.dq_booking Sample.dq_passenger
           Sample.dq_flight H1 H2 H3).
Defined.

(** ** The anomaly sets hold rows of the input *)

Lemma dict_get_set_cases {V} (k k0 : string) (v v0 : V) (d : list (string * V)) :
  DQ.dict_get k (DQ.dict_set k0 v0 d) = Some v ->
  v = v0 \/ DQ.dict_get k d = Some v.
Proof.
  destruct (String.eqb_spec k k0) as [->|Hne].
  - rewrite dict_get_set_eq. intros H. injection H as <-. now left.
  - rewrite (dict_get_set_neq k k0 v0 d Hne). now right.
Qed.

Lemma dict_get_cons_cases {V} (k k0 : string) (v v0 : V) (d : list (string * V)) :
  DQ.dict_get k ((k0, v0) :: d) = Some v ->
  v = v0 \/ DQ.dict_get k d = Some v.
Proof.
  simpl. destruct (String.eqb k k0); [|now right].
  intros H. injection H as <-. now left.
Qed.

(** X7.  Whenever [dq_checks] returns, every anomaly set holds rows of its
    input only: a set of bookings is a sub-list of the booking rows, a set
    of passengers a sub-list of the passenger rows, a set of legs a
    sub-list of the leg table of check 6; no check reports a row that was
    not given to it. *)
Theorem dq_checks_report_input_rows
  (booking : Frame DQ.BookingD) (passenger : Frame DQ.PassengerD)
  (flight : Frame Flight) (out : list (string * DQ.Anomalies))
  (k : string) (v : DQ.Anomalies) :
  DQ.dq_checks booking passenger flight = DQ.Ok out ->
  DQ.dict_get k out = Some v ->
  match v with
  | DQ.BookingRows l => incl l (rows booking)
  | DQ.PassengerRows l => incl l (rows passenger)
  | DQ.LegRows l => incl l (DQ.leg_table (rows booking) (rows flight))
  end.
Proof.
  intros H Hk.
  unfold DQ.dq_checks in H. cbv zeta in H.
  repeat step_bind H.
  injection H as <-.
  repeat match type of Hk with
    | DQ.dict_get _ (DQ.dict_set _ _ _) = Some _ =>
        apply dict_get_set_cases in Hk as [->|Hk]; [apply incl_filter|]
    | DQ.dict_get _ (if ?c then _ else _) = Some _ => destruct c
    | DQ.dict_get _ (_ :: _) = Some _ =>
        apply dict_get_cons_cases in Hk as [->|Hk]; [apply incl_filter|]
    end;
    discriminate Hk.
Qed.

Lemma dq_checks_report_input_rows_witness :
  (DQ.dq_checks Sample.dq_booking Sample.dq_passenger Sample.dq_flight
   = DQ.Ok Sample.dq_out
   /\ DQ.dict_get "routing_inconsistent_with_od" Sample.dq_out
      = Some (DQ.BookingRows [DQ.derive_booking Sample.booking_no_routing]))
  /\ incl [DQ.derive_booking Sample.booking_no_routing] (rows Sample.dq_booking).
Proof.
  assert (H1 : DQ.dq_checks Sample.dq_booking Sample.dq_passenger Sample.dq_flight
               = DQ.Ok Sample.dq_out) by (vm_compute; reflexivity).
  assert (H2 : DQ.dict_get "routing_inconsistent_with_od" Sample.dq_out
               = Some (DQ.BookingRows [DQ.derive_booking Sample.booking_no_routing]))
    by (vm_compute; reflexivity).
  split; [now split|].
  exact (dq_checks_report_input_rows Sample.dq_booking Sample.dq_passenger
           Sample.dq_flight Sample.dq_out "routing_inconsistent_with_od"
           (DQ.BookingRows [DQ.derive_booking Sample.booking_no_routing]) H1 H2).
Defined.

(** ** The summary table *)

Lemma insert_by_count_perm (x : string * nat) (l : list (string * nat)) :
  Permutation (DQ.insert_by_count x l) (x :: l).
Proof.
  induction l as [|h t IH]; simpl; [reflexivity|].
  destruct (snd h <? snd x)%nat; [reflexivity|].
  rewrite IH. apply perm_swap.
Qed.

Lemma sort_by_count_desc_perm (l : list (string * nat)) :
  Permutation (DQ.sort_by_count_desc l) l.
Proof.
  unfold DQ.sort_by_count_desc.
  induction l as [|h t IH]; simpl; [reflexivity|].
  rewrite insert_by_count_perm. now constructor.
Qed.

Lemma insert_by_count_hdrel (a x : string * nat) (l : list (string * nat)) :
  count_ge a x -> HdRel count_ge a l -> HdRel count_ge a (DQ.insert_by_count x l).
Proof.
  intros Hax Hal. destruct l as [|h t]; simpl; [now constructor|].
  destruct (snd h <? snd x)%nat; constructor; [exact Hax|].
  now inversion Hal.
Qed.

Lemma insert_by_count_sorted (x : string * nat) (l : list (string * nat)) :
  Sorted count_ge l -> Sorted count_ge (DQ.insert_by_count x l).
Proof.
  induction 1 as [|h t Hs IH Hh]; simpl.
  - repeat constructor.
  - destruct (snd h <? snd x)%nat eqn:E.
    + constructor; [now constructor|].
      constructor. unfold count_ge. apply Nat.ltb_lt in E. lia.
    + constructor; [exact IH|].
      apply insert_by_count_hdrel; [|exact Hh].
      unfold count_ge. apply Nat.ltb_ge in E. exact E.
Qed.

Lemma sort_by_count_desc_sorted (l : list (string * nat)) :
  Sorted count_ge (DQ.sort_by_count_desc l).
Proof.
  unfold DQ.sort_by_count_desc.
  induction l as [|h t IH]; simpl; [constructor|].
  now apply insert_by_count_sorted.
Qed.

(** X8.  When the run of [main] completes, the rows of dq_summary.csv are
    the check names with the sizes of their anomaly sets, one row per set
    (a permutation of the dict's entries), and no row has a larger count
    than the row before it. *)
Theorem run_summary_sorted
  (booking : Frame Booking) (passenger : Frame Passenger)
  (flight : Frame Flight)
  (s : list (string * nat)) (a : list (string * DQ.Anomalies)) :
  DQ.run booking passenger flight = DQ.Ok (s, a) ->
  Sorted count_ge s
  /\ Permutation s (map (fun kv => (fst kv, DQ.len (snd kv))) a)
  /\ List.length s = List.length a.
Proof.
  unfold DQ.run. intros H.
  repeat step_bind H.
  injection H as <- <-.
  split; [apply sort_by_count_desc_sorted|].
  split; [apply sort_by_count_desc_perm|].
  rewrite (Permutation_length (sort_by_count_desc_perm _)).
  unfold DQ.summary. apply length_map.
Qed.

Lemma run_summary_sorted_witness :
  DQ.run
    (mkFrame Sample.booking_columns
       [Sample.booking_no_routing; Sample.booking_no_revenue])
    (mkFrame Sample.passenger_columns Sample.passengers)
    (mkFrame Sample.flight_columns Sample.flights_two_days)
  = DQ.Ok (Sample.run_summary, Sample.run_anomalies)
  /\ Sorted count_ge Sample.run_summary
  /\ Permutation Sample.run_summary
       (map (fun kv => (fst kv, DQ.len (snd kv))) Sample.run_anomalies)
  /\ List.length Sample.run_summary = List.length Sample.run_anomalies.
Proof.
  assert (H : DQ.run
                (mkFrame Sample.booking_columns
                   [Sample.booking_no_routing; Sample.booking_no_revenue])
                (mkFrame Sample.passenger_columns Sample.passengers)
                (mkFrame Sample.flight_columns Sample.flights_two_days)
              = DQ.Ok (Sample.run_summary, Sample.run_anomalies))
    by (vm_compute; reflexivity).
  split; [exact H|].
  exact (run_summary_sorted _ _ _ _ _ H).
Defined.

(** ** Equality tests of the keys of the data-quality script *)

Lemma pyval_eqb_eq (a b : pyval) : DQ.pyval_eqb a b = true <-> a = b.
Proof.
  destruct a, b; simpl; try (split; congruence).
  - rewrite String.eqb_eq. split; congruence.
  - rewrite Z.eqb_eq. split; congruence.
Qed.

Lemma dq_od_key_eqb_eq (a b : DQ.od_key) : DQ.od_key_eqb a b = true <-> a = b.
Proof. apply pair_eqb_eq; apply option_eqb_eq; apply String.eqb_eq. Qed.

Lemma dq_leg_key_eqb_eq (a b : DQ.leg_key) :
  DQ.leg_key_eqb a b = true <-> a = b.
Proof. apply pair_eqb_eq; [apply flight_key_eqb_eq|apply dq_od_key_eqb_eq]. Qed.

Lemma dup_key_eqb_eq (a b : DQ.dup_key) : DQ.dup_key_eqb a b = true <-> a = b.
Proof. apply pair_eqb_eq; [apply pyval_eqb_eq|apply dq_leg_key_eqb_eq]. Qed.

(** ** Duplicate legs within a booking id *)

Lemma filter_length_le {A} (p q : A -> bool) (l : list A) :
  (forall x, In x l -> p x = true -> q x = true) ->
  (List.length (filter p l) <= List.length (filter q l))%nat.
Proof.
  induction l as [|a t IH]; simpl; intros H; [lia|].
  assert (IH' : (List.length (filter p t) <= List.length (filter q t))%nat)
    by (apply IH; intros x Hx; apply H; now right).
  destruct (p a) eqn:Ep.
  - rewrite (H a (or_introl eq_refl) Ep). simpl. lia.
  - destruct (q a); simpl; lia.
Qed.

Lemma two_positions_count {A} (p : A -> bool) (l : list A) (i j : nat)
  (x y : A) :
  i <> j -> nth_error l i = Some x -> nth_error l j = Some y ->
  p x = true -> p y = true ->
  (2 <= List.length (filter p l))%nat.
Proof.
  assert (Hone : forall (t : list A) (k : nat) (z : A),
             nth_error t k = Some z -> p z = true ->
             (1 <= List.length (filter p t))%nat).
  { intros t k z Hz Hp.
    assert (Hin : In z (filter p t))
      by (apply filter_In; split; [exact (nth_error_In t k Hz)|exact Hp]).
    destruct (filter p t); [destruct Hin|simpl; lia]. }
  revert i j. induction l as [|a t IH]; intros i j Hij Hx Hy Hpx Hpy.
  - destruct i; discriminate Hx.
  - destruct i as [|i], j as [|j]; simpl in Hx, Hy.
    + contradiction.
    + injection Hx as ->. simpl. rewrite Hpx. simpl.
      pose proof (Hone t j y Hy Hpy). lia.
    + injection Hy as ->. simpl. rewrite Hpy. simpl.
      pose proof (Hone t i x Hx Hpx). lia.
    + assert (Hij' : i <> j) by congruence.
      specialize (IH i j Hij' Hx Hy Hpx Hpy). simpl.
      destruct (p a); simpl; lia.
Qed.

Lemma dup_mask_same_key (all : list DQ.BookingD) (b r : DQ.BookingD) :
  DQ.dup_key_of r = DQ.dup_key_of b -> DQ.dup_mask all r = DQ.dup_mask all b.
Proof. unfold DQ.dup_mask. now intros ->. Qed.

(** X9.  The set duplicate_legs_within_pnr never holds exactly one row: a
    booking is in it exactly when at least two rows of the table have its
    normalized id, flight number, flight date, origin and destination, and
    then all those rows are in it.  A table whose rows differ pairwise in
    that key has an empty set; two rows at different positions that agree
    in that key are both in the set. *)
Theorem duplicates_come_in_groups (all : list DQ.BookingD) :
  List.length (filter (DQ.dup_mask all) all) <> 1%nat
  /\ (forall b r,
         In b (filter (DQ.dup_mask all) all) -> In r all ->
         DQ.dup_key_of r = DQ.dup_key_of b ->
         In r (filter (DQ.dup_mask all) all))
  /\ (forall b,
         In b (filter (DQ.dup_mask all) all) ->
         (2 <= List.length
                 (filter (fun r => DQ.dup_key_eqb (DQ.dup_key_of b) (DQ.dup_key_of r))
                    (filter (DQ.dup_mask all) all)))%nat)
  /\ (NoDup (map DQ.dup_key_of all) -> filter (DQ.dup_mask all) all = [])
  /\ (forall (i j : nat) (x y : DQ.BookingD),
         i <> j -> nth_error all i = Some x -> nth_error all j = Some y ->
         DQ.dup_key_of x = DQ.dup_key_of y ->
         In x (filter (DQ.dup_mask all) all)
         /\ In y (filter (DQ.dup_mask all) all)).
Proof.
  assert (Hgroup : forall b,
             In b (filter (DQ.dup_mask all) all) ->
             (2 <= List.length
                     (filter (fun r => DQ.dup_key_eqb (DQ.dup_key_of b)
                                         (DQ.dup_key_of r))
                        (filter (DQ.dup_mask all) all)))%nat).
  { intros b Hb. apply filter_In in Hb as [Hin Hd].
    rewrite filter_filter.
    assert (Hd' := Hd). unfold DQ.dup_mask in Hd'. apply Nat.ltb_lt in Hd'.
    eapply Nat.le_trans; [exact Hd'|].
    apply filter_length_le. intros x Hx Hk.
    apply dup_key_eqb_eq in Hk.
    rewrite (dup_mask_same_key all b x (eq_sym Hk)), Hd. simpl.
    now apply dup_key_eqb_eq. }
  split; [|split; [|split; [|split]]].
  - intros Hlen.
    destruct (filter (DQ.dup_mask all) all) as [|b [|c t]] eqn:E;
      try discriminate Hlen.
    specialize (Hgroup b (or_introl eq_refl)). simpl in Hgroup.
    destruct (DQ.dup_key_eqb _ _); simpl in Hgroup; lia.
  - intros b r Hb Hr Hk. apply filter_In in Hb as [_ Hd].
    apply filter_In. split; [exact Hr|].
    now rewrite (dup_mask_same_key all b r Hk).
  - exact Hgroup.
  - intros Hnd.
    destruct (filter (DQ.dup_mask all) all) as [|b t] eqn:E; [reflexivity|].
    exfalso.
    assert (Hb : In b (filter (DQ.dup_mask all) all)) by (rewrite E; now left).
    apply filter_In in Hb as [Hin Hd].
    unfold DQ.dup_mask in Hd. apply Nat.ltb_lt in Hd.
    clear E Hgroup t.
    assert (Hc : forall l : list DQ.BookingD,
               NoDup (map DQ.dup_key_of l) ->
               (List.length
                  (filter (fun r => DQ.dup_key_eqb (DQ.dup_key_of b) (DQ.dup_key_of r))
                     l) <= 1)%nat).
    { induction l as [|x l IH]; simpl; intros Hn; [lia|].
      inversion Hn as [|? ? Hx Hl]; subst.
      specialize (IH Hl).
      destruct (DQ.dup_key_eqb (DQ.dup_key_of b) (DQ.dup_key_of x)) eqn:Ex;
        [|exact IH].
      simpl. apply dup_key_eqb_eq in Ex.
      destruct (filter _ l) as [|y t] eqn:F; [simpl; lia|].
      exfalso. apply Hx.
      assert (Hy : In y (filter (fun r => DQ.dup_key_eqb (DQ.dup_key_of b)
                                           (DQ.dup_key_of r)) l))
        by (rewrite F; now left).
      apply filter_In in Hy as [Hyl Hyk]. apply dup_key_eqb_eq in Hyk.
      apply in_map_iff. exists y. split; [congruence|exact Hyl]. }
    specialize (Hc all Hnd). lia.
  - intros i j x y Hij Hx Hy Hk.
    assert (Hc : (2 <= List.length
                         (filter (fun r => DQ.dup_key_eqb (DQ.dup_key_of x)
                                             (DQ.dup_key_of r)) all))%nat).
    { apply (two_positions_count _ all i j x y Hij Hx Hy).
      - now apply dup_key_eqb_eq.
      - now apply dup_key_eqb_eq. }
    assert (Hdx : DQ.dup_mask all x = true)
      by (unfold DQ.dup_mask; apply Nat.ltb_lt; lia).
    split; apply filter_In; split.
    + exact (nth_error_In all i Hx).
    + exact Hdx.
    + exact (nth_error_In all j Hy).
    + now rewrite (dup_mask_same_key all x y (eq_sym Hk)).
Qed.

Lemma duplicates_come_in_groups_witness :
  exists x y : DQ.BookingD,
    (0%nat <> 1%nat
     /\ nth_error Sample.bookings_with_duplicate 0 = Some x
     /\ nth_error Sample.bookings_with_duplicate 1 = Some y
     /\ DQ.dup_key_of x = DQ.dup_key_of y)
    /\ (In x (filter (DQ.dup_mask Sample.bookings_with_duplicate)
                Sample.bookings_with_duplicate)
        /\ In y (filter (DQ.dup_mask Sample.bookings_with_duplicate)
                   Sample.bookings_with_duplicate))
    /\ filter (DQ.dup_mask Sample.bookings_with_duplicate)
         Sample.bookings_with_duplicate
       = [x; y].
Proof.
  assert (H : exists x y : DQ.BookingD,
             nth_error Sample.bookings_with_duplicate 0 = Some x
             /\ nth_error Sample.bookings_with_duplicate 1 = Some y).
  { eexists. eexists. split; vm_compute; reflexivity. }
  destruct H as [x [y [Hx Hy]]]. exists x, y.
  assert (Hij : 0%nat <> 1%nat) by discriminate.
  assert (Hk : DQ.dup_key_of x = DQ.dup_key_of y).
  { vm_compute in Hx, Hy. injection Hx as <-. injection Hy as <-.
    vm_compute. reflexivity. }
  split; [repeat split; assumption|].
  split.
  - exact (proj2 (proj2 (proj2 (proj2
             (duplicates_come_in_groups Sample.bookings_with_duplicate))))
             0%nat 1%nat x y Hij Hx Hy Hk).
  - vm_compute in Hx, Hy. injection Hx as <-. injection Hy as <-.
    vm_compute. reflexivity.
Defined.

(** ** Distinct keys *)

Section KeyFacts.

Context {K : Type} (eqb leb : K -> K -> bool).
Hypothesis eqb_eq : forall a b : K, eqb a b = true <-> a = b.

Lemma NoDup_unique (l : list K) : NoDup (unique eqb l).
Proof.
  induction l as [|k t IH]; simpl; constructor.
  - intros H. apply filter_In in H as [_ H].
    rewrite (proj2 (eqb_eq k k) eq_refl) in H. discriminate.
  - now apply NoDup_filter.
Qed.

Lemma NoDup_insert_key (k : K) (l : list K) :
  ~ In k l -> NoDup l -> NoDup (insert_key leb k l).
Proof.
  induction l as [|h t IH]; simpl; intros Hk Hn.
  - constructor; [intros []|constructor].
  - destruct (leb k h); [now constructor|].
    inversion Hn as [|? ? Hh Ht]; subst.
    constructor.
    + intros Hin. apply (in_insert_key leb) in Hin as [->|Hin].
      * apply Hk. now left.
      * contradiction.
    + apply IH; [|exact Ht]. intros Hin. apply Hk. now right.
Qed.

Lemma NoDup_sort_keys (l : list K) : NoDup l -> NoDup (sort_keys leb l).
Proof.
  induction l as [|h t IH]; intros Hn; [constructor|].
  change (sort_keys leb (h :: t)) with (insert_key leb h (sort_keys leb t)).
  inversion Hn as [|? ? Hh Ht]; subst.
  apply NoDup_insert_key; [|now apply IH].
  intros Hin. apply Hh. now apply (in_sort_keys leb h t).
Qed.

Lemma NoDup_group_keys {R} (key : R -> option K) (rows : list R) :
  NoDup (map fst (groupby eqb leb key rows)).
Proof.
  unfold groupby. rewrite map_map. simpl. rewrite map_id.
  apply NoDup_sort_keys, NoDup_unique.
Qed.

Lemma two_in_unique (l : list K) :
  (1 < List.length (unique eqb l))%nat
  <-> exists a b, In a l /\ In b l /\ a <> b.
Proof.
  pose proof (NoDup_unique l) as Hn.
  split.
  - intros H. destruct (unique eqb l) as [|a [|b t]] eqn:E; simpl in H; try lia.
    exists a, b.
    assert (Ha : In a (unique eqb l)) by (rewrite E; now left).
    assert (Hb : In b (unique eqb l)) by (rewrite E; right; now left).
    apply (proj1 (in_unique eqb eqb_eq a l)) in Ha.
    apply (proj1 (in_unique eqb eqb_eq b l)) in Hb.
    split; [exact Ha|]. split; [exact Hb|].
    inversion Hn as [|? ? Hna _]; subst. intros ->. apply Hna. now left.
  - intros [a [b [Ha [Hb Hab]]]].
    apply (proj2 (in_unique eqb eqb_eq a l)) in Ha.
    apply (proj2 (in_unique eqb eqb_eq b l)) in Hb.
    destruct (unique eqb l) as [|x [|y t]]; simpl in *.
    + destruct Ha.
    + destruct Ha as [Ha|[]], Hb as [Hb|[]]. exfalso. apply Hab. congruence.
    + lia.
Qed.

End KeyFacts.

(** ** One booking, several channels *)

Lemma isin_In (ids : list pyval) (x : pyval) :
  DQ.isin ids x = true <-> In x ids.
Proof.
  unfold DQ.isin. rewrite existsb_exists. split.
  - intros [y [Hy E]]. apply pyval_eqb_eq in E. now subst.
  - intros H. exists x. split; [exact H|]. now apply pyval_eqb_eq.
Qed.

Lemma id_group_key_some (r : DQ.PassengerD) (x : pyval) :
  DQ.id_group_key r = Some x <-> DQ.p_bookingid_norm r = x /\ x <> NaN.
Proof.
  unfold DQ.id_group_key.
  destruct (DQ.p_bookingid_norm r) eqn:E; simpl; split;
    try (intros H; discriminate H);
    try (intros H; injection H as <-; split; [reflexivity|discriminate]);
    try (intros [<- H]; reflexivity).
  intros [<- H]. contradiction.
Qed.

Lemma in_multi_ids (col : DQ.PassengerD -> option string)
  (p : list DQ.PassengerD) (x : pyval) :
  In x (DQ.multi_ids col p)
  <-> x <> NaN
      /\ exists r1 r2,
          In r1 p /\ In r2 p
          /\ DQ.p_bookingid_norm r1 = x /\ DQ.p_bookingid_norm r2 = x
          /\ col r1 <> col r2.
Proof.
  unfold DQ.multi_ids. rewrite in_map_iff. split.
  - intros [g [<- Hg]]. apply filter_In in Hg as [Hg Hc].
    apply (in_groupby DQ.pyval_eqb DQ.pyval_leb pyval_eqb_eq) in Hg as [Hs Hk].
    apply andb_true_iff in Hc as [Hna Hc]. apply Nat.ltb_lt in Hc.
    assert (Hx : fst g <> NaN) by (intros E; rewrite E in Hna; discriminate).
    split; [exact Hx|].
    apply (two_in_unique (option_eqb String.eqb)
             (option_eqb_eq String.eqb String.eqb_eq)) in Hc
      as [a [b [Ha [Hb Hab]]]].
    apply in_map_iff in Ha as [r1 [<- H1]].
    apply in_map_iff in Hb as [r2 [<- H2]].
    rewrite Hs in H1, H2.
    apply filter_In in H1 as [H1 K1]. apply filter_In in H2 as [H2 K2].
    exists r1, r2. split; [exact H1|]. split; [exact H2|].
    unfold has_key in K1, K2.
    destruct (DQ.id_group_key r1) as [k1|] eqn:E1; [|discriminate].
    destruct (DQ.id_group_key r2) as [k2|] eqn:E2; [|discriminate].
    apply pyval_eqb_eq in K1, K2. subst k1 k2.
    apply id_group_key_some in E1 as [E1 _], E2 as [E2 _].
    auto.
  - intros [Hx [r1 [r2 [H1 [H2 [E1 [E2 Hc]]]]]]].
    assert (K1 : DQ.id_group_key r1 = Some x) by now apply id_group_key_some.
    assert (K2 : DQ.id_group_key r2 = Some x) by now apply id_group_key_some.
    exists (x, filter (has_key DQ.pyval_eqb DQ.id_group_key x) p).
    split; [reflexivity|].
    apply filter_In. split.
    + apply (in_groupby DQ.pyval_eqb DQ.pyval_leb pyval_eqb_eq). simpl.
      split; [reflexivity|]. now exists r1.
    + simpl. apply andb_true_iff. split.
      * destruct x; [contradiction|reflexivity|reflexivity].
      * apply Nat.ltb_lt.
        apply (two_in_unique (option_eqb String.eqb)
                 (option_eqb_eq String.eqb String.eqb_eq)).
        exists (col r1), (col r2).
        split; [|split; [|exact Hc]]; apply in_map, filter_In;
          (split; [assumption|]); unfold has_key;
          [rewrite K1|rewrite K2]; now apply pyval_eqb_eq.
Qed.

(** X10.  A passenger row is reported under same_booking_multiple_channels
    (and, with the device in place of the channel, under
    same_booking_multiple_devices) exactly when its normalized booking id
    is present and another passenger row of the same normalized id has a
    different value; a missing value counts as a value of its own. *)
Theorem multiple_values_reported
  (col : DQ.PassengerD -> option string) (p : list DQ.PassengerD)
  (r : DQ.PassengerD) :
  In r p ->
  (DQ.isin (DQ.multi_ids col p) (DQ.p_bookingid_norm r) = true
   <-> DQ.p_bookingid_norm r <> NaN
       /\ exists r', In r' p
                     /\ DQ.p_bookingid_norm r' = DQ.p_bookingid_norm r
                     /\ col r' <> col r).
Proof.
  intros Hr. rewrite isin_In, in_multi_ids. split.
  - intros [Hx [r1 [r2 [H1 [H2 [E1 [E2 Hc]]]]]]]. split; [exact Hx|].
    destruct (option_eqb String.eqb (col r1) (col r)) eqn:E.
    + apply (option_eqb_eq String.eqb String.eqb_eq) in E.
      exists r2. split; [exact H2|]. split; [exact E2|].
      intros E'. apply Hc. congruence.
    + exists r1. split; [exact H1|]. split; [exact E1|].
      intros E'. apply (option_eqb_eq String.eqb String.eqb_eq) in E'.
      congruence.
  - intros [Hx [r' [H' [E' Hc]]]]. split; [exact Hx|].
    exists r', r. auto.
Qed.

Lemma multiple_values_reported_witness :
  exists r : DQ.PassengerD,
    In r Sample.passengers_two_channels
    /\ DQ.isin
         (DQ.multi_ids (fun x => booking_channel (DQ.praw x))
            Sample.passengers_two_channels)
         (DQ.p_bookingid_norm r) = true
    /\ DQ.p_bookingid_norm r <> NaN
    /\ exists r', In r' Sample.passengers_two_channels
                  /\ DQ.p_bookingid_norm r' = DQ.p_bookingid_norm r
                  /\ booking_channel (DQ.praw r') <> booking_channel (DQ.praw r).
Proof.
  assert (H : exists r : DQ.PassengerD,
             In r Sample.passengers_two_channels
             /\ DQ.isin
                  (DQ.multi_ids (fun x => booking_channel (DQ.praw x))
                     Sample.passengers_two_channels)
                  (DQ.p_bookingid_norm r) = true).
  { eexists. split; [left; reflexivity|vm_compute; reflexivity]. }
  destruct H as [r [Hin Hf]]. exists r. split; [exact Hin|]. split; [exact Hf|].
  exact (proj1 (multiple_values_reported _ _ r Hin) Hf).
Defined.

(** ** A routing that agrees with origin and destination *)

Lemma upper_app (s t : string) : upper (s ++ t) = upper s ++ upper t.
Proof. induction s as [|c s IH]; simpl; [reflexivity|now rewrite IH]. Qed.

Lemma remove_spaces_app (s t : string) :
  remove_spaces (s ++ t) = remove_spaces s ++ remove_spaces t.
Proof.
  induction s as [|c s IH]; simpl; [reflexivity|].
  destruct (Ascii.eqb c " "); [exact IH|]. simpl. now rewrite IH.
Qed.

(** X11.  A booking whose routing text is its origin, a dash and its
    destination, up to letter case and blanks, is not reported under
    routing_inconsistent_with_od; in particular the forms "FRA-FCO" and
    "FRA - FCO" of origin FRA and destination FCO pass. *)
Theorem consistent_routing_not_flagged (b : DQ.BookingD) (o d r : string) :
  origin (DQ.raw b) = Some o ->
  destination (DQ.raw b) = Some d ->
  routing (DQ.raw b) = Some r ->
  (remove_spaces (upper r) = remove_spaces (upper (o ++ "-" ++ d)) ->
   DQ.inconsistent b = false)
  /\ (r = o ++ "-" ++ d \/ r = o ++ " - " ++ d -> DQ.inconsistent b = false).
Proof.
  intros Ho Hd Hr.
  assert (H : remove_spaces (upper r) = remove_spaces (upper (o ++ "-" ++ d)) ->
              DQ.inconsistent b = false).
  { intros E. unfold DQ.inconsistent, DQ.routing_upper, DQ.od1, DQ.od_with.
    rewrite Hr, Ho, Hd. simpl astype_str. rewrite E.
    rewrite !upper_app, !remove_spaces_app.
    change (remove_spaces (upper "-")) with DQ.SEP_DASH.
    now rewrite String.eqb_refl. }
  split; [exact H|].
  intros [->| ->]; apply H; [reflexivity|].
  rewrite !upper_app, !remove_spaces_app. reflexivity.
Qed.

Lemma consistent_routing_not_flagged_witness :
  (origin (DQ.raw (DQ.derive_booking Sample.booking_spaced_routing)) = Some "FRA"
   /\ destination (DQ.raw (DQ.derive_booking Sample.booking_spaced_routing))
      = Some "FCO"
   /\ routing (DQ.raw (DQ.derive_booking Sample.booking_spaced_routing))
      = Some "fra - fco"
   /\ remove_spaces (upper "fra - fco")
      = remove_spaces (upper ("FRA" ++ "-" ++ "FCO")))
  /\ DQ.inconsistent (DQ.derive_booking Sample.booking_spaced_routing) = false.
Proof.
  split; [repeat split|].
  apply (proj1 (consistent_routing_not_flagged
                  (DQ.derive_booking Sample.booking_spaced_routing)
                  "FRA" "FCO" "fra - fco" eq_refl eq_refl eq_refl)).
  reflexivity.
Defined.

(** ** Sums over groups *)

Lemma Qsum_map_ext {A} (f g : A -> Q) (l : list A) :
  (forall x, In x l -> f x == g x) -> Qsum (map f l) == Qsum (map g l).
Proof.
  induction l as [|a t IH]; simpl; intros H; [reflexivity|].
  rewrite (H a) by now left. rewrite IH; [reflexivity|].
  intros x Hx. apply H. now right.
Qed.

Lemma Qsum_map_plus {A} (f g : A -> Q) (l : list A) :
  Qsum (map (fun x => f x + g x) l) == Qsum (map f l) + Qsum (map g l).
Proof.
  induction l as [|a t IH]; simpl; [ring|]. rewrite IH. ring.
Qed.

Lemma Qsum_map_zero {A} (l : list A) : Qsum (map (fun _ => 0) l) == 0.
Proof. induction l as [|a t IH]; simpl; [reflexivity|]. rewrite IH. ring. Qed.

Lemma Qsum_map_le {A} (f g : A -> Q) (l : list A) :
  (forall x, In x l -> f x <= g x) -> Qsum (map f l) <= Qsum (map g l).
Proof.
  induction l as [|a t IH]; simpl; intros H; [apply Qle_refl|].
  apply Qplus_le_compat; [apply H; now left|].
  apply IH. intros x Hx. apply H. now right.
Qed.

Lemma Qsum_map_nonneg {A} (f : A -> Q) (l : list A) :
  (forall x, In x l -> 0 <= f x) -> 0 <= Qsum (map f l).
Proof.
  intros H. rewrite <- (Qsum_map_zero l). now apply Qsum_map_le.
Qed.

Lemma sum_skipna_fillna_eq {A} (f : A -> option Q) (l : list A) :
  sum_skipna (map f l) == Qsum (map (fun x => fillna0 (f x)) l).
Proof.
  unfold sum_skipna.
  induction l as [|a t IH]; simpl; [reflexivity|].
  destruct (f a); simpl; rewrite IH; ring.
Qed.

Section GroupSums.

Context {K R : Type} (eqb leb : K -> K -> bool).
Hypothesis eqb_eq : forall a b : K, eqb a b = true <-> a = b.
Variable key : R -> option K.
Variable f : R -> Q.

Lemma indicator_sum (ks : list K) (k0 : K) (c : Q) :
  NoDup ks ->
  Qsum (map (fun k => if eqb k k0 then c else 0) ks)
  == if existsb (fun k => eqb k k0) ks then c else 0.
Proof.
  induction ks as [|k t IH]; simpl; intros Hn; [reflexivity|].
  inversion Hn as [|? ? Hk Ht]; subst.
  rewrite (IH Ht).
  destruct (eqb k k0) eqn:E; simpl; [|ring].
  apply eqb_eq in E. subst k0.
  destruct (existsb (fun k1 => eqb k1 k) t) eqn:Ex; [|ring].
  apply existsb_exists in Ex as [x [Hx Hxk]]. apply eqb_eq in Hxk. subst x.
  contradiction.
Qed.

Lemma group_sums_total (rows : list R) (ks : list K) :
  NoDup ks ->
  (forall r k, In r rows -> key r = Some k -> In k ks) ->
  Qsum (map (fun k => Qsum (map f (filter (has_key eqb key k) rows))) ks)
  == Qsum (map f (filter (fun r => notna (key r)) rows)).
Proof.
  intros Hn. induction rows as [|r t IH]; intros Hk.
  - simpl. apply Qsum_map_zero.
  - assert (IH' := IH (fun r0 k H => Hk r0 k (or_intror H))).
    rewrite (Qsum_map_ext
               (fun k => Qsum (map f (filter (has_key eqb key k) (r :: t))))
               (fun k => (if has_key eqb key k r then f r else 0)
                         + Qsum (map f (filter (has_key eqb key k) t)))).
    + rewrite Qsum_map_plus, IH'. simpl.
      destruct (key r) as [k0|] eqn:E; simpl.
      * rewrite (Qsum_map_ext
                   (fun k => if has_key eqb key k r then f r else 0)
                   (fun k => if eqb k k0 then f r else 0)).
        -- rewrite (indicator_sum ks k0 (f r) Hn).
           assert (Hex : existsb (fun k => eqb k k0) ks = true).
           { apply existsb_exists. exists k0. split.
             - apply (Hk r k0); [now left|exact E].
             - now apply eqb_eq. }
           rewrite Hex. reflexivity.
        -- intros k _. unfold has_key. rewrite E. reflexivity.
      * rewrite (Qsum_map_ext
                   (fun k => if has_key eqb key k r then f r else 0)
                   (fun _ => 0)).
        -- rewrite Qsum_map_zero. ring.
        -- intros k _. unfold has_key. rewrite E. reflexivity.
    + intros k _. simpl. destruct (has_key eqb key k r); simpl; ring.
Qed.

Lemma groupby_sums_total (rows : list R) :
  Qsum (map (fun g => Qsum (map f (snd g))) (groupby eqb leb key rows))
  == Qsum (map f (filter (fun r => notna (key r)) rows)).
Proof.
  unfold groupby. rewrite map_map. simpl.
  apply group_sums_total.
  - apply NoDup_sort_keys. now apply NoDup_unique.
  - intros r k Hr Hk. apply (in_group_keys eqb leb eqb_eq). now exists r.
Qed.

End GroupSums.

Section MergeFacts.

Context {K : Type} (eqb : K -> K -> bool).
Hypothesis eqb_eq : forall a b : K, eqb a b = true <-> a = b.

Lemma at_most_one_match {R} (rkey : R -> K) (right : list R) (k : K) :
  NoDup (map rkey right) ->
  (List.length (filter (fun r => eqb k (rkey r)) right) <= 1)%nat.
Proof.
  induction right as [|x t IH]; simpl; intros Hn; [lia|].
  inversion Hn as [|? ? Hx Ht]; subst. specialize (IH Ht).
  destruct (eqb k (rkey x)) eqn:E; [|exact IH].
  simpl. apply eqb_eq in E.
  destruct (filter (fun r => eqb k (rkey r)) t) as [|y u] eqn:F; [simpl; lia|].
  exfalso. apply Hx.
  assert (Hy : In y (filter (fun r => eqb k (rkey r)) t)) by (rewrite F; now left).
  apply filter_In in Hy as [Hyt Hyk]. apply eqb_eq in Hyk.
  apply in_map_iff. exists y. split; [congruence|exact Hyt].
Qed.

(** A left merge against a table with distinct keys keeps the left rows,
    each once, in order. *)
Lemma merge_left_unique {L R} (lkey : L -> K) (rkey : R -> K)
  (left : list L) (right : list R) :
  NoDup (map rkey right) ->
  map fst (merge_left eqb lkey rkey left right) = left.
Proof.
  intros Hn. unfold merge_left.
  set (F := fun l : L =>
              match filter (fun r => eqb (lkey l) (rkey r)) right with
              | [] => [(l, @None R)]
              | ms => map (fun r => (l, Some r)) ms
              end).
  induction left as [|l t IH]; [reflexivity|].
  change (flat_map F (l :: t)) with (F l ++ flat_map F t)%list.
  rewrite map_app, IH. unfold F.
  pose proof (at_most_one_match rkey right (lkey l) Hn) as H1.
  destruct (filter (fun r => eqb (lkey l) (rkey r)) right) as [|x [|y u]];
    simpl in *; [reflexivity|reflexivity|lia].
Qed.

End MergeFacts.

(** ** The leg table keeps the totals of the bookings *)

Lemma kpi_od_key_eqb_eq (a b : KPI.od_key) : KPI.od_key_eqb a b = true <-> a = b.
Proof. apply pair_eqb_eq; apply String.eqb_eq. Qed.

Lemma kpi_leg_key_eqb_eq (a b : KPI.leg_key) :
  KPI.leg_key_eqb a b = true <-> a = b.
Proof. apply pair_eqb_eq; [apply flight_key_eqb_eq|apply kpi_od_key_eqb_eq]. Qed.

Lemma insights_leg_key_eqb_eq (a b : Insights.leg_key) :
  Insights.leg_key_eqb a b = true <-> a = b.
Proof.
  apply pair_eqb_eq; [apply flight_key_eqb_eq|apply insights_od_key_eqb_eq].
Qed.

Lemma filter_all {A} (p : A -> bool) (l : list A) :
  (forall x, In x l -> p x = true) -> filter p l = l.
Proof.
  induction l as [|a t IH]; simpl; intros H; [reflexivity|].
  rewrite (H a) by now left. f_equal. apply IH. intros x Hx. apply H. now right.
Qed.

Lemma kpi_leg_groups_totals (b : list Booking) :
  Qsum (map KPI.a_pax (KPI.leg_groups b)) == sum_skipna (map passengercount b)
  /\ Qsum (map KPI.a_revenue (KPI.leg_groups b))
     == Qsum (map KPI.total_revenue b).
Proof.
  unfold KPI.leg_groups. rewrite !map_map. simpl. split.
  - rewrite (Qsum_map_ext _
               (fun g : KPI.leg_key * list Booking =>
                  Qsum (map (fun x => fillna0 (passengercount x)) (snd g))))
      by (intros g _; apply sum_skipna_fillna_eq).
    rewrite (groupby_sums_total KPI.leg_key_eqb KPI.leg_key_leb
               kpi_leg_key_eqb_eq).
    rewrite filter_all by reflexivity.
    symmetry. apply sum_skipna_fillna_eq.
  - rewrite (groupby_sums_total KPI.leg_key_eqb KPI.leg_key_leb
               kpi_leg_key_eqb_eq (fun r => Some (KPI.leg_key_of r))
               KPI.total_revenue b).
    now rewrite filter_all by reflexivity.
Qed.

Lemma insights_leg_groups_totals (b : list Booking) :
  Qsum (map Insights.a_pax (Insights.leg_groups b))
  == sum_skipna (map passengercount b)
  /\ Qsum (map Insights.a_revenue (Insights.leg_groups b))
     == Qsum (map Insights.total_revenue b).
Proof.
  unfold Insights.leg_groups. rewrite !map_map. simpl. split.
  - rewrite (Qsum_map_ext _
               (fun g : Insights.leg_key * list Booking =>
                  Qsum (map (fun x => fillna0 (passengercount x)) (snd g))))
      by (intros g _; apply sum_skipna_fillna_eq).
    rewrite (groupby_sums_total Insights.leg_key_eqb Insights.leg_key_leb
               insights_leg_key_eqb_eq).
    rewrite filter_all by reflexivity.
    symmetry. apply sum_skipna_fillna_eq.
  - rewrite (groupby_sums_total Insights.leg_key_eqb Insights.leg_key_leb
               insights_leg_key_eqb_eq (fun r => Some (Insights.leg_key_of r))
               Insights.total_revenue b).
    now rewrite filter_all by reflexivity.
Qed.

(** X12.  Grouping the bookings into legs loses and invents nothing: in both
    scripts the pax of the leg groups add up to the passenger counts of all
    bookings (missing counts as 0) and their revenues to the total revenue
    of all bookings, bookings without flight number or date included; and
    no two groups have the same flight number, date, origin and
    destination. *)
Theorem leg_groups_conserve_totals (b : list Booking) :
  (Qsum (map KPI.a_pax (KPI.leg_groups b)) == sum_skipna (map passengercount b)
   /\ Qsum (map KPI.a_revenue (KPI.leg_groups b))
      == Qsum (map KPI.total_revenue b)
   /\ NoDup (map KPI.a_key (KPI.leg_groups b)))
  /\ (Qsum (map Insights.a_pax (Insights.leg_groups b))
      == sum_skipna (map passengercount b)
      /\ Qsum (map Insights.a_revenue (Insights.leg_groups b))
         == Qsum (map Insights.total_revenue b)
      /\ NoDup (map Insights.a_key (Insights.leg_groups b))).
Proof.
  split.
  - destruct (kpi_leg_groups_totals b) as [H1 H2].
    split; [exact H1|]. split; [exact H2|].
    unfold KPI.leg_groups. rewrite map_map. simpl.
    apply (NoDup_group_keys KPI.leg_key_eqb KPI.leg_key_leb kpi_leg_key_eqb_eq).
  - destruct (insights_leg_groups_totals b) as [H1 H2].
    split; [exact H1|]. split; [exact H2|].
    unfold Insights.leg_groups. rewrite map_map. simpl.
    apply (NoDup_group_keys Insights.leg_key_eqb Insights.leg_key_leb
             insights_leg_key_eqb_eq).
Qed.

(** X13.  When no two rows of the Flight sheet have the same flight number
    and date, the leg table of both scripts has exactly one row per leg
    group, and its pax and revenue columns add up to the totals of the
    bookings. *)
Theorem leg_table_one_row_per_leg (b : list Booking) (f : list Flight) :
  NoDup (map (fun r => (f_flightnumber r, flightdate r)) f) ->
  (List.length (KPI.leg_table b f) = List.length (KPI.leg_groups b)
   /\ map KPI.pax (KPI.leg_table b f) = map KPI.a_pax (KPI.leg_groups b)
   /\ Qsum (map KPI.pax (KPI.leg_table b f))
      == sum_skipna (map passengercount b)
   /\ Qsum (map KPI.revenue (KPI.leg_table b f))
      == Qsum (map KPI.total_revenue b))
  /\ (List.length (Insights.leg_table b f)
      = List.length (Insights.leg_groups b)
      /\ Qsum (map Insights.pax (Insights.leg_table b f))
         == sum_skipna (map passengercount b)
      /\ Qsum (map Insights.revenue (Insights.leg_table b f))
         == Qsum (map Insights.total_revenue b)).
Proof.
  intros Hn. split.
  - pose proof (merge_left_unique flight_key_eqb flight_key_eqb_eq
                  (fun a : KPI.LegAgg => fst (KPI.a_key a))
                  (fun r : Flight => (f_flightnumber r, flightdate r))
                  (KPI.leg_groups b) f Hn) as Hm.
    assert (Hp : map KPI.pax (KPI.leg_table b f)
                 = map KPI.a_pax (KPI.leg_groups b)).
    { unfold KPI.leg_table. rewrite map_map. simpl.
      rewrite <- Hm at 2. now rewrite map_map. }
    assert (Hr : map KPI.revenue (KPI.leg_table b f)
                 = map KPI.a_revenue (KPI.leg_groups b)).
    { unfold KPI.leg_table. rewrite map_map. simpl.
      rewrite <- Hm at 2. now rewrite map_map. }
    destruct (kpi_leg_groups_totals b) as [H1 H2].
    split; [|split; [exact Hp|split]].
    + rewrite <- (length_map KPI.pax), Hp. apply length_map.
    + now rewrite Hp.
    + now rewrite Hr.
  - pose proof (merge_left_unique flight_key_eqb flight_key_eqb_eq
                  (fun a : Insights.LegAgg => fst (Insights.a_key a))
                  (fun r : Flight => (f_flightnumber r, flightdate r))
                  (Insights.leg_groups b) f Hn) as Hm.
    assert (Hp : map Insights.pax (Insights.leg_table b f)
                 = map Insights.a_pax (Insights.leg_groups b)).
    { unfold Insights.leg_table. rewrite map_map. simpl.
      rewrite <- Hm at 2. now rewrite map_map. }
    assert (Hr : map Insights.revenue (Insights.leg_table b f)
                 = map Insights.a_revenue (Insights.leg_groups b)).
    { unfold Insights.leg_table. rewrite map_map. simpl.
      rewrite <- Hm at 2. now rewrite map_map. }
    destruct (insights_leg_groups_totals b) as [H1 H2].
    split; [|split].
    + rewrite <- (length_map Insights.pax), Hp. apply length_map.
    + now rewrite Hp.
    + now rewrite Hr.
Qed.

Lemma leg_table_one_row_per_leg_witness :
  NoDup (map (fun r => (f_flightnumber r, flightdate r)) Sample.flights_feeder)
  /\ List.length (KPI.leg_table Sample.bookings_feeder Sample.flights_feeder)
     = List.length (KPI.leg_groups Sample.bookings_feeder)
  /\ Qsum (map KPI.pax (KPI.leg_table Sample.bookings_feeder Sample.flights_feeder))
     == sum_skipna (map passengercount Sample.bookings_feeder).
Proof.
  assert (H : NoDup (map (fun r => (f_flightnumber r, flightdate r))
                       Sample.flights_feeder)).
  { simpl. repeat (constructor; [simpl; intros Hin;
                                 repeat (destruct Hin as [Hin|Hin];
                                         [discriminate Hin|]); exact Hin|]).
    constructor. }
  split; [exact H|].
  destruct (proj1 (leg_table_one_row_per_leg Sample.bookings_feeder
                     Sample.flights_feeder H)) as [H1 [_ [H2 _]]].
  split; [exact H1|exact H2].
Defined.

(** ** Cancellations by weekday: counts and rates *)

Lemma nat_ratio_bounds (c n : nat) :
  (c <= n)%nat -> (0 < n)%nat ->
  0 <= inject_Z (Z.of_nat c) / inject_Z (Z.of_nat n)
  /\ inject_Z (Z.of_nat c) / inject_Z (Z.of_nat n) <= 1.
Proof.
  intros Hc Hn.
  assert (Hpos : 0 < inject_Z (Z.of_nat n)).
  { change 0 with (inject_Z 0). rewrite <- Zlt_Qlt. lia. }
  split.
  - apply Qle_shift_div_l; [exact Hpos|]. rewrite Qmult_0_l.
    change 0 with (inject_Z 0). rewrite <- Zle_Qle. lia.
  - apply Qle_shift_div_r; [exact Hpos|]. rewrite Qmult_1_l.
    rewrite <- Zle_Qle. lia.
Qed.

Lemma cxl_rate_row_facts (b : list Booking) (r : Insights.CxlRate) :
  In r (Insights.cxl_rate_by_dow b) ->
  Insights.bookings r = bookings_on (Insights.c_flight_dow r) b
  /\ Insights.cancel_count r
     = Some (bookings_on (Insights.c_flight_dow r)
               (filter Insights.is_cancelled b))
  /\ (bookings_on (Insights.c_flight_dow r) (filter Insights.is_cancelled b)
      <= Insights.bookings r)%nat
  /\ (Insights.cancel_rate r = None <-> Insights.bookings r = 0%nat)
  /\ (forall q, Insights.cancel_rate r = Some q -> 0 <= q /\ q <= 1).
Proof.
  rewrite cxl_rate_by_dow_rows. intros H.
  apply in_map_iff in H as [d [<- _]]. simpl.
  fold (bookings_on d b). fold (bookings_on d (filter Insights.is_cancelled b)).
  assert (Hle : (bookings_on d (filter Insights.is_cancelled b)
                 <= bookings_on d b)%nat).
  { unfold bookings_on. rewrite filter_filter.
    apply filter_length_le. intros x _ Hx.
    now apply andb_true_iff in Hx as [_ Hx]. }
  split; [reflexivity|]. split; [reflexivity|]. split; [exact Hle|].
  unfold Insights.nat_cell, where_else_nan, odiv.
  destruct (Nat.ltb_spec 0 (bookings_on d b)) as [Hpos|Hz].
  - split; [split; [discriminate|lia]|].
    intros q Hq. injection Hq as <-.
    apply nat_ratio_bounds; [exact Hle|exact Hpos].
  - split; [split; [lia|reflexivity]|]. intros q Hq. discriminate Hq.
Qed.

(** X14.  In the table of cancellations by weekday, the row of a weekday
    holds the number of bookings that fly on it and the number of those
    that are cancelled, which is never larger; the cancellation rate is
    missing exactly when the weekday has no booking, and otherwise lies
    between 0 and 1. *)
Theorem cancel_rate_bounds (b : list Booking) (r : Insights.CxlRate) :
  In r (Insights.cxl_rate_by_dow b) ->
  Insights.bookings r = bookings_on (Insights.c_flight_dow r) b
  /\ Insights.cancel_count r
     = Some (bookings_on (Insights.c_flight_dow r)
               (filter Insights.is_cancelled b))
  /\ (bookings_on (Insights.c_flight_dow r) (filter Insights.is_cancelled b)
      <= Insights.bookings r)%nat
  /\ (Insights.cancel_rate r = None <-> Insights.bookings r = 0%nat)
  /\ (forall q, Insights.cancel_rate r = Some q -> 0 <= q /\ q <= 1).
Proof. apply cxl_rate_row_facts. Qed.

Lemma cancel_rate_bounds_witness :
  exists r : Insights.CxlRate,
    In r (Insights.cxl_rate_by_dow Sample.bookings_one_cancelled)
    /\ Insights.c_flight_dow r = Monday
    /\ Insights.bookings r = 2%nat
    /\ Insights.cancel_count r = Some 1%nat
    /\ (forall q, Insights.cancel_rate r = Some q -> 0 <= q /\ q <= 1).
Proof.
  assert (H : exists r : Insights.CxlRate,
             In r (Insights.cxl_rate_by_dow Sample.bookings_one_cancelled)
             /\ Insights.c_flight_dow r = Monday
             /\ Insights.bookings r = 2%nat
             /\ Insights.cancel_count r = Some 1%nat).
  { eexists. vm_compute. split; [left; reflexivity|]. repeat split. }
  destruct H as [r [Hin [H1 [H2 H3]]]]. exists r.
  split; [exact Hin|]. split; [exact H1|]. split; [exact H2|]. split; [exact H3|].
  exact (proj2 (proj2 (proj2 (proj2 (cancel_rate_bounds _ r Hin))))).
Defined.

(** X15.  The insight "no cancellations recorded on" lists a weekday exactly
    when no cancelled booking flies on it, a weekday without any booking
    included, and lists the weekdays Monday first. *)
Theorem zero_cancel_days_listed (b : list Booking) :
  Insights.zero_cancel_days b
  = filter (fun d => (bookings_on d (filter Insights.is_cancelled b) =? 0)%nat)
      DOW_ORDER
  /\ forall d : weekday,
      In d (Insights.zero_cancel_days b)
      <-> forall x, In x b -> Insights.is_cancelled x = true ->
                    Insights.flight_dow x <> Some d.
Proof.
  assert (E : Insights.zero_cancel_days b
              = filter (fun d => (bookings_on d (filter Insights.is_cancelled b)
                                  =? 0)%nat) DOW_ORDER).
  { unfold Insights.zero_cancel_days. rewrite cxl_rate_by_dow_rows.
    unfold DOW_ORDER, bookings_on. simpl.
    repeat match goal with
      | |- context [(?n =? 0)%nat] =>
          lazymatch n with
          | List.length _ => destruct (n =? 0)%nat
          end
      end; reflexivity. }
  split; [exact E|].
  intros d. rewrite E, filter_In. split.
  - intros [_ H] x Hx Hc Hd. apply Nat.eqb_eq in H.
    unfold bookings_on in H. apply length_zero_iff_nil in H.
    assert (Hin : In x (filter (has_key weekday_eqb Insights.flight_dow d)
                          (filter Insights.is_cancelled b))).
    { apply filter_In. split; [apply filter_In; now split|].
      unfold has_key. rewrite Hd. now apply weekday_eqb_eq. }
    rewrite H in Hin. destruct Hin.
  - intros H. split; [destruct d; simpl; tauto|].
    apply Nat.eqb_eq. unfold bookings_on.
    rewrite (no_row_no_group weekday_eqb Insights.flight_dow d _ weekday_eqb_eq);
      [reflexivity|].
    intros x Hx. apply filter_In in Hx as [Hx Hc]. now apply H.
Qed.

Lemma zero_cancel_days_listed_witness :
  (forall x, In x Sample.bookings_one_cancelled ->
             Insights.is_cancelled x = true ->
             Insights.flight_dow x <> Some Friday)
  /\ In Friday (Insights.zero_cancel_days Sample.bookings_one_cancelled).
Proof.
  assert (H : forall x, In x Sample.bookings_one_cancelled ->
                        Insights.is_cancelled x = true ->
                        Insights.flight_dow x <> Some Friday).
  { intros x Hx Hc. simpl in Hx.
    repeat (destruct Hx as [<-|Hx];
            [first [discriminate Hc | vm_compute; discriminate]|]).
    destruct Hx. }
  split; [exact H|].
  exact (proj2 (proj2 (zero_cancel_days_listed Sample.bookings_one_cancelled)
                  Friday) H).
Defined.

(** ** ARAS by route *)

Lemma fillna0_nonneg (x : option Q) : cell_nonneg x -> 0 <= fillna0 x.
Proof. destruct x; simpl; [auto|intros _; apply Qle_refl]. Qed.

Lemma ancillary_le_total (x : Booking) :
  cell_nonneg (rev_ticket x) ->
  cell_nonneg (rev_ancillary_pre_check_in x) ->
  cell_nonneg (rev_ancillary_at_check_in x) ->
  0 <= KPI.ancillary_total x /\ KPI.ancillary_total x <= KPI.total_revenue x.
Proof.
  intros Ht Hp Ha.
  apply fillna0_nonneg in Ht, Hp, Ha.
  unfold KPI.ancillary_total, KPI.total_revenue.
  rewrite row_sum_skipna_fillna. split.
  - rewrite <- (Qplus_0_l 0). now apply Qplus_le_compat.
  - rewrite <- (Qplus_0_l (fillna0 (rev_ancillary_pre_check_in x)
                           + fillna0 (rev_ancillary_at_check_in x))) at 1.
    rewrite <- Qplus_assoc. apply Qplus_le_compat; [exact Ht|apply Qle_refl].
Qed.

(** X16.  When no revenue component of any booking is negative, the ARAS of
    every route is the ancillary revenue of the route over its total
    revenue and lies between 0 and 1; it is missing exactly when the total
    revenue of the route is not positive. *)
Theorem aras_bounds (b : list Booking) (s : KPI.Seg) :
  (forall x, In x b ->
             cell_nonneg (rev_ticket x)
             /\ cell_nonneg (rev_ancillary_pre_check_in x)
             /\ cell_nonneg (rev_ancillary_at_check_in x)) ->
  In s (KPI.seg b) ->
  (KPI.aras s = None <-> KPI.sg_revenue s <= 0)
  /\ (forall a, KPI.aras s = Some a ->
                a = KPI.sg_ancillary s / KPI.sg_revenue s
                /\ 0 <= a /\ a <= 1).
Proof.
  intros Hb Hs. unfold KPI.seg in Hs.
  apply in_map_iff in Hs as [g [<- Hg]].
  apply (in_groupby KPI.od_key_eqb KPI.od_key_leb kpi_od_key_eqb_eq) in Hg
    as [Hsnd _].
  assert (Hin : forall x, In x (snd g) -> In x b).
  { intros x Hx. rewrite Hsnd in Hx. now apply filter_In in Hx as [Hx _]. }
  simpl. unfold where_else_nan.
  set (rev := Qsum (map KPI.total_revenue (snd g))).
  set (anc := Qsum (map KPI.ancillary_total (snd g))).
  assert (Ha0 : 0 <= anc).
  { apply Qsum_map_nonneg. intros x Hx.
    destruct (Hb x (Hin x Hx)) as [H1 [H2 H3]].
    now apply ancillary_le_total. }
  assert (Har : anc <= rev).
  { apply Qsum_map_le. intros x Hx.
    destruct (Hb x (Hin x Hx)) as [H1 [H2 H3]].
    now apply ancillary_le_total. }
  destruct (Qltb 0 rev) eqn:E.
  - apply Qltb_true_iff in E. split.
    + split; [discriminate|]. intros Hle. exfalso.
      exact (Qlt_not_le _ _ E Hle).
    + intros a Ha. injection Ha as <-. split; [reflexivity|]. split.
      * apply Qle_shift_div_l; [exact E|]. now rewrite Qmult_0_l.
      * apply Qle_shift_div_r; [exact E|]. now rewrite Qmult_1_l.
  - apply Qltb_false_iff in E. split; [now split|].
    intros a Ha. discriminate Ha.
Qed.

Lemma aras_bounds_witness :
  exists s : KPI.Seg,
    ((forall x, In x Sample.bookings_one_cancelled ->
                cell_nonneg (rev_ticket x)
                /\ cell_nonneg (rev_ancillary_pre_check_in x)
                /\ cell_nonneg (rev_ancillary_at_check_in x))
     /\ In s (KPI.seg Sample.bookings_one_cancelled))
    /\ (KPI.aras s = None <-> KPI.sg_revenue s <= 0)
    /\ (forall a, KPI.aras s = Some a ->
                  a = KPI.sg_ancillary s / KPI.sg_revenue s
                  /\ 0 <= a /\ a <= 1).
Proof.
  assert (H1 : forall x, In x Sample.bookings_one_cancelled ->
                         cell_nonneg (rev_ticket x)
                         /\ cell_nonneg (rev_ancillary_pre_check_in x)
                         /\ cell_nonneg (rev_ancillary_at_check_in x)).
  { intros x Hx. simpl in Hx.
    repeat (destruct Hx as [<-|Hx];
            [vm_compute; repeat split; try discriminate; exact I|]).
    destruct Hx. }
  assert (H2 : exists s : KPI.Seg, In s (KPI.seg Sample.bookings_one_cancelled)).
  { eexists. vm_compute. left. reflexivity. }
  destruct H2 as [s H2]. exists s. split; [now split|].
  exact (aras_bounds Sample.bookings_one_cancelled s H1 H2).
Defined.

(** ** Directional imbalance *)

Lemma in_lf_seg (leg : list Insights.Leg) (r : Insights.od_key * option Q) :
  In r (Insights.lf_seg leg)
  <-> snd r = segment_lf leg (fst r)
      /\ exists l, In l leg /\ Insights.leg_od l = Some (fst r).
Proof.
  unfold Insights.lf_seg. rewrite in_map_iff. split.
  - intros [g [<- Hg]]. simpl.
    apply (in_groupby Insights.od_key_eqb Insights.od_key_leb
             insights_od_key_eqb_eq) in Hg as [Hs Hk].
    split; [|exact Hk]. unfold segment_lf. now rewrite Hs.
  - intros [Hs Hk].
    exists (fst r, filter (has_key Insights.od_key_eqb Insights.leg_od (fst r)) leg).
    split.
    + destruct r as [k v]; simpl in *. now subst.
    + apply (in_groupby Insights.od_key_eqb Insights.od_key_leb
               insights_od_key_eqb_eq). simpl. split; [reflexivity|exact Hk].
Qed.

Lemma segment_lf_no_leg (leg : list Insights.Leg) (k : Insights.od_key) :
  (forall l, In l leg -> Insights.leg_od l <> Some k) -> segment_lf leg k = None.
Proof.
  intros H. unfold segment_lf.
  now rewrite (no_row_no_group Insights.od_key_eqb Insights.leg_od k leg
                 insights_od_key_eqb_eq H).
Qed.

Lemma in_imb (leg : list Insights.Leg) (r : Insights.Imb) :
  In r (Insights.imb leg) ->
  (exists l, In l leg /\ Insights.l_origin l = Insights.i_origin r
             /\ Insights.l_destination l = Insights.i_destination r)
  /\ Insights.i_load_factor r
     = segment_lf leg (Insights.i_origin r, Insights.i_destination r)
  /\ Insights.load_factor_rev r
     = segment_lf leg (Insights.i_destination r, Insights.i_origin r)
  /\ Insights.lf_diff_vs_reverse r
     = osub (segment_lf leg (Insights.i_origin r, Insights.i_destination r))
         (segment_lf leg (Insights.i_destination r, Insights.i_origin r)).
Proof.
  unfold Insights.imb. intros H.
  apply in_map_iff in H as [[[k v] m] [<- Hm]].
  apply (in_merge_left Insights.od_key_eqb insights_od_key_eqb_eq) in Hm
    as [Hl Hm].
  apply in_lf_seg in Hl as [Hv [l [Hl Hk]]]. simpl in Hv, Hk.
  destruct k as [o d]. unfold Insights.imb_row. simpl.
  assert (Hrev : match m with Some x => snd x | None => None end
                 = segment_lf leg (d, o)).
  { destruct m as [[[o' d'] v']|].
    - destruct Hm as [Hx Hk']. simpl in Hk'. unfold Insights.rev_key in Hk'.
      simpl in Hk'. injection Hk' as -> ->.
      apply in_lf_seg in Hx as [Hv' _]. exact Hv'.
    - simpl in Hm. symmetry. apply segment_lf_no_leg.
      intros l' Hl' Hk'.
      assert (Hin : In ((d, o), segment_lf leg (d, o)) (Insights.lf_seg leg)).
      { apply in_lf_seg. simpl. split; [reflexivity|]. now exists l'. }
      assert (Hf : In ((d, o), segment_lf leg (d, o))
                     (filter (fun x => Insights.od_key_eqb (o, d)
                                         (Insights.rev_key x))
                        (Insights.lf_seg leg))).
      { apply filter_In. split; [exact Hin|].
        now apply insights_od_key_eqb_eq. }
      rewrite Hm in Hf. destruct Hf. }
  rewrite Hrev, Hv.
  split; [|repeat split].
  exists l. unfold Insights.leg_od in Hk. injection Hk as Ho Hd. now split.
Qed.

(** X17.  In the directional-imbalance table the row of a segment holds the
    mean load factor of the segment, the mean load factor of the reverse
    segment and their difference; the difference is missing when no leg
    flies the reverse segment; and the rows of a segment and of its reverse
    carry opposite differences. *)
Theorem imbalance_antisymmetric (leg : list Insights.Leg) :
  (forall r, In r (Insights.imb leg) ->
             Insights.i_load_factor r
             = segment_lf leg (Insights.i_origin r, Insights.i_destination r)
             /\ Insights.load_factor_rev r
                = segment_lf leg (Insights.i_destination r, Insights.i_origin r)
             /\ Insights.lf_diff_vs_reverse r
                = osub (Insights.i_load_factor r) (Insights.load_factor_rev r)
             /\ ((forall l, In l leg ->
                            Insights.leg_od l
                            <> Some (Insights.i_destination r,
                                     Insights.i_origin r)) ->
                 Insights.lf_diff_vs_reverse r = None))
  /\ (forall r1 r2,
         In r1 (Insights.imb leg) -> In r2 (Insights.imb leg) ->
         Insights.i_origin r2 = Insights.i_destination r1 ->
         Insights.i_destination r2 = Insights.i_origin r1 ->
         cell_eq (Insights.lf_diff_vs_reverse r2)
           (oneg (Insights.lf_diff_vs_reverse r1))).
Proof.
  split.
  - intros r Hr. destruct (in_imb leg r Hr) as [_ [H1 [H2 H3]]].
    split; [exact H1|]. split; [exact H2|]. split; [now rewrite H1, H2|].
    intros Hno. rewrite H3, (segment_lf_no_leg leg _ Hno).
    now destruct (segment_lf leg _).
  - intros r1 r2 Hr1 Hr2 Ho Hd.
    destruct (in_imb leg r1 Hr1) as [_ [_ [_ H1]]].
    destruct (in_imb leg r2 Hr2) as [_ [_ [_ H2]]].
    rewrite H1, H2, Ho, Hd.
    destruct (segment_lf leg (Insights.i_destination r1, Insights.i_origin r1)),
      (segment_lf leg (Insights.i_origin r1, Insights.i_destination r1));
      simpl; try exact I. ring.
Qed.

Lemma imbalance_antisymmetric_witness :
  exists r1 r2 : Insights.Imb,
    (In r1 (Insights.imb Sample.legs_both_ways)
     /\ In r2 (Insights.imb Sample.legs_both_ways)
     /\ Insights.i_origin r2 = Insights.i_destination r1
     /\ Insights.i_destination r2 = Insights.i_origin r1)
    /\ cell_eq (Insights.lf_diff_vs_reverse r2)
         (oneg (Insights.lf_diff_vs_reverse r1)).
Proof.
  assert (H : exists r1 r2 : Insights.Imb,
             In r1 (Insights.imb Sample.legs_both_ways)
             /\ In r2 (Insights.imb Sample.legs_both_ways)
             /\ Insights.i_origin r2 = Insights.i_destination r1
             /\ Insights.i_destination r2 = Insights.i_origin r1).
  { eexists. eexists. vm_compute.
    split; [left; reflexivity|]. split; [right; left; reflexivity|].
    split; reflexivity. }
  destruct H as [r1 [r2 [H1 [H2 [Ho Hd]]]]]. exists r1, r2.
  split; [repeat split; assumption|].
  exact (proj2 (imbalance_antisymmetric Sample.legs_both_ways) r1 r2 H1 H2 Ho Hd).
Defined.

(** ** The weekday with the highest cancellation rate *)

Lemma idxmax_spec (l : list Q) :
  l <> [] ->
  (Insights.idxmax l < List.length l)%nat
  /\ (forall x, In x l -> x <= nth (Insights.idxmax l) l 0)
  /\ (forall j, (j < Insights.idxmax l)%nat ->
                nth j l 0 < nth (Insights.idxmax l) l 0).
Proof.
  induction l as [|x t IH]; intros Hne; [contradiction|].
  destruct t as [|y u].
  - simpl. split; [lia|]. split.
    + intros z [<-|[]]. apply Qle_refl.
    + intros j Hj. lia.
  - assert (Hne' : y :: u <> []) by discriminate.
    destruct (IH Hne') as [Hlt [Hmax Hfirst]].
    set (t := y :: u) in *.
    change (Insights.idxmax (x :: t))
      with (if Qle_bool (nth (Insights.idxmax t) t 0) x then 0%nat
            else S (Insights.idxmax t)).
    clearbody t. clear Hne Hne' IH.
    destruct (Qle_bool (nth (Insights.idxmax t) t 0) x) eqn:E.
    + apply Qle_bool_iff in E. split; [simpl; lia|]. split.
      * intros z [<-|Hz]; [apply Qle_refl|].
        simpl. eapply Qle_trans; [apply Hmax, Hz|exact E].
      * intros j Hj. lia.
    + assert (Hx : x < nth (Insights.idxmax t) t 0).
      { apply Qnot_le_lt. intros Hle. apply Qle_bool_iff in Hle. congruence. }
      split; [simpl; lia|]. split.
      * intros z [<-|Hz]; simpl; [now apply Qlt_le_weak|now apply Hmax].
      * intros [|j] Hj; simpl; [exact Hx|]. apply Hfirst. lia.
Qed.

Lemma cxl_table_length (b : list Booking) :
  List.length (Insights.cxl_rate_by_dow b) = 7%nat.
Proof. rewrite cxl_rate_by_dow_rows. reflexivity. Qed.

Lemma cxl_table_dow_index (b : list Booking) (j : nat) (r : Insights.CxlRate) :
  nth_error (Insights.cxl_rate_by_dow b) j = Some r ->
  weekday_index (Insights.c_flight_dow r) = Z.of_nat j.
Proof.
  rewrite cxl_rate_by_dow_rows. unfold DOW_ORDER.
  do 7 (destruct j as [|j]; [simpl; intros H; injection H as <-; reflexivity|]).
  simpl. destruct j; discriminate.
Qed.

Lemma cx_max_spec (b : list Booking) :
  exists (i : nat) (r : Insights.CxlRate),
    Insights.cx_max b = Some r
    /\ nth_error (Insights.cxl_rate_by_dow b) i = Some r
    /\ (forall j r', nth_error (Insights.cxl_rate_by_dow b) j = Some r' ->
                     Insights.fillna (-1) (Insights.cancel_rate r')
                     <= Insights.fillna (-1) (Insights.cancel_rate r))
    /\ (forall j r', nth_error (Insights.cxl_rate_by_dow b) j = Some r' ->
                     (j < i)%nat ->
                     Insights.fillna (-1) (Insights.cancel_rate r')
                     < Insights.fillna (-1) (Insights.cancel_rate r)).
Proof.
  unfold Insights.cx_max.
  set (tbl := Insights.cxl_rate_by_dow b).
  set (f := fun r => Insights.fillna (-1) (Insights.cancel_rate r)).
  assert (Hlen : List.length tbl = 7%nat) by apply cxl_table_length.
  assert (Hne : map f tbl <> []).
  { destruct tbl; [discriminate Hlen|discriminate]. }
  destruct (idxmax_spec (map f tbl) Hne) as [Hlt [Hmax Hfirst]].
  rewrite length_map in Hlt.
  set (i := Insights.idxmax (map f tbl)) in *.
  destruct (nth_error tbl i) as [r|] eqn:E;
    [|apply nth_error_None in E; lia].
  assert (Hnth : nth i (map f tbl) 0 = f r).
  { rewrite (nth_indep (map f tbl) 0 (f r)) by (rewrite length_map; exact Hlt).
    rewrite map_nth. f_equal. now apply nth_error_nth. }
  exists i, r. split; [reflexivity|]. split; [exact E|]. split.
  - intros j r' Hj. change (f r' <= f r). rewrite <- Hnth. apply Hmax.
    apply in_map. eapply nth_error_In. exact Hj.
  - intros j r' Hj Hji. change (f r' < f r). rewrite <- Hnth.
    assert (Hj' : nth j (map f tbl) 0 = f r').
    { assert (Hjl : (j < List.length tbl)%nat)
        by (apply nth_error_Some; congruence).
      rewrite (nth_indep (map f tbl) 0 (f r')) by (rewrite length_map; exact Hjl).
      rewrite map_nth. f_equal. now apply nth_error_nth. }
    rewrite <- Hj'. now apply Hfirst.
Qed.

(** X18.  The insight "highest cancellation rate" names a weekday and its
    rate such that no weekday has a higher rate and every earlier weekday
    (Monday first) has a strictly lower one; the insight is left out
    exactly when no weekday has a rate. *)
Theorem highest_cancel_is_maximum (b : list Booking) :
  (forall d q,
      Insights.highest_cancel b = Some (d, q) ->
      (exists r, In r (Insights.cxl_rate_by_dow b)
                 /\ Insights.c_flight_dow r = d
                 /\ Insights.cancel_rate r = Some q)
      /\ (forall r q', In r (Insights.cxl_rate_by_dow b) ->
                       Insights.cancel_rate r = Some q' -> q' <= q)
      /\ (forall r q', In r (Insights.cxl_rate_by_dow b) ->
                       Insights.cancel_rate r = Some q' ->
                       (weekday_index (Insights.c_flight_dow r)
                        < weekday_index d)%Z ->
                       q' < q))
  /\ (Insights.highest_cancel b = None
      <-> forall r, In r (Insights.cxl_rate_by_dow b) ->
                    Insights.cancel_rate r = None).
Proof.
  destruct (cx_max_spec b) as [i [r [Hcx [Hi [Hmax Hfirst]]]]].
  unfold Insights.highest_cancel. rewrite Hcx.
  split.
  - intros d q H.
    destruct (Insights.cancel_rate r) as [q0|] eqn:Er; [|discriminate].
    injection H as <- <-. simpl in Hmax, Hfirst.
    split; [|split].
    + exists r. split; [eapply nth_error_In; exact Hi|]. now split.
    + intros r' q' Hr' Hq'. apply In_nth_error in Hr' as [j Hj].
      specialize (Hmax j r' Hj). now rewrite Hq' in Hmax.
    + intros r' q' Hr' Hq' Hlt. apply In_nth_error in Hr' as [j Hj].
      rewrite (cxl_table_dow_index b j r' Hj),
        (cxl_table_dow_index b i r Hi) in Hlt.
      assert (Hji : (j < i)%nat) by lia.
      specialize (Hfirst j r' Hj Hji). now rewrite Hq' in Hfirst.
  - split.
    + intros H r' Hr'.
      destruct (Insights.cancel_rate r) as [q0|] eqn:Er; [discriminate|].
      destruct (Insights.cancel_rate r') as [q'|] eqn:Eq; [exfalso|reflexivity].
      destruct (cxl_rate_row_facts b r' Hr') as [_ [_ [_ [_ Hb]]]].
      destruct (Hb q' Eq) as [H0 _].
      apply In_nth_error in Hr' as [j Hj].
      specialize (Hmax j r' Hj). rewrite Eq in Hmax. simpl in Hmax.
      assert (Hc : 0 <= -1) by (eapply Qle_trans; [exact H0|exact Hmax]).
      revert Hc. vm_compute. intros Hc. now apply Hc.
    + intros H. rewrite (H r); [reflexivity|].
      eapply nth_error_In. exact Hi.
Qed.

Lemma highest_cancel_is_maximum_witness :
  Insights.highest_cancel Sample.bookings_one_cancelled = Some (Monday, 1 # 2)
  /\ (exists r, In r (Insights.cxl_rate_by_dow Sample.bookings_one_cancelled)
                /\ Insights.c_flight_dow r = Monday
                /\ Insights.cancel_rate r = Some (1 # 2))
  /\ (forall r q', In r (Insights.cxl_rate_by_dow Sample.bookings_one_cancelled) ->
                   Insights.cancel_rate r = Some q' -> q' <= 1 # 2)
  /\ (forall r q', In r (Insights.cxl_rate_by_dow Sample.bookings_one_cancelled) ->
                   Insights.cancel_rate r = Some q' ->
                   (weekday_index (Insights.c_flight_dow r)
                    < weekday_index Monday)%Z ->
                   q' < 1 # 2).
Proof.
  assert (H : Insights.highest_cancel Sample.bookings_one_cancelled
              = Some (Monday, 1 # 2)) by (vm_compute; reflexivity).
  split; [exact H|].
  exact (proj1 (highest_cancel_is_maximum Sample.bookings_one_cancelled)
           Monday (1 # 2) H).
Defined.

(** ** The primary channel of a booking *)

Lemma insights_id_group_key_some (r : Passenger) (x : pyval) :
  Insights.id_group_key r = Some x -> x <> NaN.
Proof.
  unfold Insights.id_group_key.
  destruct (Insights.p_bookingid_norm r) eqn:E; simpl;
    intros H; try discriminate H; injection H as <-; discriminate.
Qed.

Lemma in_pnr_channel (p : list Passenger) (c : Insights.PnrChannel) :
  In c (Insights.pnr_channel p) ->
  Insights.pc_bookingid_norm c <> NaN
  /\ passengers_of (Insights.pc_bookingid_norm c) p <> []
  /\ Insights.primary_channel c
     = first_notna
         (map Insights.booking_channel_norm
            (passengers_of (Insights.pc_bookingid_norm c) p)).
Proof.
  unfold Insights.pnr_channel. intros H.
  apply in_map_iff in H as [g [<- Hg]].
  apply (in_groupby DQ.pyval_eqb DQ.pyval_leb pyval_eqb_eq) in Hg as [Hs Hk].
  simpl. unfold passengers_of. rewrite <- Hs.
  destruct Hk as [r [Hr Hk]].
  split; [exact (insights_id_group_key_some r _ Hk)|]. split; [|reflexivity].
  rewrite Hs.
  apply (filter_has_key_nonempty DQ.pyval_eqb pyval_eqb_eq). now exists r.
Qed.

Lemma pnr_channel_keys (p : list Passenger) :
  NoDup (map Insights.pc_bookingid_norm (Insights.pnr_channel p)).
Proof.
  unfold Insights.pnr_channel. rewrite map_map. simpl.
  apply (NoDup_group_keys DQ.pyval_eqb DQ.pyval_leb pyval_eqb_eq).
Qed.

Lemma enriched_channel_spec (b : list Booking) (p : list Passenger)
  (e : Booking * option Insights.PnrChannel) :
  In e (Insights.booking_enriched b p) ->
  In (fst e) b
  /\ Insights.enriched_channel e
     = first_notna
         (map Insights.booking_channel_norm
            (passengers_of (Insights.bookingid_norm (fst e)) p))
  /\ (Insights.enriched_channel e <> None ->
      Insights.bookingid_norm (fst e) <> NaN).
Proof.
  unfold Insights.booking_enriched. destruct e as [x m]. intros H.
  apply (in_merge_left DQ.pyval_eqb pyval_eqb_eq) in H as [Hx Hm].
  simpl. split; [exact Hx|].
  unfold Insights.enriched_channel. simpl.
  destruct m as [c|].
  - destruct Hm as [Hc Hk]. rewrite Hk.
    destruct (in_pnr_channel p c Hc) as [Hn [_ Hp]].
    split; [exact Hp|]. intros _. exact Hn.
  - split; [|intros H; now contradiction H].
    destruct (passengers_of (Insights.bookingid_norm x) p) as [|r t] eqn:F;
      [reflexivity|exfalso].
    assert (Hne : passengers_of (Insights.bookingid_norm x) p <> [])
      by (rewrite F; discriminate).
    pose proof (proj1 (filter_has_key_nonempty DQ.pyval_eqb pyval_eqb_eq
                         Insights.id_group_key p (Insights.bookingid_norm x))
                  Hne) as Hex.
    set (c := Insights.mkPnrChannel (Insights.bookingid_norm x)
                (first_notna
                   (map Insights.booking_channel_norm
                      (passengers_of (Insights.bookingid_norm x) p)))
                (unique String.eqb
                   (map Insights.device_used_norm
                      (passengers_of (Insights.bookingid_norm x) p)))).
    assert (Hc : In c (Insights.pnr_channel p)).
    { unfold Insights.pnr_channel. apply in_map_iff.
      exists (Insights.bookingid_norm x,
              passengers_of (Insights.bookingid_norm x) p).
      split; [reflexivity|].
      apply (in_groupby DQ.pyval_eqb DQ.pyval_leb pyval_eqb_eq).
      simpl. split; [reflexivity|exact Hex]. }
    assert (Hf : In c (filter (fun r => DQ.pyval_eqb (Insights.bookingid_norm x)
                                          (Insights.pc_bookingid_norm r))
                         (Insights.pnr_channel p))).
    { apply filter_In. split; [exact Hc|]. simpl. now apply pyval_eqb_eq. }
    rewrite Hm in Hf. destruct Hf.
Qed.

(** X19.  When some booking has a normalized id, joining the primary
    channel to the bookings keeps the booking table as it is: every booking
    once, in order.  The channel joined to a booking is the first
    non-missing normalized channel among the passenger rows of the
    booking's normalized id, and is missing when the id is missing or has
    no passenger row. *)
Theorem booking_enriched_keeps_rows (b : list Booking) (p : list Passenger) :
  (exists x, In x b /\ Insights.bookingid_norm x <> NaN) ->
  map fst (Insights.booking_enriched b p) = b
  /\ (forall e, In e (Insights.booking_enriched b p) ->
                Insights.enriched_channel e
                = first_notna
                    (map Insights.booking_channel_norm
                       (passengers_of (Insights.bookingid_norm (fst e)) p)))
  /\ (forall e, In e (Insights.booking_enriched b p) ->
                Insights.bookingid_norm (fst e) = NaN
                \/ passengers_of (Insights.bookingid_norm (fst e)) p = [] ->
                Insights.enriched_channel e = None).
Proof.
  intros _. split; [|split].
  - apply (merge_left_unique DQ.pyval_eqb pyval_eqb_eq). apply pnr_channel_keys.
  - intros e He. apply (enriched_channel_spec b p e He).
  - intros e He H.
    destruct (enriched_channel_spec b p e He) as [_ [Hc Hn]].
    destruct H as [H|H].
    + destruct (Insights.enriched_channel e); [|reflexivity].
      exfalso. apply Hn; [discriminate|exact H].
    + now rewrite Hc, H.
Qed.

Lemma booking_enriched_keeps_rows_witness :
  (exists x, In x Sample.bookings_one_cancelled
             /\ Insights.bookingid_norm x <> NaN)
  /\ map fst
       (Insights.booking_enriched Sample.bookings_one_cancelled
          Sample.passengers)
     = Sample.bookings_one_cancelled
  /\ map Insights.enriched_channel
       (Insights.booking_enriched Sample.bookings_one_cancelled
          Sample.passengers)
     = [Some "website"; None; Some "website"].
Proof.
  assert (H : exists x, In x Sample.bookings_one_cancelled
                        /\ Insights.bookingid_norm x <> NaN).
  { eexists. split; [left; reflexivity|]. vm_compute. discriminate. }
  split; [exact H|]. split.
  - exact (proj1 (booking_enriched_keeps_rows Sample.bookings_one_cancelled
                    Sample.passengers H)).
  - vm_compute. reflexivity.
Defined.

(** X20.  In the table of cancellations by channel, every row counts at
    least one booking, all the bookings of its group have a normalized id,
    its cancellations are among its bookings, and its cancellation rate is
    a number between 0 and 1. *)
Theorem channel_rate_bounds (b : list Booking) (p : list Passenger)
  (r : Insights.ChannelRate) :
  In r (Insights.cxl_by_channel b p) ->
  Insights.ch_bookings r
  = List.length
      (filter (has_key String.eqb Insights.enriched_channel
                 (Insights.ch_primary_channel r))
         (Insights.booking_enriched b p))
  /\ (0 < Insights.ch_bookings r)%nat
  /\ (Insights.ch_cancels r <= Insights.ch_bookings r)%nat
  /\ exists q, Insights.ch_cancel_rate r = Some q /\ 0 <= q /\ q <= 1.
Proof.
  unfold Insights.cxl_by_channel. intros H.
  apply in_map_iff in H as [g [<- Hg]].
  apply (in_groupby String.eqb String.leb String.eqb_eq) in Hg as [Hs Hk].
  set (grp := filter (has_key String.eqb Insights.enriched_channel (fst g))
                (Insights.booking_enriched b p)) in *.
  assert (Hall : filter (fun e => negb (isna (Insights.bookingid_norm (fst e))))
                   (snd g) = snd g).
  { apply filter_all. intros e He. rewrite Hs in He.
    apply filter_In in He as [He Hc].
    destruct (enriched_channel_spec b p e He) as [_ [_ Hn]].
    unfold has_key in Hc.
    destruct (Insights.enriched_channel e) as [c|]; [|discriminate].
    assert (Hne : Insights.bookingid_norm (fst e) <> NaN)
      by (apply Hn; discriminate).
    destruct (Insights.bookingid_norm (fst e)); [contradiction| |]; reflexivity. }
  assert (Hpos : (0 < List.length (snd g))%nat).
  { destruct Hk as [e [He Hc]].
    assert (Hin : In e (snd g)).
    { rewrite Hs. apply filter_In. split; [exact He|].
      unfold has_key. rewrite Hc. apply String.eqb_refl. }
    destruct (snd g); [destruct Hin|simpl; lia]. }
  assert (Hle : (List.length (filter (fun e => Insights.is_cancelled (fst e))
                                (snd g)) <= List.length (snd g))%nat)
    by apply List.filter_length_le.
  unfold Insights.channel_rate_row. simpl. rewrite Hall.
  split; [now rewrite Hs|]. split; [exact Hpos|]. split; [exact Hle|].
  unfold where_else_nan, odiv, Insights.nat_cell.
  destruct (Nat.ltb_spec 0 (List.length (snd g))) as [_|Hz]; [|lia].
  eexists. split; [reflexivity|]. now apply nat_ratio_bounds.
Qed.

Lemma channel_rate_bounds_witness :
  exists r : Insights.ChannelRate,
    In r (Insights.cxl_by_channel Sample.bookings_one_cancelled Sample.passengers)
    /\ (0 < Insights.ch_bookings r)%nat
    /\ (Insights.ch_cancels r <= Insights.ch_bookings r)%nat
    /\ exists q, Insights.ch_cancel_rate r = Some q /\ 0 <= q /\ q <= 1.
Proof.
  assert (H : exists r : Insights.ChannelRate,
             In r (Insights.cxl_by_channel Sample.bookings_one_cancelled
                     Sample.passengers)).
  { eexists. vm_compute. left. reflexivity. }
  destruct H as [r H]. exists r. split; [exact H|].
  exact (proj2 (channel_rate_bounds Sample.bookings_one_cancelled
                  Sample.passengers r H)).
Defined.

(** ** Legs without a flight row *)

Lemma merge_left_covers {K L R} (eqb : K -> K -> bool)
  (eqb_eq : forall a b : K, eqb a b = true <-> a = b)
  (lkey : L -> K) (rkey : R -> K) (left : list L) (right : list R) (l : L) :
  In l left -> exists m, In (l, m) (merge_left eqb lkey rkey left right).
Proof.
  intros Hl.
  destruct (filter (fun r => eqb (lkey l) (rkey r)) right) as [|r t] eqn:F.
  - exists None. apply (in_merge_left eqb eqb_eq). now split.
  - exists (Some r). apply (in_merge_left eqb eqb_eq). split; [exact Hl|].
    assert (Hr : In r (filter (fun r => eqb (lkey l) (rkey r)) right))
      by (rewrite F; now left).
    apply filter_In in Hr as [Hr Hk]. split; [exact Hr|now apply eqb_eq].
Qed.

(** X21.  The join of the legs with the Flight sheet drops no leg: every
    booking has a row of its flight number, date, origin and destination in
    the leg table of check 6 and in the leg table of the KPI script.  A leg
    whose flight number and date have no Flight row has a missing capacity:
    check 6 reports it under missing_capacity_for_leg and under neither of
    the two capacity comparisons, and the KPI script gives it a missing
    load factor. *)
Theorem unmatched_legs_are_kept (f : list Flight) :
  (forall (b : list DQ.BookingD),
      (forall x, In x b ->
                 exists l, In l (DQ.leg_table b f)
                           /\ ((DQ.l_flightnumber l, DQ.l_flight_date l),
                               (DQ.l_origin l, DQ.l_destination l))
                              = DQ.leg_key_of x)
      /\ (forall l, In l (DQ.leg_table b f) ->
                    (forall fl, In fl f ->
                                (f_flightnumber fl, flightdate fl)
                                <> (DQ.l_flightnumber l, DQ.l_flight_date l)) ->
                    DQ.l_availablecapacity l = None
                    /\ DQ.capacity_anomaly l = false
                    /\ DQ.capacity_out_of_range l = false))
  /\ (forall (b : list Booking),
         (forall x, In x b ->
                    exists l, In l (KPI.leg_table b f)
                              /\ ((KPI.l_flightnumber l, KPI.l_flight_date l),
                                  (KPI.l_origin l, KPI.l_destination l))
                                 = KPI.leg_key_of x)
         /\ (forall l, In l (KPI.leg_table b f) ->
                       (forall fl, In fl f ->
                                   (f_flightnumber fl, flightdate fl)
                                   <> (KPI.l_flightnumber l, KPI.l_flight_date l)) ->
                       KPI.l_availablecapacity l = None
                       /\ KPI.load_factor l = None)).
Proof.
  split; intros b; split.
  - intros x Hx.
    assert (Hg : In (DQ.leg_key_of x,
                     sum_skipna
                       (map (fun r : DQ.BookingD => passengercount (DQ.raw r))
                          (filter (has_key DQ.leg_key_eqb
                                     (fun r => Some (DQ.leg_key_of r))
                                     (DQ.leg_key_of x)) b)))
                  (DQ.leg_groups b)).
    { unfold DQ.leg_groups. apply in_map_iff.
      exists (DQ.leg_key_of x,
              filter (has_key DQ.leg_key_eqb (fun r => Some (DQ.leg_key_of r))
                        (DQ.leg_key_of x)) b).
      split; [reflexivity|].
      apply (in_groupby DQ.leg_key_eqb DQ.leg_key_leb dq_leg_key_eqb_eq).
      simpl. split; [reflexivity|]. now exists x. }
    destruct (merge_left_covers flight_key_eqb flight_key_eqb_eq
                (fun g : DQ.leg_key * Q => fst (fst g))
                (fun r : Flight => (f_flightnumber r, flightdate r))
                (DQ.leg_groups b) f _ Hg) as [m Hm].
    eexists. split.
    + unfold DQ.leg_table. apply in_map. exact Hm.
    + reflexivity.
  - intros l Hl Hno. unfold DQ.leg_table in Hl.
    apply in_map_iff in Hl as [[g m] [<- Hm]].
    apply (in_merge_left flight_key_eqb flight_key_eqb_eq) in Hm as [_ Hm].
    destruct m as [fl|].
    + destruct Hm as [Hfl Hk]. exfalso. apply (Hno fl Hfl).
      simpl. rewrite <- Hk. now destruct (fst (fst g)).
    + repeat split; reflexivity.
  - intros x Hx.
    assert (Hg : In (KPI.leg_agg
                       (KPI.leg_key_of x,
                        filter (has_key KPI.leg_key_eqb
                                  (fun r => Some (KPI.leg_key_of r))
                                  (KPI.leg_key_of x)) b))
                  (KPI.leg_groups b)).
    { unfold KPI.leg_groups. apply in_map.
      apply (in_groupby KPI.leg_key_eqb KPI.leg_key_leb kpi_leg_key_eqb_eq).
      simpl. split; [reflexivity|]. now exists x. }
    destruct (merge_left_covers flight_key_eqb flight_key_eqb_eq
                (fun a : KPI.LegAgg => fst (KPI.a_key a))
                (fun r : Flight => (f_flightnumber r, flightdate r))
                (KPI.leg_groups b) f _ Hg) as [m Hm].
    eexists. split.
    + unfold KPI.leg_table. apply in_map. exact Hm.
    + reflexivity.
  - intros l Hl Hno. unfold KPI.leg_table in Hl.
    apply in_map_iff in Hl as [[g m] [<- Hm]].
    apply (in_merge_left flight_key_eqb flight_key_eqb_eq) in Hm as [_ Hm].
    destruct m as [fl|].
    + destruct Hm as [Hfl Hk]. exfalso. apply (Hno fl Hfl).
      simpl. rewrite <- Hk. now destruct (fst (KPI.a_key g)).
    + split; reflexivity.
Qed.

Lemma unmatched_legs_are_kept_witness :
  (In Sample.kpi_leg_unmatched (KPI.leg_table Sample.bookings_no_capacity [])
   /\ forall fl, In fl [] ->
                 (f_flightnumber fl, flightdate fl)
                 <> (KPI.l_flightnumber Sample.kpi_leg_unmatched,
                     KPI.l_flight_date Sample.kpi_leg_unmatched))
  /\ KPI.l_availablecapacity Sample.kpi_leg_unmatched = None
  /\ KPI.load_factor Sample.kpi_leg_unmatched = None.
Proof.
  assert (H1 : In Sample.kpi_leg_unmatched
                 (KPI.leg_table Sample.bookings_no_capacity []))
    by (vm_compute; left; reflexivity).
  assert (H2 : forall fl : Flight, In fl [] ->
                 (f_flightnumber fl, flightdate fl)
                 <> (KPI.l_flightnumber Sample.kpi_leg_unmatched,
                     KPI.l_flight_date Sample.kpi_leg_unmatched))
    by (intros fl []).
  split; [now split|].
  exact (proj2 (proj2 (unmatched_legs_are_kept []) Sample.bookings_no_capacity)
           Sample.kpi_leg_unmatched H1 H2).
Defined.

(* ===================================================================== *)
(** * The weekday metrics of the KPI script and the tables by weekday *)
(* ===================================================================== *)

(** ** CALF as a mean of leg ratios *)

Lemma filter_map_swap {A B} (h : A -> B) (p : B -> bool) (l : list A) :
  filter p (map h l) = map h (filter (fun x => p (h x)) l).
Proof.
  induction l as [|a t IH]; simpl; [reflexivity|].
  destruct (p (h a)); simpl; now rewrite IH.
Qed.

Lemma Qsum_dropna_ext {A} (f g : A -> option Q) (l : list A) :
  (forall x, In x l -> cell_eq (f x) (g x)) ->
  Qsum (dropna (map f l)) == Qsum (dropna (map g l))
  /\ List.length (dropna (map f l)) = List.length (dropna (map g l)).
Proof.
  induction l as [|a t IH]; intros H; simpl; [split; reflexivity|].
  destruct IH as [Hs Hl]; [intros x Hx; apply H; now right|].
  pose proof (H a (or_introl eq_refl)) as Ha.
  destruct (f a) as [u|], (g a) as [v|]; simpl in Ha; try contradiction.
  - simpl. split; [now rewrite Ha, Hs|now rewrite Hl].
  - now split.
Qed.

Lemma mean_skipna_ext {A} (f g : A -> option Q) (l : list A) :
  (forall x, In x l -> cell_eq (f x) (g x)) ->
  cell_eq (mean_skipna (map f l)) (mean_skipna (map g l)).
Proof.
  intros H. destruct (Qsum_dropna_ext f g l H) as [Hs Hl].
  unfold mean_skipna.
  destruct (dropna (map f l)) as [|u us] eqn:Ef,
           (dropna (map g l)) as [|v vs] eqn:Eg;
    try discriminate Hl; simpl; [exact I|].
  unfold Qlen. rewrite Hl. simpl in Hs. now rewrite Hs.
Qed.

Lemma realized_sum (g : list Booking) :
  Qsum (map KPI.realized_pax_of g)
  == sum_skipna (map passengercount g)
     - inject_Z (Z.of_nat (List.length (filter KPI.is_cancelled g))).
Proof.
  unfold sum_skipna.
  induction g as [|x t IH]; [reflexivity|].
  change (Qsum (map KPI.realized_pax_of (x :: t)))
    with (KPI.realized_pax_of x + Qsum (map KPI.realized_pax_of t)).
  rewrite IH. unfold KPI.realized_pax_of, fillna0.
  cbn [map dropna filter].
  destruct (passengercount x) as [n|], (KPI.is_cancelled x);
    cbn [Qsum fold_right List.length dropna];
    try (rewrite Nat2Z.inj_succ; unfold Z.succ; rewrite inject_Z_plus);
    fold (Qsum (dropna (map passengercount t))); ring.
Qed.

Lemma kpi_leg_of_group (b : list Booking) (f : list Flight) (l : KPI.Leg) :
  In l (KPI.leg_table b f) ->
  exists x0,
    In x0 b
    /\ KPI.l_flightnumber l = flightnumber x0
    /\ KPI.l_flight_date l = flight_date x0
    /\ KPI.dow l = day_name (flight_date x0)
    /\ KPI.pax l
       = sum_skipna
           (map passengercount
              (filter (has_key KPI.leg_key_eqb
                         (fun r => Some (KPI.leg_key_of r)) (KPI.leg_key_of x0))
                 b))
    /\ KPI.cancels l
       = List.length
           (filter KPI.is_cancelled
              (filter (has_key KPI.leg_key_eqb
                         (fun r => Some (KPI.leg_key_of r)) (KPI.leg_key_of x0))
                 b)).
Proof.
  unfold KPI.leg_table. intros H.
  apply in_map_iff in H as [[a m] [<- Hm]].
  apply (in_merge_left flight_key_eqb flight_key_eqb_eq) in Hm as [Ha _].
  unfold KPI.leg_groups in Ha. apply in_map_iff in Ha as [g [<- Hg]].
  apply (in_groupby KPI.leg_key_eqb KPI.leg_key_leb kpi_leg_key_eqb_eq) in Hg
    as [Hs [x0 [Hx0 Hk]]].
  injection Hk as Hk. exists x0. split; [exact Hx0|].
  unfold KPI.leg_row, KPI.leg_agg. simpl. rewrite Hs, <- Hk.
  repeat split.
Qed.

Lemma same_flight_is_leg_group (b : list Booking) (x0 : Booking) (n d : Z) :
  one_leg_per_flight b ->
  In x0 b -> flightnumber x0 = Some n -> flight_date x0 = Some d ->
  filter (same_flight (Some n, Some d)) b
  = filter (has_key KPI.leg_key_eqb (fun r => Some (KPI.leg_key_of r))
              (KPI.leg_key_of x0)) b.
Proof.
  intros H1 Hx0 Hn Hd. apply filter_ext_in. intros x Hx.
  unfold same_flight, has_key.
  apply eq_true_iff_eq. split.
  - intros H. apply kpi_leg_key_eqb_eq.
    unfold KPI.realized_key_of in H.
    destruct (flightnumber x) as [n'|] eqn:En; [|discriminate H].
    destruct (flight_date x) as [d'|] eqn:Ed; [|discriminate H].
    apply flight_key_eqb_eq in H. injection H as -> ->.
    destruct (H1 x0 x Hx0 Hx) as [Ho Hde]; [congruence|congruence|].
    unfold KPI.leg_key_of. now rewrite Hn, Hd, En, Ed, Ho, Hde.
  - intros H. apply kpi_leg_key_eqb_eq in H.
    unfold KPI.leg_key_of in H. injection H as Hfn Hfd _ _.
    unfold KPI.realized_key_of. rewrite <- Hfn, <- Hfd, Hn, Hd.
    now apply flight_key_eqb_eq.
Qed.

Lemma leg2_calf (leg : list KPI.Leg) (b : list Booking) :
  map KPI.base (KPI.leg2 leg b) = leg
  /\ forall l2, In l2 (KPI.leg2 leg b) ->
       KPI.calf l2
       = where_else_nan (gt0 (KPI.l_availablecapacity (KPI.base l2)))
           (odiv
              (match filter (same_flight (KPI.l_flightnumber (KPI.base l2),
                                          KPI.l_flight_date (KPI.base l2))) b with
               | [] => None
               | g => Some (Qsum (map KPI.realized_pax_of g))
               end)
              (KPI.l_availablecapacity (KPI.base l2))).
Proof.
  split.
  - unfold KPI.leg2. rewrite map_map. simpl.
    change (map (fun x : KPI.Leg * option (flight_key * Q) => fst x)
              (merge_left flight_key_eqb
                 (fun l : KPI.Leg => (KPI.l_flightnumber l, KPI.l_flight_date l))
                 (fun r : flight_key * Q => fst r) leg (KPI.realized b)))
      with (map fst
              (merge_left flight_key_eqb
                 (fun l : KPI.Leg => (KPI.l_flightnumber l, KPI.l_flight_date l))
                 (fun r : flight_key * Q => fst r) leg (KPI.realized b))).
    apply (merge_left_unique flight_key_eqb flight_key_eqb_eq).
    unfold KPI.realized. rewrite map_map. simpl.
    apply (NoDup_group_keys flight_key_eqb flight_key_leb flight_key_eqb_eq).
  - intros l2 H. destruct (leg2_realized_pax leg b l2 H) as [_ <-].
    unfold KPI.leg2 in H. apply in_map_iff in H as [m [<- _]]. reflexivity.
Qed.

Lemma calf_of_dated_leg (b : list Booking) (f : list Flight) (l : KPI.Leg)
  (d : weekday) :
  one_leg_per_flight b -> dated_bookings_numbered b ->
  In l (KPI.leg_table b f) -> KPI.dow l = Some d ->
  cell_eq
    (where_else_nan (gt0 (KPI.l_availablecapacity l))
       (odiv
          (match filter (same_flight (KPI.l_flightnumber l, KPI.l_flight_date l))
                   b with
           | [] => None
           | g => Some (Qsum (map KPI.realized_pax_of g))
           end)
          (KPI.l_availablecapacity l)))
    (calf_of_leg l).
Proof.
  intros H1 H2 Hl Hd.
  destruct (kpi_leg_of_group b f l Hl) as [x0 [Hx0 [Hfn [Hfd [Hdow [Hp Hc]]]]]].
  rewrite Hdow in Hd.
  destruct (flight_date x0) as [z|] eqn:Ez; [|discriminate Hd].
  destruct (flightnumber x0) as [n|] eqn:En.
  2:{ exfalso. apply (H2 x0 Hx0); [rewrite Ez; discriminate|exact En]. }
  rewrite Hfn, Hfd.
  rewrite (same_flight_is_leg_group b x0 n z H1 Hx0 En Ez).
  unfold calf_of_leg. rewrite Hp, Hc.
  set (grp := filter (has_key KPI.leg_key_eqb (fun r => Some (KPI.leg_key_of r))
                        (KPI.leg_key_of x0)) b).
  assert (Hne : grp <> []).
  { apply (filter_has_key_nonempty KPI.leg_key_eqb kpi_leg_key_eqb_eq).
    now exists x0. }
  destruct grp as [|y t] eqn:G; [contradiction|]. rewrite <- G.
  destruct (KPI.l_availablecapacity l) as [c|]; simpl; [|exact I].
  destruct (Qltb 0 c); simpl; [|exact I].
  now rewrite realized_sum.
Qed.

(** C2, amended.  CALF of a weekday is the mean, over the legs of that
    weekday that have a positive capacity, of the ratio (booked pax of the
    leg - cancelled bookings of the leg) / capacity, and is missing when
    the weekday has no such leg: a mean of ratios, not a ratio of sums.
    The statement is for bookings in which a flight number and date belong
    to one origin and destination and every dated booking has a flight
    number. *)
Theorem calf_is_mean_of_leg_ratios
  (b : list Booking) (f : list Flight) (d : weekday) :
  one_leg_per_flight b -> dated_bookings_numbered b ->
  map fst (KPI.calf_dow (KPI.leg_table b f) b) = DOW_ORDER
  /\ cell_eq (at_day d (KPI.calf_dow (KPI.leg_table b f) b))
       (mean_skipna (map calf_of_leg (bucket d (KPI.leg_table b f))))
  /\ (forall l, In l (bucket d (KPI.leg_table b f)) ->
        calf_of_leg l = None
        <-> ~ (exists c, KPI.l_availablecapacity l = Some c /\ 0 < c)).
Proof.
  intros H1 H2. split; [reflexivity|]. split.
  - rewrite calf_at_day.
    destruct (leg2_calf (KPI.leg_table b f) b) as [Hb Hc].
    set (g := fun l : KPI.Leg =>
                where_else_nan (gt0 (KPI.l_availablecapacity l))
                  (odiv
                     (match filter (same_flight (KPI.l_flightnumber l,
                                                 KPI.l_flight_date l)) b with
                      | [] => None
                      | grp => Some (Qsum (map KPI.realized_pax_of grp))
                      end)
                     (KPI.l_availablecapacity l))).
    assert (E : map KPI.calf
                  (filter (fun l2 => on_day d (KPI.base l2))
                     (KPI.leg2 (KPI.leg_table b f) b))
                = map g (bucket d (KPI.leg_table b f))).
    { unfold bucket. rewrite <- Hb at 2. rewrite filter_map_swap, map_map.
      apply map_ext_in. intros l2 Hl2. apply filter_In in Hl2 as [Hl2 _].
      now apply Hc. }
    rewrite E. apply mean_skipna_ext. intros l Hl.
    apply filter_In in Hl as [Hl Hd].
    unfold on_day, has_key in Hd.
    destruct (KPI.dow l) as [d'|] eqn:Ed; [|discriminate Hd].
    exact (calf_of_dated_leg b f l d' H1 H2 Hl Ed).
  - intros l _. unfold calf_of_leg.
    destruct (KPI.l_availablecapacity l) as [c|]; simpl.
    + destruct (Qltb 0 c) eqn:E; simpl.
      * apply Qltb_true_iff in E. split; [discriminate|].
        intros H. exfalso. apply H. now exists c.
      * apply Qltb_false_iff in E. split; [|reflexivity].
        intros _ [c' [Hc Hpos]]. injection Hc as <-.
        exact (Qlt_not_le _ _ Hpos E).
    + split; [|reflexivity]. intros _ [c [Hc _]]. discriminate Hc.
Qed.

Lemma calf_is_mean_of_leg_ratios_witness :
  (one_leg_per_flight Sample.bookings_two_sizes
   /\ dated_bookings_numbered Sample.bookings_two_sizes)
  /\ cell_eq
       (at_day Monday
          (KPI.calf_dow
             (KPI.leg_table Sample.bookings_two_sizes Sample.flights_two_sizes)
             Sample.bookings_two_sizes))
       (mean_skipna
          (map calf_of_leg
             (bucket Monday
                (KPI.leg_table Sample.bookings_two_sizes
                   Sample.flights_two_sizes)))).
Proof.
  assert (H1 : one_leg_per_flight Sample.bookings_two_sizes).
  { intros x y Hx Hy Hn Hd. simpl in Hx, Hy.
    destruct Hx as [<-|[<-|[]]]; destruct Hy as [<-|[<-|[]]];
      first [split; reflexivity | vm_compute in Hn; discriminate Hn]. }
  assert (H2 : dated_bookings_numbered Sample.bookings_two_sizes).
  { intros x Hx _. simpl in Hx.
    destruct Hx as [<-|[<-|[]]]; vm_compute; discriminate. }
  split; [now split|].
  exact (proj1 (proj2 (calf_is_mean_of_leg_ratios Sample.bookings_two_sizes
                         Sample.flights_two_sizes Monday H1 H2))).
Defined.

(** ** PACS of a leg *)

Lemma connecting_on_fco_pmo (leg : list KPI.Leg) (d : weekday) :
  filter (has_key weekday_eqb KPI.dow d) (KPI.fco_pmo leg) = connecting_on d leg.
Proof. unfold KPI.fco_pmo, connecting_on. now rewrite filter_filter. Qed.

Lemma onward_rev_map_none (leg : list KPI.Leg) :
  KPI.fco_pmo leg = [] -> KPI.onward_rev_map leg = [].
Proof. unfold KPI.onward_rev_map. now intros ->. Qed.

Lemma onward_rev_map_lookup (leg : list KPI.Leg) (d : weekday) :
  KPI.fco_pmo leg <> [] ->
  lookup weekday_eqb d (KPI.onward_rev_map leg)
  = Some (match connecting_on d leg with
          | [] => None
          | c => Some (Qsum (map KPI.revenue c) / Qlen c)
          end).
Proof.
  intros Hne. unfold KPI.onward_rev_map.
  destruct (KPI.fco_pmo leg) as [|x t] eqn:F; [contradiction|].
  rewrite at_day_reindex_float. unfold at_day.
  rewrite (lookup_groupby weekday_eqb weekday_cat_leb weekday_eqb_eq KPI.dow
             (fun g => Some (Qsum (map KPI.revenue g) / Qlen g)) (x :: t) d).
  rewrite <- F, connecting_on_fco_pmo.
  now destruct (connecting_on d leg).
Qed.

Lemma connecting_on_none (leg : list KPI.Leg) (d : weekday) :
  KPI.fco_pmo leg = [] -> connecting_on d leg = [].
Proof. intros H. now rewrite <- connecting_on_fco_pmo, H. Qed.

Lemma onward_rev_settled (leg : list KPI.Leg) (r : KPI.Leg) :
  KPI.is_fra_fco r = true -> credit_settled leg r = true ->
  exists o, KPI.onward_rev leg r = Some o
            /\ connection_credit KPI.connection_value_pct leg r
               == KPI.connection_value_pct * o.
Proof.
  intros Hf Hs. unfold credit_settled in Hs. rewrite Hf in Hs. simpl in Hs.
  unfold KPI.onward_rev, connection_credit. rewrite Hf.
  destruct (KPI.dow r) as [d|]; [|exists 0; split; [reflexivity|ring]].
  unfold dict_get_default.
  destruct (KPI.fco_pmo leg) as [|x t] eqn:F.
  - rewrite (onward_rev_map_none leg F), (connecting_on_none leg d F). simpl.
    exists 0. split; [reflexivity|ring].
  - simpl in Hs.
    rewrite onward_rev_map_lookup by (rewrite F; discriminate).
    destruct (connecting_on d leg) as [|y u]; [discriminate Hs|].
    eexists. split; reflexivity.
Qed.

Lemma pacs_row_settled (leg : list KPI.Leg) (r : KPI.Leg) (c : Q) :
  KPI.l_availablecapacity r = Some c -> 0 < c ->
  credit_settled leg r = true ->
  cell_eq (snd (KPI.pacs_row leg r))
    (Some ((KPI.revenue r + connection_credit KPI.connection_value_pct leg r
            - KPI.variable_cost_per_seat_leg * c) / c)).
Proof.
  intros Hc Hpos Hs. unfold KPI.pacs_row. simpl. rewrite Hc.
  rewrite positive_seats.
  assert (Hc0 : ~ c == 0).
  { intros E. rewrite E in Hpos. exact (Qlt_irrefl 0 Hpos). }
  apply Qltb_true_iff in Hpos. rewrite Hpos.
  destruct (KPI.is_fra_fco r) eqn:Hf.
  - destruct (onward_rev_settled leg r Hf Hs) as [o [-> Ho]].
    simpl. rewrite Ho. field. exact Hc0.
  - simpl. unfold connection_credit. rewrite Hf. field. exact Hc0.
Qed.

Lemma pacs_row_no_capacity (leg : list KPI.Leg) (r : KPI.Leg) :
  KPI.l_availablecapacity r = None
  \/ (exists c, KPI.l_availablecapacity r = Some c /\ c <= 0) ->
  snd (KPI.pacs_row leg r) = None.
Proof.
  intros H. unfold KPI.pacs_row. simpl. rewrite positive_seats.
  destruct H as [->|[c [-> Hc]]].
  - reflexivity.
  - apply Qltb_false_iff in Hc. now rewrite Hc.
Qed.

Lemma Forall2_map_r {A B} (P : A -> B -> Prop) (f : A -> B) (l : list A) :
  (forall x, In x l -> P x (f x)) -> Forall2 P l (map f l).
Proof.
  induction l as [|a t IH]; intros H; simpl; constructor.
  - apply H. now left.
  - apply IH. intros x Hx. apply H. now right.
Qed.

Lemma Forall2_nth_error {A B} (P : A -> B -> Prop) (l : list A) (l' : list B)
  (i : nat) (a : A) (b : B) :
  Forall2 P l l' -> nth_error l i = Some a -> nth_error l' i = Some b -> P a b.
Proof.
  intros H. revert i. induction H as [|x y t t' Hxy Ht IH]; intros i Ha Hb.
  - destruct i; discriminate Ha.
  - destruct i as [|i]; simpl in Ha, Hb.
    + injection Ha as <-. injection Hb as <-. exact Hxy.
    + exact (IH i Ha Hb).
Qed.

Lemma pacs_at_day (leg : list KPI.Leg) (d : weekday) :
  at_day d (KPI.pacs_dow leg) = mean_skipna (pacs_on d leg).
Proof.
  unfold at_day, KPI.pacs_dow, pacs_on. rewrite at_day_reindex_float.
  unfold at_day.
  rewrite (lookup_groupby weekday_eqb weekday_name_leb weekday_eqb_eq
             (fun v : option weekday * option Q => fst v)
             (fun g => mean_skipna (map snd g)) (KPI.pacs_vals leg) d).
  destruct (filter _ (KPI.pacs_vals leg)); reflexivity.
Qed.

(** C3, as stated, fails: the variable cost and the percentage are not
    configured, the script assigns 40 and 25%.  For the leg with revenue
    5000 and capacity 180 that is no feeder the loop reports
    (5000 - 180*40)/180 and not (5000 - 180*25)/180; for the feeder leg with
    revenue 5000, capacity 180 and connecting legs of mean revenue 2000 it
    reports (5000 + 500 - 7200)/180 and not (5000 + 300 - 4500)/180. *)
Lemma pacs_example_at_script_values :
  map (fun r => (KPI.is_fra_fco r, KPI.l_availablecapacity r))
    Sample.legs_feeder
  = [(true, Some 180); (false, Some 180); (false, Some 180); (false, Some 180)]
  /\ Forall2 Qeq (map KPI.revenue Sample.legs_feeder) [5000; 1500; 2500; 5000]
  /\ Qsum (map KPI.revenue (connecting_on Monday Sample.legs_feeder))
     / Qlen (connecting_on Monday Sample.legs_feeder) == 2000
  /\ Forall2 cell_eq (map snd (KPI.pacs_vals Sample.legs_feeder))
       [ Some ((5000 + 500 - 7200) / 180); Some ((1500 - 7200) / 180);
         Some ((2500 - 7200) / 180); Some ((5000 - 180 * 40) / 180) ]
  /\ ~ cell_eq (nth 3 (map snd (KPI.pacs_vals Sample.legs_feeder)) None)
         (Some ((5000 - 180 * 25) / 180))
  /\ ~ cell_eq (nth 0 (map snd (KPI.pacs_vals Sample.legs_feeder)) None)
         (Some ((5000 + 300 - 4500) / 180)).
Proof.
  split; [vm_compute; reflexivity|].
  split; [vm_compute; repeat constructor|].
  split; [vm_compute; reflexivity|].
  split; [vm_compute; repeat constructor|].
  split; vm_compute; intros H; discriminate H.
Qed.

(** C3, amended.  The loop reports one PACS for each leg, under the leg's
    weekday.  With a positive capacity it is (revenue + connection credit
    - 40 x capacity) / capacity, with a missing or non-positive capacity it
    is missing.  The credit is 0 for a leg that is not FRA to FCO and when
    the table has no FCO to PMO leg; for a FRA to FCO leg on a weekday that
    has FCO to PMO legs it is 25% of their mean revenue.  For a table
    that has legs, the PACS of a weekday is the mean of the PACS of its
    legs.  (A FRA to FCO leg on a
    weekday without FCO to PMO legs, in a table that has such legs on
    another weekday, is not part of the statement.) *)
Theorem pacs_formula (leg : list KPI.Leg) :
  Forall2
    (fun (r : KPI.Leg) (v : option weekday * option Q) =>
       fst v = KPI.dow r
       /\ (forall c, KPI.l_availablecapacity r = Some c -> 0 < c ->
                     credit_settled leg r = true ->
                     cell_eq (snd v)
                       (Some ((KPI.revenue r
                               + connection_credit KPI.connection_value_pct leg r
                               - KPI.variable_cost_per_seat_leg * c) / c)))
       /\ (KPI.l_availablecapacity r = None
           \/ (exists c, KPI.l_availablecapacity r = Some c /\ c <= 0) ->
           snd v = None))
    leg (KPI.pacs_vals leg)
  /\ (forall r : KPI.Leg,
         (KPI.is_fra_fco r = false ->
          connection_credit KPI.connection_value_pct leg r = 0)
         /\ (KPI.fco_pmo leg = [] ->
             connection_credit KPI.connection_value_pct leg r == 0)
         /\ (forall d, KPI.is_fra_fco r = true -> KPI.dow r = Some d ->
                       connecting_on d leg <> [] ->
                       connection_credit KPI.connection_value_pct leg r
                       = (25 # 100)
                         * (Qsum (map KPI.revenue (connecting_on d leg))
                            / Qlen (connecting_on d leg))))
  /\ KPI.variable_cost_per_seat_leg = 40
  /\ (leg <> [] ->
      map fst (KPI.pacs_dow leg) = DOW_ORDER
      /\ forall d : weekday,
          at_day d (KPI.pacs_dow leg) = mean_skipna (pacs_on d leg)).
Proof.
  split; [|split; [|split]].
  - unfold KPI.pacs_vals. apply Forall2_map_r. intros r _.
    split; [reflexivity|]. split.
    + intros c. apply pacs_row_settled.
    + apply pacs_row_no_capacity.
  - intros r. split; [|split].
    + intros H. unfold connection_credit. now rewrite H.
    + intros H. unfold connection_credit.
      destruct (KPI.is_fra_fco r); [|reflexivity].
      destruct (KPI.dow r) as [d|]; [|reflexivity].
      now rewrite (connecting_on_none leg d H).
    + intros d Hf Hd Hn. unfold connection_credit. rewrite Hf, Hd.
      destruct (connecting_on d leg); [contradiction|reflexivity].
  - reflexivity.
  - intros _. split; [reflexivity|]. intros d. apply pacs_at_day.
Qed.

Lemma pacs_formula_witness :
  exists (r : KPI.Leg) (v : option weekday * option Q),
    (nth_error Sample.legs_feeder 0 = Some r
     /\ nth_error (KPI.pacs_vals Sample.legs_feeder) 0 = Some v
     /\ KPI.is_fra_fco r = true
     /\ KPI.l_availablecapacity r = Some 180
     /\ 0 < 180
     /\ credit_settled Sample.legs_feeder r = true)
    /\ cell_eq (snd v)
         (Some ((KPI.revenue r
                 + connection_credit KPI.connection_value_pct
                     Sample.legs_feeder r
                 - KPI.variable_cost_per_seat_leg * 180) / 180)).
Proof.
  assert (H : exists (r : KPI.Leg) (v : option weekday * option Q),
             nth_error Sample.legs_feeder 0 = Some r
             /\ nth_error (KPI.pacs_vals Sample.legs_feeder) 0 = Some v).
  { eexists. eexists. split; vm_compute; reflexivity. }
  destruct H as [r [v [Hr Hv]]]. exists r, v.
  assert (Hf : KPI.is_fra_fco r = true).
  { vm_compute in Hr. injection Hr as <-. reflexivity. }
  assert (Hc : KPI.l_availablecapacity r = Some 180).
  { vm_compute in Hr. injection Hr as <-. reflexivity. }
  assert (Hs : credit_settled Sample.legs_feeder r = true).
  { vm_compute in Hr. injection Hr as <-. vm_compute. reflexivity. }
  assert (Hpos : 0 < 180) by reflexivity.
  split; [repeat split; assumption|].
  exact (proj1 (proj2 (Forall2_nth_error _ _ _ 0%nat r v
                         (proj1 (pacs_formula Sample.legs_feeder)) Hr Hv))
           180 Hc Hpos Hs).
Defined.

(** The leg the statement leaves out: a feeder leg on a Friday, in a table
    whose only connecting leg flies on a Monday.  The dict of mean onward
    revenues has a NaN entry for Friday, and the PACS of the leg is
    missing. *)
Lemma pacs_feeder_without_connection_that_day :
  exists r : KPI.Leg,
    nth_error Sample.legs_feeder_friday 0 = Some r
    /\ KPI.is_fra_fco r = true
    /\ KPI.dow r = Some Friday
    /\ KPI.l_availablecapacity r = Some 180
    /\ credit_settled Sample.legs_feeder_friday r = false
    /\ lookup weekday_eqb Friday (KPI.onward_rev_map Sample.legs_feeder_friday)
       = Some None
    /\ snd (KPI.pacs_row Sample.legs_feeder_friday r) = None.
Proof. eexists. vm_compute. repeat split. Qed.

(** ** The table by day of week the KPI script saves *)

Lemma weekday_series_eta (s : list (weekday * option Q)) :
  reindex_float weekday_eqb DOW_ORDER s
  = map (fun d => (d, at_day d (reindex_float weekday_eqb DOW_ORDER s)))
      DOW_ORDER.
Proof. reflexivity. Qed.

Lemma kpi_merge_rows (F P C : weekday -> option Q) :
  KPI.kpi_merge (map (fun d => (d, F d)) DOW_ORDER)
    (map (fun d => (d, P d)) DOW_ORDER) (map (fun d => (d, C d)) DOW_ORDER)
  = map (fun d => KPI.mkKpiRow d (F d) (P d) (C d))
      [Friday; Monday; Saturday; Sunday; Thursday; Tuesday; Wednesday].
Proof. reflexivity. Qed.

Lemma kpi_tbl_rows (leg : list KPI.Leg) (b : list Booking) :
  KPI.kpi_tbl leg b
  = map (fun d =>
           KPI.mkKpiRow d (at_day d (KPI.fwlf_dow leg))
             (at_day d (KPI.pacs_dow leg)) (at_day d (KPI.calf_dow leg b)))
      [Friday; Monday; Saturday; Sunday; Thursday; Tuesday; Wednesday].
Proof.
  unfold KPI.kpi_tbl.
  unfold KPI.fwlf_dow at 1, KPI.pacs_dow at 1, KPI.calf_dow at 1.
  rewrite (weekday_series_eta (map _ (groupby _ _ KPI.dow leg))).
  rewrite (weekday_series_eta (map _ (groupby _ _ _ (KPI.pacs_vals leg)))).
  rewrite (weekday_series_eta (map _ (groupby _ _ _ (KPI.leg2 leg b)))).
  apply kpi_merge_rows.
Qed.

Lemma weekdays_alphabetical :
  Permutation [Friday; Monday; Saturday; Sunday; Thursday; Tuesday; Wednesday]
    DOW_ORDER.
Proof.
  apply NoDup_Permutation.
  - repeat constructor; simpl; intuition discriminate.
  - repeat constructor; simpl; intuition discriminate.
  - intros d. destruct d; simpl; intuition discriminate.
Qed.

(** ** The long and the wide table by segment and weekday *)

Lemma seg_dow_of_row (g : Insights.seg_dow_key * list Insights.Leg) :
  seg_dow_of (Insights.seg_dow_row g) = fst g.
Proof. destruct g as [[[o d] w] l]. reflexivity. Qed.

Lemma lf_seg_dow_keys (leg : list Insights.Leg) :
  map seg_dow_of (Insights.lf_seg_dow leg)
  = map fst (groupby Insights.seg_dow_key_eqb Insights.seg_dow_key_leb
               Insights.seg_dow_key_of leg).
Proof.
  unfold Insights.lf_seg_dow. rewrite map_map. apply map_ext.
  apply seg_dow_of_row.
Qed.

Lemma lf_seg_dow_exact (leg : list Insights.Leg) :
  NoDup (map seg_dow_of (Insights.lf_seg_dow leg))
  /\ (forall k : Insights.seg_dow_key,
         In k (map seg_dow_of (Insights.lf_seg_dow leg))
         <-> exists l, In l leg /\ Insights.seg_dow_key_of l = Some k)
  /\ (forall row, In row (Insights.lf_seg_dow leg) ->
         Insights.s_load_factor row
         = mean_skipna
             (map Insights.load_factor (legs_of_seg_dow (seg_dow_of row) leg))
         /\ Insights.segment row
            = (Insights.s_origin row ++ Insights.ARROW
                 ++ Insights.s_destination row)%string).
Proof.
  split; [|split].
  - rewrite lf_seg_dow_keys.
    apply (NoDup_group_keys Insights.seg_dow_key_eqb Insights.seg_dow_key_leb
             seg_dow_key_eqb_eq).
  - intros k. rewrite lf_seg_dow_keys. unfold groupby. rewrite map_map. simpl.
    rewrite map_id.
    apply (in_group_keys Insights.seg_dow_key_eqb Insights.seg_dow_key_leb
             seg_dow_key_eqb_eq).
  - intros row H. unfold Insights.lf_seg_dow in H.
    apply in_map_iff in H as [g [<- Hg]].
    apply (in_groupby Insights.seg_dow_key_eqb Insights.seg_dow_key_leb
             seg_dow_key_eqb_eq) in Hg as [Hs _].
    rewrite seg_dow_of_row. unfold legs_of_seg_dow. rewrite <- Hs.
    split; reflexivity.
Qed.

Lemma wide_key_eqb_eq (a b : Insights.wide_key) :
  Insights.wide_key_eqb a b = true <-> a = b.
Proof. apply pair_eqb_eq; [apply weekday_eqb_eq|apply String.eqb_eq]. Qed.

Lemma mean_skipna_some (l : list (option Q)) :
  (exists v, mean_skipna l = Some v) <-> exists x, In (Some x) l.
Proof.
  unfold mean_skipna. split.
  - intros [v H]. destruct (dropna l) as [|x t] eqn:E; [discriminate H|].
    exists x. apply in_dropna. rewrite E. now left.
  - intros [x H]. apply in_dropna in H.
    destruct (dropna l) as [|y t]; [destruct H|]. eexists. reflexivity.
Qed.

Lemma in_pivot_cells (leg : list Insights.Leg) (c : Insights.wide_key * Q) :
  In c (Insights.pivot_cells leg)
  <-> (exists r, In r (Insights.lf_seg_dow leg)
                 /\ (Insights.s_dow r, Insights.segment r) = fst c)
      /\ mean_skipna
           (map Insights.s_load_factor
              (filter (has_key Insights.wide_key_eqb
                         (fun r : Insights.SegDow =>
                            Some (Insights.s_dow r, Insights.segment r)) (fst c))
                 (Insights.lf_seg_dow leg)))
         = Some (snd c).
Proof.
  unfold Insights.pivot_cells. rewrite in_dropna, in_map_iff. split.
  - intros [g [E Hg]].
    apply (in_groupby Insights.wide_key_eqb Insights.wide_key_leb wide_key_eqb_eq)
      in Hg as [Hs [r [Hr Hk]]].
    destruct (mean_skipna (map Insights.s_load_factor (snd g))) as [v|] eqn:M;
      [|discriminate E].
    simpl in E. injection E as <-. simpl. split.
    + exists r. split; [exact Hr|]. now injection Hk.
    + now rewrite <- Hs.
  - intros [[r [Hr Hk]] M].
    exists (fst c, filter (has_key Insights.wide_key_eqb
                             (fun r : Insights.SegDow =>
                                Some (Insights.s_dow r, Insights.segment r))
                             (fst c))
                     (Insights.lf_seg_dow leg)).
    split.
    + simpl. rewrite M. simpl. now destruct c.
    + apply (in_groupby Insights.wide_key_eqb Insights.wide_key_leb
               wide_key_eqb_eq).
      simpl. split; [reflexivity|]. exists r. split; [exact Hr|]. now rewrite Hk.
Qed.

Lemma in_wide_index (leg : list Insights.Leg) (d : weekday) :
  In d (Insights.wide_index leg)
  <-> exists r, In r (Insights.lf_seg_dow leg)
                /\ Insights.s_dow r = d /\ Insights.s_load_factor r <> None.
Proof.
  unfold Insights.wide_index.
  rewrite (in_sort_keys weekday_cat_leb), (in_unique weekday_eqb weekday_eqb_eq).
  rewrite in_map_iff. split.
  - intros [c [<- Hc]]. apply in_pivot_cells in Hc as [_ M].
    assert (Hx : exists v, mean_skipna
                   (map Insights.s_load_factor
                      (filter (has_key Insights.wide_key_eqb
                                 (fun r : Insights.SegDow =>
                                    Some (Insights.s_dow r, Insights.segment r))
                                 (fst c))
                         (Insights.lf_seg_dow leg))) = Some v)
      by (eexists; exact M).
    apply mean_skipna_some in Hx as [x Hx].
    apply in_map_iff in Hx as [r [Hl Hr]].
    apply filter_In in Hr as [Hr Hk]. unfold has_key in Hk.
    apply wide_key_eqb_eq in Hk.
    exists r. split; [exact Hr|]. split; [now rewrite Hk|].
    rewrite Hl. discriminate.
  - intros [r [Hr [Hd Hn]]].
    destruct (Insights.s_load_factor r) as [x|] eqn:Ex; [|contradiction].
    set (k := (Insights.s_dow r, Insights.segment r)).
    assert (Hm : exists v, mean_skipna
                   (map Insights.s_load_factor
                      (filter (has_key Insights.wide_key_eqb
                                 (fun r : Insights.SegDow =>
                                    Some (Insights.s_dow r, Insights.segment r)) k)
                         (Insights.lf_seg_dow leg))) = Some v).
    { apply mean_skipna_some. exists x. apply in_map_iff. exists r.
      split; [exact Ex|]. apply filter_In. split; [exact Hr|].
      unfold has_key. now apply wide_key_eqb_eq. }
    destruct Hm as [v Hm]. exists (k, v). split; [exact Hd|].
    apply in_pivot_cells. simpl. split; [|exact Hm].
    exists r. split; [exact Hr|reflexivity].
Qed.

Lemma insert_weekday_sorted (k : weekday) (l : list weekday) :
  StronglySorted (fun a b => (weekday_index a <= weekday_index b)%Z) l ->
  StronglySorted (fun a b => (weekday_index a <= weekday_index b)%Z)
    (insert_key weekday_cat_leb k l).
Proof.
  induction l as [|h t IH]; intros H; simpl.
  - constructor; constructor.
  - inversion H as [|? ? Ht Hh]; subst. unfold weekday_cat_leb at 1.
    destruct (Z.leb_spec (weekday_index k) (weekday_index h)) as [Hle|Hgt].
    + constructor; [exact H|]. constructor; [exact Hle|].
      rewrite Forall_forall in *. intros x Hx. specialize (Hh x Hx). lia.
    + constructor; [now apply IH|].
      rewrite Forall_forall in *. intros x Hx.
      apply (in_insert_key weekday_cat_leb) in Hx as [->|Hx]; [lia|now apply Hh].
Qed.

Lemma sort_weekdays_sorted (l : list weekday) :
  StronglySorted (fun a b => (weekday_index a <= weekday_index b)%Z)
    (sort_keys weekday_cat_leb l).
Proof.
  induction l as [|k t IH]; simpl; [constructor|].
  now apply insert_weekday_sorted.
Qed.

Lemma weekday_index_inj (a b : weekday) :
  weekday_index a = weekday_index b -> a = b.
Proof. intros H. apply weekday_eqb_eq. unfold weekday_eqb. now apply Z.eqb_eq. Qed.

Lemma sorted_nodup_strict (l : list weekday) :
  NoDup l ->
  StronglySorted (fun a b => (weekday_index a <= weekday_index b)%Z) l ->
  StronglySorted earlier_in_week l.
Proof.
  induction l as [|h t IH]; intros Hn Hs; [constructor|].
  inversion Hn as [|? ? Hh Ht]; subst.
  inversion Hs as [|? ? Hst Hf]; subst.
  constructor; [now apply IH|].
  rewrite Forall_forall in *. intros x Hx. unfold earlier_in_week.
  specialize (Hf x Hx).
  destruct (Z.eq_dec (weekday_index h) (weekday_index x)) as [E|E]; [|lia].
  apply weekday_index_inj in E. subst x. contradiction.
Qed.

Lemma wide_index_sorted (leg : list Insights.Leg) :
  NoDup (Insights.wide_index leg)
  /\ StronglySorted earlier_in_week (Insights.wide_index leg).
Proof.
  assert (Hn : NoDup (Insights.wide_index leg)).
  { unfold Insights.wide_index. apply NoDup_sort_keys.
    apply (NoDup_unique weekday_eqb weekday_eqb_eq). }
  split; [exact Hn|].
  apply sorted_nodup_strict; [exact Hn|]. apply sort_weekdays_sorted.
Qed.

Lemma wide_rows_index (leg : list Insights.Leg) :
  map fst (Insights.lf_seg_dow_wide leg) = Insights.wide_index leg.
Proof.
  unfold Insights.lf_seg_dow_wide. rewrite map_map. simpl. apply map_id.
Qed.

(** The wide table of a segment flown on a Monday and on a Friday has the
    two rows Monday and Friday. *)
Lemma wide_table_two_days :
  map fst (Insights.lf_seg_dow_wide Sample.legs_two_days) = [Monday; Friday].
Proof. vm_compute. reflexivity. Qed.

(** C5, amended.  The tables cancellations by weekday and load factor by
    weekday of the insights script, and the series FWLF, CALF and PACS by
    weekday of the KPI script (PACS for a leg table that has rows), have
    the seven weekdays exactly once, Monday first, whatever the input; a
    weekday without data is a row with zero counts and missing metrics.
    The table of the three KPIs by weekday, for a leg table that has rows,
    has each of the seven weekdays exactly once, with the FWLF, PACS and
    CALF of that weekday.  The long table by segment and weekday has exactly one
    row for each origin, destination and weekday that some leg has, with
    the mean load factor of those legs, and no other row.  The wide table
    has a row exactly for the weekdays of the long rows that have a load
    factor, each once, Monday first. *)
Theorem weekday_tables_are_canonical :
  (forall b : list Booking,
      map Insights.c_flight_dow (Insights.cxl_rate_by_dow b) = DOW_ORDER
      /\ forall d : weekday,
          (forall x, In x b -> Insights.flight_dow x <> Some d) ->
          In (Insights.mkCxlRate d 0 (Some 0%nat) None)
            (Insights.cxl_rate_by_dow b))
  /\ (forall leg : list Insights.Leg,
         map fst (Insights.lf_by_dow leg) = DOW_ORDER
         /\ forall d : weekday,
             (forall l, In l leg -> Insights.leg_dow l <> Some d) ->
             at_day d (Insights.lf_by_dow leg) = None)
  /\ (forall (leg : list KPI.Leg) (b : list Booking),
         map fst (KPI.fwlf_dow leg) = DOW_ORDER
         /\ map fst (KPI.calf_dow leg b) = DOW_ORDER
         /\ forall d : weekday,
             (forall l, In l leg -> KPI.dow l <> Some d) ->
             at_day d (KPI.fwlf_dow leg) = None
             /\ at_day d (KPI.calf_dow leg b) = None)
  /\ (forall leg : list KPI.Leg,
         leg <> [] ->
         map fst (KPI.pacs_dow leg) = DOW_ORDER
         /\ forall d : weekday,
             (forall l, In l leg -> KPI.dow l <> Some d) ->
             at_day d (KPI.pacs_dow leg) = None)
  /\ (forall (leg : list KPI.Leg) (b : list Booking),
         leg <> [] ->
         Permutation (map KPI.k_dow (KPI.kpi_tbl leg b)) DOW_ORDER
         /\ forall row, In row (KPI.kpi_tbl leg b) ->
              KPI.FWLF row = at_day (KPI.k_dow row) (KPI.fwlf_dow leg)
              /\ KPI.PACS row = at_day (KPI.k_dow row) (KPI.pacs_dow leg)
              /\ KPI.CALF row = at_day (KPI.k_dow row) (KPI.calf_dow leg b))
  /\ (forall leg : list Insights.Leg,
         NoDup (map seg_dow_of (Insights.lf_seg_dow leg))
         /\ (forall k : Insights.seg_dow_key,
                In k (map seg_dow_of (Insights.lf_seg_dow leg))
                <-> exists l, In l leg /\ Insights.seg_dow_key_of l = Some k)
         /\ (forall row, In row (Insights.lf_seg_dow leg) ->
                Insights.s_load_factor row
                = mean_skipna
                    (map Insights.load_factor
                       (legs_of_seg_dow (seg_dow_of row) leg))
                /\ Insights.segment row
                   = (Insights.s_origin row ++ Insights.ARROW
                        ++ Insights.s_destination row)%string))
  /\ (forall leg : list Insights.Leg,
         NoDup (map fst (Insights.lf_seg_dow_wide leg))
         /\ StronglySorted earlier_in_week
              (map fst (Insights.lf_seg_dow_wide leg))
         /\ forall d : weekday,
             In d (map fst (Insights.lf_seg_dow_wide leg))
             <-> exists r, In r (Insights.lf_seg_dow leg)
                           /\ Insights.s_dow r = d
                           /\ Insights.s_load_factor r <> None).
Proof.
  split; [|split; [|split; [|split; [|split; [|split]]]]].
  - intros b. rewrite cxl_rate_by_dow_rows. split; [reflexivity|].
    intros d H. apply in_map_iff. exists d. split.
    + rewrite !(no_row_no_group weekday_eqb Insights.flight_dow d _ weekday_eqb_eq).
      * reflexivity.
      * intros x Hx. apply filter_In in Hx as [Hx _]. now apply H.
      * exact H.
    + destruct d; simpl; tauto.
  - intros leg. split; [reflexivity|]. apply lf_by_dow_at_day.
  - intros leg b. repeat split.
    + rewrite fwlf_at_day.
      assert (Hb : bucket d leg = [])
        by (apply (no_row_no_group weekday_eqb KPI.dow d leg weekday_eqb_eq);
            exact H).
      rewrite Hb. reflexivity.
    + rewrite calf_at_day.
      replace (filter (fun l2 : KPI.Leg2 => on_day d (KPI.base l2)) (KPI.leg2 leg b))
        with (@nil KPI.Leg2); [reflexivity|].
      symmetry.
      apply (no_row_no_group weekday_eqb
               (fun l2 : KPI.Leg2 => KPI.dow (KPI.base l2)) d _ weekday_eqb_eq).
      intros l2 Hl2. apply leg2_realized_pax in Hl2 as [Hb _]. now apply H.
  - intros leg _. split; [reflexivity|]. intros d H.
    rewrite pacs_at_day. unfold pacs_on.
    rewrite (no_row_no_group weekday_eqb _ d _ weekday_eqb_eq); [reflexivity|].
    intros v Hv. unfold KPI.pacs_vals in Hv.
    apply in_map_iff in Hv as [l [<- Hl]]. simpl. now apply H.
  - intros leg b _. rewrite kpi_tbl_rows. split.
    + rewrite map_map. simpl. exact weekdays_alphabetical.
    + intros row Hrow. apply in_map_iff in Hrow as [d [<- _]]. simpl.
      repeat split.
  - apply lf_seg_dow_exact.
  - intros leg. rewrite wide_rows_index.
    destruct (wide_index_sorted leg) as [Hn Hs].
    split; [exact Hn|]. split; [exact Hs|]. apply in_wide_index.
Qed.

Lemma weekday_tables_are_canonical_witness :
  (forall x, In x Sample.bookings_two_days ->
             Insights.flight_dow x <> Some Tuesday)
  /\ In (Insights.mkCxlRate Tuesday 0 (Some 0%nat) None)
       (Insights.cxl_rate_by_dow Sample.bookings_two_days).
Proof.
  assert (H : forall x, In x Sample.bookings_two_days ->
                        Insights.flight_dow x <> Some Tuesday).
  { intros x Hx. simpl in Hx.
    repeat (destruct Hx as [<-|Hx]; [vm_compute; discriminate|]).
    destruct Hx. }
  split; [exact H|].
  exact (proj2 (proj1 weekday_tables_are_canonical Sample.bookings_two_days)
           Tuesday H).
Defined.
